(** * PatternLayout of log4cplus: a shallow embedding and its properties

    The development follows [src/patternlayout.cxx]: the formatting
    information record, the four converter classes, the pattern parser
    (a character-driven state machine) and the layout that owns the parsed
    converters.

    Conventions of the embedding.
    - A [std::string] is a list of characters.  Lengths and positions are
      kept as exact integers: the program stores them in [int], and every
      string a layout sees (patterns, logger names, messages) is far shorter
      than 2^31 characters.  The conversions between [int] and [size_t] are
      written out where a negative [int] reaches a [size_t] parameter or
      [npos] comes back ([rfind], [find_first_of]).
    - The widths and the precision are [int]s that a pattern can push past
      2^31: their arithmetic wraps around modulo 2^32, as the compiled
      program does, and [atoi] converts the [long] of [strtol] to [int].
    - Code that can end abnormally returns a [result]: either its value or
      the way it ended (an exception thrown, a division by zero, a null
      converter dereferenced).
    - The process-wide [LogLog] is an append-only list of entries that the
      functions writing to it return next to their result. *)

From Stdlib Require Import ZArith Ascii String List Lia Bool DecimalString.
From stdpp Require Import base option list gmap strings.
Import ListNotations.
Local Open Scope Z_scope.

(** ** Strings *)

Abbreviation cstring := (list ascii).

(** ** Abnormal ends *)

Inductive abend :=
  | out_of_range                     (* thrown by [at] and [substr] *)
  | runtime_error (what : cstring)   (* thrown by the layout constructor *)
  | division_by_zero                 (* integer division, undefined in C++ *)
  | null_dereference                 (* a call through a null converter *)
  | null_tm.                         (* [strftime] reading a null [struct tm] *)

Inductive result (A : Type) :=
  | Ok (a : A)
  | Stop (e : abend).

Arguments Ok {A} a.
Arguments Stop {A} e.

Definition bind {A B : Type} (r : result A) (k : A -> result B) : result B :=
  match r with
  | Ok a => k a
  | Stop e => Stop e
  end.

Notation "'let*' x ':=' r 'in' k" := (bind r (fun x => k))
  (at level 10, x pattern, r at level 100, k at level 200).

(** A string literal of the source. *)
Definition text (s : string) : cstring := list_ascii_of_string s.

Definition dquote : ascii := "034"%char.
Definition newline : ascii := "010"%char.
Definition space : ascii := " "%char.

Definition ESCAPE_CHAR : ascii := "%"%char.
Definition MILLIS_PER_SEC : Z := 1000.
Definition BUFFER_SIZE : Z := 30.

Definition INT_MAX : Z := 2147483647.
Definition INT_MIN : Z := -2147483648.
Definition LONG_MAX : Z := 9223372036854775807.
Definition LONG_MIN : Z := -9223372036854775808.

(** A value brought into [int] by wrapping around, modulo 2^32. *)
Definition to_int (z : Z) : Z := (z + 2147483648) mod 4294967296 - 2147483648.

(** [a * b] and [a + b] on [int]. *)
Definition int_mul (a b : Z) : Z := to_int (a * b).
Definition int_add (a b : Z) : Z := to_int (a + b).
Definition SIZE_MODULUS : Z := 2 ^ 64.

(** [std::string::npos], the largest [size_t]. *)
Definition npos : Z := SIZE_MODULUS - 1.

(** Conversion of an [int] to [size_t]: negative values wrap around. *)
Definition to_size_t (z : Z) : Z := if z <? 0 then z + SIZE_MODULUS else z.

(** Conversion of a [size_t] search result to [int]: an index is kept, [npos]
    becomes -1. *)
Definition index_to_int (r : option nat) : Z :=
  match r with
  | Some i => Z.of_nat i
  | None => -1
  end.

(** [e == std::string::npos] for an [int e]: the comparison converts [e] to
    [size_t], and -1 is the one [int] that becomes [npos]. *)
Definition is_npos (e : Z) : bool := e =? -1.

Definition len (s : cstring) : Z := Z.of_nat (length s).

(** [s.at(i)], which checks its index. *)
Definition at_ (s : cstring) (i : Z) : result ascii :=
  if (i <? 0) || (len s <=? i) then Stop out_of_range
  else match nth_error s (Z.to_nat i) with
       | Some c => Ok c
       | None => Stop out_of_range
       end.

(** [s.substr(pos)] with [pos] a [size_t]; a position past the end throws. *)
Definition substr (s : cstring) (pos : Z) : result cstring :=
  if len s <? pos then Stop out_of_range else Ok (skipn (Z.to_nat pos) s).

(** [s.substr(pos, n)]. *)
Definition substr_n (s : cstring) (pos n : Z) : result cstring :=
  if len s <? pos then Stop out_of_range
  else Ok (firstn (Z.to_nat n) (skipn (Z.to_nat pos) s)).

(** [std::string(n, c)]. *)
Definition fill (n : Z) (c : ascii) : cstring := repeat c (Z.to_nat n).

(** Index of the first [c] in [s], counted from [i]. *)
Fixpoint find_from (c : ascii) (s : cstring) (i : nat) : option nat :=
  match s with
  | [] => None
  | x :: s' => if Ascii.eqb x c then Some i else find_from c s' (S i)
  end.

(** [s.find_first_of(c, pos)]: the first index at or after [pos] holding [c]. *)
Definition find_first_of (s : cstring) (c : ascii) (pos : Z) : option nat :=
  if len s <=? pos then None
  else find_from c (skipn (Z.to_nat pos) s) (Z.to_nat pos).

(** Index of the last [c] among the first [n] characters of [s]. *)
Fixpoint rfind_upto (c : ascii) (s : cstring) (n : nat) : option nat :=
  match n with
  | O => None
  | S k =>
      match nth_error s k with
      | Some x => if Ascii.eqb x c then Some k else rfind_upto c s k
      | None => rfind_upto c s k
      end
  end.

(** [s.rfind(c, pos)]: the last index at or before [pos] holding [c]; the
    search starts at [min(pos, size - 1)] and an empty string has no match. *)
Definition rfind (s : cstring) (c : ascii) (pos : Z) : option nat :=
  match length s with
  | O => None
  | S last => rfind_upto c s (S (Z.to_nat (Z.min pos (Z.of_nat last))))
  end.

(** [ostream << int]: decimal digits, with a minus sign when negative. *)
Definition show_int (z : Z) : cstring :=
  text (NilZero.string_of_int (Z.to_int z)).

Definition is_digit (c : ascii) : bool :=
  let n := Z.of_nat (nat_of_ascii c) in (48 <=? n) && (n <=? 57).

(** [c - '0']. *)
Definition digit_value (c : ascii) : Z := Z.of_nat (nat_of_ascii c) - 48.

Definition is_space (c : ascii) : bool :=
  let n := nat_of_ascii c in
  (Nat.eqb n 32) || ((Nat.leb 9 n) && (Nat.leb n 13)).

Fixpoint atoi_digits (acc : Z) (s : cstring) : Z :=
  match s with
  | c :: s' => if is_digit c then atoi_digits (acc * 10 + digit_value c) s' else acc
  | [] => acc
  end.

Fixpoint skip_spaces (s : cstring) : cstring :=
  match s with
  | c :: s' => if is_space c then skip_spaces s' else s
  | [] => []
  end.

(** [strtol(s, 0, 10)]: optional white space, an optional sign, then decimal
    digits; the value is 0 when no digit follows, and a value outside [long]
    is replaced by the nearest bound. *)
Definition strtol (s : cstring) : Z :=
  let v :=
    match skip_spaces s with
    | c :: s' =>
        if Ascii.eqb c "-" then - atoi_digits 0 s'
        else if Ascii.eqb c "+" then atoi_digits 0 s'
        else atoi_digits 0 (c :: s')
    | [] => 0
    end in
  Z.max LONG_MIN (Z.min LONG_MAX v).

(** [atoi], which is [(int) strtol(s, 0, 10)]. *)
Definition atoi (s : cstring) : Z := to_int (strtol s).

(** ** The diagnostic channel *)

Inductive LogLogLevel := LL_DEBUG | LL_WARN | LL_ERROR.

Definition LogEntry : Type := LogLogLevel * cstring.
Definition LogLog : Type := list LogEntry.

(** ** What the platform and the rest of the library supply

    None of these is defined in [patternlayout.cxx]: the clock resolution
    [CLOCKS_PER_SEC], [LogLevelManager::toString], the stream inserter of the
    thread key, [gmtime] and [localtime] ([None] is the null pointer they
    return for a time they cannot break down), and the text the C library's
    [strftime] builds for a template and a broken-down time ([None] when it
    produces nothing for the template). *)
Record Platform := {
  CLOCKS_PER_SEC : Z;
  llm_toString : Z -> cstring;
  show_thread : Z -> cstring;
  tm : Type;
  gmtime : Z -> option tm;
  localtime : Z -> option tm;
  calendar_text : cstring -> tm -> option cstring
}.

(** [strftime(buffer, max, format, time)] by its contract in the C standard:
    when the text and its terminating null fit in [max] bytes the text is
    stored and its length returned; otherwise 0 is returned and the buffer
    holds nothing that is read. *)
Definition strftime (P : Platform) (max : Z) (format : cstring) (t : tm P)
  : Z * cstring :=
  match calendar_text P format t with
  | Some r => if len r + 1 <=? max then (len r, r) else (0, [])
  | None => (0, [])
  end.

(** ** The logging event, as this file reads it *)

Record InternalLoggingEvent := {
  message : cstring;
  loggerName : cstring;
  ll : Z;
  ndc : cstring;
  thread : Z;
  timestamp : Z;
  clock_ticks : Z;
  file : option cstring;      (* [const char*], null when unknown *)
  line : Z                    (* -1 when unknown *)
}.

(** ** FormattingInfo *)

Record FormattingInfo := {
  minLen : Z;
  maxLen : Z;
  leftAlign : bool
}.

Definition FormattingInfo_reset : FormattingInfo :=
  {| minLen := -1; maxLen := 2147483647; leftAlign := false |}.

Definition FormattingInfo_dump (i : FormattingInfo) : LogLog :=
  [(LL_DEBUG,
    text "min=" ++ show_int (minLen i) ++ text ", max=" ++ show_int (maxLen i)
    ++ text ", leftAlign="
    ++ (if leftAlign i then text "true" else text "false"))].

(** ** Converters *)

Inductive BasicType :=
  | RELATIVE_TIME_CONVERTER
  | THREAD_CONVERTER
  | LOGLEVEL_CONVERTER
  | NDC_CONVERTER
  | MESSAGE_CONVERTER
  | NEWLINE_CONVERTER
  | FILE_CONVERTER
  | LINE_CONVERTER
  | FULL_LOCATION_CONVERTER.

(** The class hierarchy under [PatternConverter].  Every object carries the
    copy of the formatting information its base class keeps; a basic
    converter also keeps [CLOCKS_PER_MILLIS]. *)
Inductive PatternConverter :=
  | Literal (info : FormattingInfo) (str : cstring)
  | Basic (info : FormattingInfo) (CLOCKS_PER_MILLIS : Z) (type : BasicType)
  | Logger (info : FormattingInfo) (precision : Z)
  | Date (info : FormattingInfo) (format : cstring) (use_gmtime : bool).

Definition info_of (pc : PatternConverter) : FormattingInfo :=
  match pc with
  | Literal i _ | Basic i _ _ | Logger i _ | Date i _ _ => i
  end.

(** Constructors.  The literal converter is built on a fresh
    [FormattingInfo()]; the basic one reports a clock too coarse for
    milliseconds. *)
Definition LiteralPatternConverter (str : cstring) : PatternConverter :=
  Literal FormattingInfo_reset str.

Definition BasicPatternConverter (P : Platform) (info : FormattingInfo)
    (type : BasicType) : PatternConverter * LogLog :=
  (Basic info (Z.quot (CLOCKS_PER_SEC P) MILLIS_PER_SEC) type,
   match type with
   | RELATIVE_TIME_CONVERTER =>
       if CLOCKS_PER_SEC P <? MILLIS_PER_SEC
       then [(LL_ERROR,
              text "RELATIVE_TIME will not display correctly on this platform")]
       else []
   | _ => []
   end).

Definition LoggerPatternConverter (info : FormattingInfo) (precision : Z)
  : PatternConverter := Logger info precision.

Definition DatePatternConverter (info : FormattingInfo) (pattern : cstring)
    (use_gmtime : bool) : PatternConverter := Date info pattern use_gmtime.

(** [BasicPatternConverter::convert].  The relative time divides the tick
    count by [CLOCKS_PER_MILLIS]. *)
Definition BasicPatternConverter_convert (P : Platform) (cpm : Z)
    (type : BasicType) (event : InternalLoggingEvent) : result cstring :=
  match type with
  | LOGLEVEL_CONVERTER => Ok (llm_toString P (ll event))
  | NDC_CONVERTER => Ok (ndc event)
  | MESSAGE_CONVERTER => Ok (message event)
  | NEWLINE_CONVERTER => Ok [newline]
  | FILE_CONVERTER =>
      Ok (match file event with Some f => f | None => [] end)
  | RELATIVE_TIME_CONVERTER =>
      if cpm =? 0 then Stop division_by_zero
      else Ok (show_int (Z.quot (clock_ticks event) cpm))
  | THREAD_CONVERTER => Ok (show_thread P (thread event))
  | LINE_CONVERTER =>
      if negb (line event =? -1) then Ok (show_int (line event))
      else Ok []
  | FULL_LOCATION_CONVERTER =>
      match file event with
      | Some f => Ok (f ++ [":"%char] ++ show_int (line event))
      | None => Ok (text ":")
      end
  end.

(** The loop of [LoggerPatternConverter::convert]: [i] counts the dots still
    to find, [end_] is the variable [end]; [None] is the early return of the
    whole name. *)
Fixpoint logger_walk (name : cstring) (i : nat) (end_ : Z) : option Z :=
  match i with
  | O => Some end_
  | S i' =>
      let end' := index_to_int (rfind name "."%char (to_size_t (end_ - 1))) in
      if is_npos end' then None
      else logger_walk name i' end'
  end.

(** [LoggerPatternConverter::convert]. *)
Definition LoggerPatternConverter_convert (precision : Z)
    (event : InternalLoggingEvent) : result cstring :=
  let name := loggerName event in
  if precision <=? 0 then Ok name
  else
    let len := len name in
    let end_ := len - 1 in
    match logger_walk name (Z.to_nat precision) end_ with
    | None => Ok name
    | Some e => substr name (to_size_t (e + 1))
    end.

(** [DatePatternConverter::convert].  The pointer [gmtime] or [localtime]
    returns goes to [strftime] unchecked, and [strftime] reads through
    it. *)
Definition DatePatternConverter_convert (P : Platform) (format : cstring)
    (use_gmtime : bool) (event : InternalLoggingEvent) : result cstring :=
  let time := if use_gmtime then gmtime P (timestamp event)
              else localtime P (timestamp event) in
  match time with
  | None => Stop null_tm
  | Some time =>
      let '(result, buffer) := strftime P BUFFER_SIZE format time in
      if result >? 0 then Ok (firstn (Z.to_nat result) buffer)
      else Ok (text "INVALID DATE PATTERN")
  end.

(** The virtual [convert]. *)
Definition convert (P : Platform) (pc : PatternConverter)
    (event : InternalLoggingEvent) : result cstring :=
  match pc with
  | Literal _ str => Ok str
  | Basic _ cpm type => BasicPatternConverter_convert P cpm type event
  | Logger _ precision => LoggerPatternConverter_convert precision event
  | Date _ format use_gmtime =>
      DatePatternConverter_convert P format use_gmtime event
  end.

(** The padding and truncation of [PatternConverter::formatAndAppend],
    applied to the converted string [s]; the result is what is inserted in
    [output]. *)
Definition format_field (i : FormattingInfo) (s : cstring) : result cstring :=
  let len := len s in
  if len >? maxLen i then substr s (to_size_t (len - maxLen i))
  else if len <? minLen i then
    if leftAlign i then Ok (s ++ fill (minLen i - len) space)
    else Ok (fill (minLen i - len) space ++ s)
  else Ok s.

(** [PatternConverter::formatAndAppend]. *)
Definition PatternConverter_formatAndAppend (P : Platform)
    (pc : PatternConverter) (event : InternalLoggingEvent) : result cstring :=
  let* s := convert P pc event in
  format_field (info_of pc) s.

(** [v.size() == 0]. *)
Definition len_nat_zero {A : Type} (l : list A) : bool :=
  Nat.eqb (length l) 0.

(** ** PatternParser *)

Inductive ParserState :=
  | LITERAL_STATE
  | CONVERTER_STATE
  | MINUS_STATE
  | DOT_STATE
  | MIN_STATE
  | MAX_STATE.

(** The data members of the parser, together with the diagnostics written so
    far. *)
Record PatternParser := {
  pattern : cstring;
  formattingInfo : FormattingInfo;
  list_ : list (option PatternConverter);   (* a null pointer is [None] *)
  state : ParserState;
  pos : Z;
  currentLiteral : cstring;
  loglog : LogLog
}.

Definition PatternParser_new (pattern : cstring) : PatternParser :=
  {| pattern := pattern; formattingInfo := FormattingInfo_reset; list_ := [];
     state := LITERAL_STATE; pos := 0; currentLiteral := []; loglog := [] |}.

(** Assignments to single members. *)
Definition set_pos (p : PatternParser) (n : Z) : PatternParser :=
  {| pattern := pattern p; formattingInfo := formattingInfo p;
     list_ := list_ p; state := state p; pos := n;
     currentLiteral := currentLiteral p; loglog := loglog p |}.

Definition set_state (p : PatternParser) (s : ParserState) : PatternParser :=
  {| pattern := pattern p; formattingInfo := formattingInfo p;
     list_ := list_ p; state := s; pos := pos p;
     currentLiteral := currentLiteral p; loglog := loglog p |}.

Definition set_formattingInfo (p : PatternParser) (i : FormattingInfo)
  : PatternParser :=
  {| pattern := pattern p; formattingInfo := i;
     list_ := list_ p; state := state p; pos := pos p;
     currentLiteral := currentLiteral p; loglog := loglog p |}.

Definition set_currentLiteral (p : PatternParser) (s : cstring)
  : PatternParser :=
  {| pattern := pattern p; formattingInfo := formattingInfo p;
     list_ := list_ p; state := state p; pos := pos p;
     currentLiteral := s; loglog := loglog p |}.

(** [list.push_back(pc)]. *)
Definition push_back (p : PatternParser) (pc : option PatternConverter)
  : PatternParser :=
  {| pattern := pattern p; formattingInfo := formattingInfo p;
     list_ := list_ p ++ [pc]; state := state p; pos := pos p;
     currentLiteral := currentLiteral p; loglog := loglog p |}.

(** Entries written to [getLogLog()]. *)
Definition write_log (p : PatternParser) (l : LogLog) : PatternParser :=
  {| pattern := pattern p; formattingInfo := formattingInfo p;
     list_ := list_ p; state := state p; pos := pos p;
     currentLiteral := currentLiteral p; loglog := loglog p ++ l |}.

(** [currentLiteral += c]. *)
Definition append_literal (p : PatternParser) (c : ascii) : PatternParser :=
  set_currentLiteral p (currentLiteral p ++ [c]).

Definition set_minLen (i : FormattingInfo) (n : Z) : FormattingInfo :=
  {| minLen := n; maxLen := maxLen i; leftAlign := leftAlign i |}.

Definition set_maxLen (i : FormattingInfo) (n : Z) : FormattingInfo :=
  {| minLen := minLen i; maxLen := n; leftAlign := leftAlign i |}.

Definition set_leftAlign (i : FormattingInfo) (b : bool) : FormattingInfo :=
  {| minLen := minLen i; maxLen := maxLen i; leftAlign := b |}.

(** [PatternParser::extractOption]: the text between braces at [pos], and the
    parser moved past the closing brace. *)
Definition PatternParser_extractOption (p : PatternParser)
  : result (cstring * PatternParser) :=
  if to_size_t (pos p) <? len (pattern p) then
    let* c := at_ (pattern p) (pos p) in
    if Ascii.eqb c "{" then
      let end_ :=
        index_to_int (find_first_of (pattern p) "}"%char (to_size_t (pos p))) in
      if end_ >? pos p then
        let* r := substr_n (pattern p) (to_size_t (pos p + 1))
                           (to_size_t (end_ - pos p - 1)) in
        Ok (r, set_pos p (end_ + 1))
      else Ok ([], p)
    else Ok ([], p)
  else Ok ([], p).

(** [PatternParser::extractPrecisionOption]. *)
Definition PatternParser_extractPrecisionOption (p : PatternParser)
  : result (Z * PatternParser) :=
  let* (opt, p') := PatternParser_extractOption p in
  let r := 0 in
  let r := if len opt >? 0 then atoi opt else r in
  Ok (r, p').

Definition unexpected_char_message (c : ascii) (pos : Z) : cstring :=
  text "Unexpected char [" ++ [c] ++ text "] at position " ++ show_int pos
  ++ text " in conversion patterrn.".

(** [PatternParser::finalizeConverter]. *)
Definition PatternParser_finalizeConverter (P : Platform) (c : ascii)
    (p : PatternParser) : result PatternParser :=
  let info := formattingInfo p in
  let basic type :=
    let '(pc, l) := BasicPatternConverter P info type in
    Ok (Some pc, write_log p l) in
  let* (pc, p) :=
    if Ascii.eqb c "c" then
      let* (precision, p) := PatternParser_extractPrecisionOption p in
      Ok (Some (LoggerPatternConverter info precision),
          write_log p ((LL_DEBUG, text "LOGGER converter.")
                       :: FormattingInfo_dump info))
    else if Ascii.eqb c "d" || Ascii.eqb c "D" then
      let* (dOpt, p) := PatternParser_extractOption p in
      let dOpt := if len dOpt =? 0 then text "%Y-%m-%d %H:%M:%S" else dOpt in
      let use_gmtime := Ascii.eqb c "d" in
      Ok (Some (DatePatternConverter info dOpt use_gmtime), p)
    else if Ascii.eqb c "F" then basic FILE_CONVERTER
    else if Ascii.eqb c "l" then basic FULL_LOCATION_CONVERTER
    else if Ascii.eqb c "L" then basic LINE_CONVERTER
    else if Ascii.eqb c "m" then basic MESSAGE_CONVERTER
    else if Ascii.eqb c "n" then basic NEWLINE_CONVERTER
    else if Ascii.eqb c "p" then basic LOGLEVEL_CONVERTER
    else if Ascii.eqb c "r" then basic RELATIVE_TIME_CONVERTER
    else if Ascii.eqb c "t" then basic THREAD_CONVERTER
    else if Ascii.eqb c "x" then basic NDC_CONVERTER
    else
      Ok (Some (LiteralPatternConverter (currentLiteral p)),
          write_log p [(LL_ERROR, unexpected_char_message c (pos p))]) in
  let p := set_currentLiteral p [] in
  let p := push_back p pc in
  let p := set_state p LITERAL_STATE in
  Ok (set_formattingInfo p FormattingInfo_reset).

Definition expecting_digit_message (c : ascii) (pos : Z) : cstring :=
  text "Error occured in position " ++ show_int pos ++ text "." ++ [newline]
  ++ text " Was expecting digit, instead got char " ++ [dquote; c; dquote]
  ++ text ".".

(** The body of the [while] loop of [PatternParser::parse]: one character is
    read and the switch on [state] is run. *)
Definition parse_body (P : Platform) (p : PatternParser)
  : result PatternParser :=
  let* c := at_ (pattern p) (pos p) in
  let p := set_pos p (pos p + 1) in
  match state p with
  | LITERAL_STATE =>
      (* In literal state, the last char is always a literal. *)
      if to_size_t (pos p) =? len (pattern p) then Ok (append_literal p c)
      else if Ascii.eqb c ESCAPE_CHAR then
        (* peek at the next char. *)
        let* d := at_ (pattern p) (pos p) in
        if Ascii.eqb d ESCAPE_CHAR then
          Ok (set_pos (append_literal p c) (pos p + 1))
        else if Ascii.eqb d "n" then
          Ok (set_pos (append_literal p newline) (pos p + 1))
        else
          let p :=
            if negb (len (currentLiteral p) =? 0)
            then push_back p (Some (LiteralPatternConverter (currentLiteral p)))
            else p in
          let p := set_currentLiteral p [] in
          let p := append_literal p c in
          let p := set_state p CONVERTER_STATE in
          Ok (set_formattingInfo p FormattingInfo_reset)
      else Ok (append_literal p c)
  | CONVERTER_STATE =>
      let p := append_literal p c in
      if Ascii.eqb c "-" then
        Ok (set_formattingInfo p (set_leftAlign (formattingInfo p) true))
      else if Ascii.eqb c "." then Ok (set_state p DOT_STATE)
      else if is_digit c then
        let p :=
          set_formattingInfo p (set_minLen (formattingInfo p) (digit_value c)) in
        Ok (set_state p MIN_STATE)
      else PatternParser_finalizeConverter P c p
  | MIN_STATE =>
      let p := append_literal p c in
      if is_digit c then
        Ok (set_formattingInfo p
              (set_minLen (formattingInfo p)
                 (int_add (int_mul (minLen (formattingInfo p)) 10)
                    (digit_value c))))
      else if Ascii.eqb c "." then Ok (set_state p DOT_STATE)
      else PatternParser_finalizeConverter P c p
  | DOT_STATE =>
      let p := append_literal p c in
      if is_digit c then
        let p :=
          set_formattingInfo p (set_maxLen (formattingInfo p) (digit_value c)) in
        Ok (set_state p MAX_STATE)
      else
        let p := write_log p [(LL_ERROR, expecting_digit_message c (pos p))] in
        Ok (set_state p LITERAL_STATE)
  | MAX_STATE =>
      let p := append_literal p c in
      if is_digit c then
        Ok (set_formattingInfo p
              (set_maxLen (formattingInfo p)
                 (int_add (int_mul (maxLen (formattingInfo p)) 10)
                    (digit_value c))))
      else
        let* p := PatternParser_finalizeConverter P c p in
        Ok (set_state p LITERAL_STATE)
  | MINUS_STATE => Ok p      (* the switch has no case for it *)
  end.

(** The [while] loop; [fuel] bounds the number of turns, and every turn
    consumes at least one character of the pattern. *)
Fixpoint parse_loop (P : Platform) (fuel : nat) (p : PatternParser)
  : result PatternParser :=
  if to_size_t (pos p) <? len (pattern p) then
    match fuel with
    | O => Ok p
    | S fuel' =>
        let* p' := parse_body P p in
        parse_loop P fuel' p'
    end
  else Ok p.

(** What follows the loop: a pending literal becomes the last converter. *)
Definition parse_flush (p : PatternParser) : PatternParser :=
  if negb (len (currentLiteral p) =? 0)
  then push_back p (Some (LiteralPatternConverter (currentLiteral p)))
  else p.

(** [PatternParser::parse], together with the diagnostics it wrote. *)
Definition PatternParser_parse (P : Platform) (p : PatternParser)
  : result (list (option PatternConverter) * LogLog) :=
  let p := set_pos p 0 in
  let* p := parse_loop P (length (pattern p)) p in
  let p := parse_flush p in
  Ok (list_ p, loglog p).

(** ** PatternLayout *)

Record PatternLayout := {
  layout_pattern : cstring;
  parsedPattern : list (option PatternConverter)
}.

(** The first loop of [PatternLayout::init]: every null converter becomes an
    empty literal, with an error written for each. *)
Fixpoint replace_nulls (l : list (option PatternConverter))
  : list (option PatternConverter) * LogLog :=
  match l with
  | [] => ([], [])
  | it :: l' =>
      let '(r, g) := replace_nulls l' in
      match it with
      | None =>
          (Some (LiteralPatternConverter []) :: r,
           (LL_ERROR, text "Parsed Pattern created a NULL PatternConverter")
           :: g)
      | Some pc => (Some pc :: r, g)
      end
  end.

(** The end of [PatternLayout::init]: an empty list gets the message
    converter. *)
Definition use_default (P : Platform) (l : list (option PatternConverter))
  : list (option PatternConverter) * LogLog :=
  if len_nat_zero l then
    let '(pc, g) := BasicPatternConverter P FormattingInfo_reset
                      MESSAGE_CONVERTER in
    (l ++ [Some pc],
     (LL_WARN, text "PatternLayout pattern is empty.  Using default...") :: g)
  else (l, []).

(** [PatternLayout::init]. *)
Definition PatternLayout_init (P : Platform) (pattern : cstring)
  : result (PatternLayout * LogLog) :=
  let* (parsed, g0) := PatternParser_parse P (PatternParser_new pattern) in
  let '(parsed, g1) := replace_nulls parsed in
  let '(parsed, g2) := use_default P parsed in
  Ok ({| layout_pattern := pattern; parsedPattern := parsed |},
      g0 ++ g1 ++ g2).

(** [PatternLayout::PatternLayout(const std::string&)]. *)
Definition PatternLayout_new (P : Platform) (pattern : cstring)
  : result (PatternLayout * LogLog) :=
  PatternLayout_init P pattern.

(** [helpers::Properties] is a map from keys to values; [exists] tells
    whether a key is bound and [getProperty] reads it, giving the empty
    string for a key that is not bound. *)
Definition Properties_exists (properties : gmap string cstring) (key : string)
  : bool := bool_decide (is_Some (properties !! key)).

Definition Properties_getProperty (properties : gmap string cstring)
    (key : string) : cstring := default [] (properties !! key).

(** [PatternLayout::PatternLayout(Properties)]. *)
Definition PatternLayout_of_properties (P : Platform)
    (properties : gmap string cstring) : result (PatternLayout * LogLog) :=
  if negb (Properties_exists properties "Pattern") then
    Stop (runtime_error (text "Pattern not specified in properties"))
  else PatternLayout_init P (Properties_getProperty properties "Pattern").

(** The loop of [PatternLayout::formatAndAppend] over the converters; the
    result is everything inserted in [output]. *)
Fixpoint format_all (P : Platform) (l : list (option PatternConverter))
    (event : InternalLoggingEvent) : result cstring :=
  match l with
  | [] => Ok []
  | None :: _ => Stop null_dereference
  | Some pc :: l' =>
      let* s := PatternConverter_formatAndAppend P pc event in
      let* r := format_all P l' event in
      Ok (s ++ r)
  end.

(** [PatternLayout::formatAndAppend]. *)
Definition PatternLayout_formatAndAppend (P : Platform)
    (layout : PatternLayout) (event : InternalLoggingEvent) : result cstring :=
  format_all P (parsedPattern layout) event.

(** ** Reference inputs for the closed statements *)

(** A POSIX platform set to UTC.  Its broken-down time is the civil date of
    the proleptic Gregorian calendar, [gmtime] gives the null pointer when
    the year does not fit an [int], and its formatter knows the conversions
    [%Y %m %d %H %M %S %%] and copies every other character. *)
Record civil_time := {
  tm_year : Z; tm_mon : Z; tm_mday : Z; tm_hour : Z; tm_min : Z; tm_sec : Z
}.

Definition civil_from_seconds (t : Z) : civil_time :=
  let days := t / 86400 in
  let secs := t mod 86400 in
  let z := days + 719468 in
  let era := z / 146097 in
  let doe := z - era * 146097 in
  let yoe := (doe - doe / 1460 + doe / 36524 - doe / 146096) / 365 in
  let doy := doe - (365 * yoe + yoe / 4 - yoe / 100) in
  let mp := (5 * doy + 2) / 153 in
  let d := doy - (153 * mp + 2) / 5 + 1 in
  let m := if mp <? 10 then mp + 3 else mp - 9 in
  let y := yoe + era * 400 + (if m <=? 2 then 1 else 0) in
  {| tm_year := y; tm_mon := m; tm_mday := d;
     tm_hour := secs / 3600; tm_min := (secs mod 3600) / 60;
     tm_sec := secs mod 60 |}.

Definition reference_gmtime (t : Z) : option civil_time :=
  if (-67768040609740800 <=? t) && (t <=? 67768036191676799)
  then Some (civil_from_seconds t) else None.

Definition two_digits (n : Z) : cstring :=
  if n <? 10 then "0"%char :: show_int n else show_int n.

Fixpoint reference_format (f : cstring) (t : civil_time) : option cstring :=
  match f with
  | [] => Some []
  | "%"%char :: c :: f' =>
      let field :=
        if Ascii.eqb c "Y" then Some (show_int (tm_year t))
        else if Ascii.eqb c "m" then Some (two_digits (tm_mon t))
        else if Ascii.eqb c "d" then Some (two_digits (tm_mday t))
        else if Ascii.eqb c "H" then Some (two_digits (tm_hour t))
        else if Ascii.eqb c "M" then Some (two_digits (tm_min t))
        else if Ascii.eqb c "S" then Some (two_digits (tm_sec t))
        else if Ascii.eqb c "%" then Some ["%"%char]
        else None in
      match field, reference_format f' t with
      | Some a, Some b => Some (a ++ b)
      | _, _ => None
      end
  | c :: f' =>
      match reference_format f' t with
      | Some b => Some (c :: b)
      | None => None
      end
  end.

Definition reference_platform : Platform :=
  {| CLOCKS_PER_SEC := 1000000;
     llm_toString := fun _ => text "INFO";
     show_thread := show_int;
     tm := civil_time;
     gmtime := reference_gmtime;
     localtime := reference_gmtime;
     calendar_text := reference_format |}.

Definition sample_event : InternalLoggingEvent :=
  {| message := text "started"; loggerName := text "com.acme.Service";
     ll := 20000; ndc := text "ctx"; thread := 7; timestamp := 12;
     clock_ticks := 5000000; file := Some (text "main.cxx"); line := -1 |}.

(** The same platform with another clock resolution. *)
Definition with_clock (P : Platform) (cps : Z) : Platform :=
  {| CLOCKS_PER_SEC := cps; llm_toString := llm_toString P;
     show_thread := show_thread P; tm := tm P; gmtime := gmtime P;
     localtime := localtime P; calendar_text := calendar_text P |}.

(** ** Words of the specification *)

(** The last [n] characters of [s]. *)
Definition last_chars (n : nat) (s : cstring) : cstring :=
  rev (firstn n (rev s)).

(** [n] ASCII spaces. *)
Definition spaces (n : nat) : cstring := repeat space n.

(** The formatter produces nothing for the template, or a text that does not
    fit, with its terminating null, in the buffer of [BUFFER_SIZE] bytes. *)
Definition calendar_formatting_fails (P : Platform) (format : cstring)
    (t : tm P) : Prop :=
  match calendar_text P format t with
  | None => True
  | Some r => BUFFER_SIZE < len r + 1
  end.

(** What [init] is to make of the list the parser returned: an empty literal
    in every null slot, and the message converter alone when nothing was
    compiled. *)
Definition fill_null (c : option PatternConverter) : option PatternConverter :=
  match c with
  | None => Some (LiteralPatternConverter [])
  | Some pc => Some pc
  end.

Definition is_null (c : option PatternConverter) : bool :=
  match c with
  | None => true
  | Some _ => false
  end.

Definition default_message_converter (P : Platform) : PatternConverter :=
  Basic FormattingInfo_reset (Z.quot (CLOCKS_PER_SEC P) MILLIS_PER_SEC)
    MESSAGE_CONVERTER.

Definition null_error : LogEntry :=
  (LL_ERROR, text "Parsed Pattern created a NULL PatternConverter").

Definition empty_warning : LogEntry :=
  (LL_WARN, text "PatternLayout pattern is empty.  Using default...").

(** The number of dots in a name. *)
Definition count_dots (s : cstring) : nat :=
  length (List.filter (fun c => Ascii.eqb c ".") s).

(** The logger-name rule in the words of the specification: the whole name
    for a precision that is not positive or that exceeds the number of dots,
    and otherwise what follows the [precision]-th dot counted from the
    right.  [logger_suffix_from_right p s] reads the reversed name. *)
Fixpoint logger_suffix_from_right (p : nat) (reversed : cstring)
  : option cstring :=
  match reversed with
  | [] => None
  | c :: rest =>
      if Ascii.eqb c "." then
        match p with
        | 1%nat => Some []
        | _ => option_map (fun s => s ++ [c])
                 (logger_suffix_from_right (Nat.pred p) rest)
        end
      else option_map (fun s => s ++ [c]) (logger_suffix_from_right p rest)
  end.

Definition logger_name_rule (precision : Z) (name : cstring) : cstring :=
  if precision <=? 0 then name
  else if (Z.of_nat (count_dots name) <? precision) then name
  else match logger_suffix_from_right (Z.to_nat precision) (rev name) with
       | Some s => s
       | None => name
       end.

(** An event that carries a logger name. *)
Definition event_named (name : cstring) : InternalLoggingEvent :=
  {| message := []; loggerName := name; ll := 0; ndc := []; thread := 0;
     timestamp := 0; clock_ticks := 0; file := None; line := -1 |}.

(** A parser with its converter list and diagnostics set aside, and the
    same put back in front of what a run produced. *)
Definition strip (p : PatternParser) : PatternParser :=
  {| pattern := pattern p; formattingInfo := formattingInfo p; list_ := [];
     state := state p; pos := pos p; currentLiteral := currentLiteral p;
     loglog := [] |}.

Definition rebase (l : list (option PatternConverter)) (g : LogLog)
    (q : PatternParser) : PatternParser :=
  {| pattern := pattern q; formattingInfo := formattingInfo q;
     list_ := l ++ list_ q; state := state q; pos := pos q;
     currentLiteral := currentLiteral q; loglog := g ++ loglog q |}.

(** The literal converter a pending text becomes when it is flushed. *)
Definition literal_if_any (s : cstring) : list (option PatternConverter) :=
  if negb (len s =? 0) then [Some (LiteralPatternConverter s)] else [].

(** The parser [p] standing at position [n] with nothing compiled and
    nothing pending. *)
Definition resume_after (p : PatternParser) (n : Z) : PatternParser :=
  {| pattern := pattern p; formattingInfo := formattingInfo p; list_ := [];
     state := state p; pos := n; currentLiteral := []; loglog := [] |}.

(** The converters the rest of [parse] builds from the state [p]. *)
Definition compile_from (P : Platform) (p : PatternParser)
  : result (list (option PatternConverter)) :=
  let* q := parse_loop P (length (pattern p)) p in
  Ok (list_ (parse_flush q)).

(** A converter list without a null pointer. *)
Definition no_null (l : list (option PatternConverter)) : Prop :=
  Forall (fun c => is_null c = false) l.

(** The state [q] stands at the head of a turn of the loop started in
    [p]. *)
Definition runs (P : Platform) (p q : PatternParser) : Prop :=
  exists n, parse_loop P n p = Ok q.

(** The part of the pattern the parser has not read yet. *)
Definition unread (p : PatternParser) : cstring :=
  skipn (Z.to_nat (pos p)) (pattern p).

(** The value the parser reads a decimal numeral as: the first digit, and
    for each further digit ten times the value so far plus the digit, in
    [int] arithmetic. *)
Definition decimal_from (start : Z) (ds : cstring) : Z :=
  fold_left (fun a c => int_add (int_mul a 10) (digit_value c)) ds start.

Definition decimal_value (ds : cstring) : Z :=
  match ds with
  | [] => 0
  | d :: ds => decimal_from (digit_value d) ds
  end.

(** The conversion letters that stand for a basic converter. *)
Definition basic_letter (c : ascii) : option BasicType :=
  if Ascii.eqb c "F" then Some FILE_CONVERTER
  else if Ascii.eqb c "l" then Some FULL_LOCATION_CONVERTER
  else if Ascii.eqb c "L" then Some LINE_CONVERTER
  else if Ascii.eqb c "m" then Some MESSAGE_CONVERTER
  else if Ascii.eqb c "n" then Some NEWLINE_CONVERTER
  else if Ascii.eqb c "p" then Some LOGLEVEL_CONVERTER
  else if Ascii.eqb c "r" then Some RELATIVE_TIME_CONVERTER
  else if Ascii.eqb c "t" then Some THREAD_CONVERTER
  else if Ascii.eqb c "x" then Some NDC_CONVERTER
  else None.

(** The modifiers of a specifier: any number of dashes, a minimum width, and
    a dot with a maximum width; a numeral left empty is a part left out. *)
Definition modifiers (dashes : nat) (width precision : cstring) : cstring :=
  repeat "-"%char dashes ++ width
  ++ (if len precision =? 0 then [] else "."%char :: precision).

(** The formatting information the modifiers stand for. *)
Definition modifiers_info (dashes : nat) (width precision : cstring)
  : FormattingInfo :=
  {| minLen := if len width =? 0 then -1 else decimal_value width;
     maxLen := if len precision =? 0 then 2147483647
               else decimal_value precision;
     leftAlign := negb (Nat.eqb dashes 0) |}.

(** The state the parser is in once it has read the modifiers. *)
Definition modifiers_state (width precision : cstring) : ParserState :=
  if negb (len precision =? 0) then MAX_STATE
  else if negb (len width =? 0) then MIN_STATE
  else CONVERTER_STATE.

(** The pointer [DatePatternConverter::convert] hands to [strftime]. *)
Definition broken_down_time (P : Platform) (use_gmtime : bool)
    (event : InternalLoggingEvent) : option (tm P) :=
  if use_gmtime then gmtime P (timestamp event)
  else localtime P (timestamp event).

(** The sample event at another time stamp. *)
Definition event_at (t : Z) : InternalLoggingEvent :=
  {| message := message sample_event; loggerName := loggerName sample_event;
     ll := ll sample_event; ndc := ndc sample_event;
     thread := thread sample_event; timestamp := t;
     clock_ticks := clock_ticks sample_event; file := file sample_event;
     line := line sample_event |}.


(** Two parsers read the same pattern from the same position, one of them
    with the converters [L] compiled and the text [c] pending when they
    started, the other with nothing: either both are still in the literal
    text they started in, or that text has become a converter of its own. *)
Definition same_rest (L : list (option PatternConverter)) (c : cstring)
    (p r : PatternParser) : Prop :=
  pattern p = pattern r /\ formattingInfo p = formattingInfo r
  /\ state p = state r /\ pos p = pos r
  /\ ((state p = LITERAL_STATE /\ list_ p = L /\ list_ r = []
       /\ currentLiteral p = c ++ currentLiteral r)
      \/ (currentLiteral p = currentLiteral r
          /\ exists x T,
               len (c ++ x) <= len (pattern p)
               /\ list_ p = L ++ Some (LiteralPatternConverter (c ++ x)) :: T
               /\ list_ r = literal_if_any x ++ T)).

(** The character an escape met in literal state stands for. *)
Definition escaped (d : ascii) : ascii :=
  if Ascii.eqb d "n" then newline else ESCAPE_CHAR.


(** The conversion characters [finalizeConverter] knows. *)
Definition conversion_characters : cstring := text "cdDFlLmnprtx".


(** The converter [finalizeConverter] builds for a conversion character
    that takes an option in braces: the logger name with the option read as
    a number, or a date with the option as its format. *)
Definition option_converter (c : ascii) (info : FormattingInfo)
    (opt : cstring) : option PatternConverter :=
  if Ascii.eqb c "c" then
    Some (LoggerPatternConverter info (if len opt >? 0 then atoi opt else 0))
  else if Ascii.eqb c "d" || Ascii.eqb c "D" then
    Some (DatePatternConverter info
            (if len opt =? 0 then text "%Y-%m-%d %H:%M:%S" else opt)
            (Ascii.eqb c "d"))
  else None.


(** The number a decimal numeral denotes. *)
Definition numeral_value (ds : cstring) : Z :=
  fold_left (fun a c => a * 10 + digit_value c) ds 0.

(** * Properties *)

Lemma len_nonneg (s : cstring) : 0 <= len s.
Proof. unfold len. lia. Qed.

Lemma skipn_last_chars (s : cstring) (n : nat) :
  skipn (length s - n) s = last_chars n s.
Proof. unfold last_chars. rewrite firstn_rev, rev_involutive. reflexivity. Qed.

Lemma to_size_t_nonneg (z : Z) : 0 <= z -> to_size_t z = z.
Proof. intros H. unfold to_size_t. destruct (Z.ltb_spec z 0); lia. Qed.

Lemma length_last_chars (s : cstring) (n : nat) :
  (n <= length s)%nat -> length (last_chars n s) = n.
Proof.
  intros H. unfold last_chars.
  rewrite length_rev, length_firstn, length_rev. lia.
Qed.

(** C1.  For every converter and every string [s] it extracts, with a
    maximum width that is not negative: a string longer than [maxLen] is
    rendered as its last [maxLen] characters; otherwise a string shorter than
    [minLen] is padded with spaces to [minLen] characters, on the right under
    [leftAlign] and on the left without it; otherwise the string is rendered
    as it is; and a [minLen] of -1 never pads. *)
Theorem formatAndAppend_width_law (P : Platform) (pc : PatternConverter)
    (event : InternalLoggingEvent) (s : cstring) :
  convert P pc event = Ok s ->
  0 <= maxLen (info_of pc) ->
  let i := info_of pc in
  let out := PatternConverter_formatAndAppend P pc event in
  (len s > maxLen i ->
     out = Ok (last_chars (Z.to_nat (maxLen i)) s)
     /\ len (last_chars (Z.to_nat (maxLen i)) s) = maxLen i)
  /\ (len s <= maxLen i -> len s < minLen i ->
        out = Ok (if leftAlign i
                  then s ++ spaces (Z.to_nat (minLen i - len s))
                  else spaces (Z.to_nat (minLen i - len s)) ++ s)
        /\ forall r, out = Ok r -> len r = minLen i)
  /\ (len s <= maxLen i -> minLen i <= len s -> out = Ok s)
  /\ (minLen i = -1 -> len s <= maxLen i -> out = Ok s).
Proof.
  intros Hc. cbv zeta.
  unfold PatternConverter_formatAndAppend. rewrite Hc. cbn [bind].
  unfold format_field, len.
  destruct (info_of pc) as [mn mx la]. cbn [minLen maxLen leftAlign].
  intros Hmax.
  split; [intros H; split | split; [intros H1 H2; split | split; intros H1 H2]].
  - destruct (Z.gtb_spec (Z.of_nat (length s)) mx); [|lia].
    rewrite to_size_t_nonneg by lia. unfold substr, len.
    destruct (Z.ltb_spec (Z.of_nat (length s)) (Z.of_nat (length s) - mx)); [lia|].
    f_equal. rewrite <- skipn_last_chars. f_equal. lia.
  - rewrite length_last_chars; lia.
  - destruct (Z.gtb_spec (Z.of_nat (length s)) mx); [lia|].
    destruct (Z.ltb_spec (Z.of_nat (length s)) mn); [|lia].
    unfold fill, spaces. destruct la; reflexivity.
  - intros r. destruct (Z.gtb_spec (Z.of_nat (length s)) mx); [lia|].
    destruct (Z.ltb_spec (Z.of_nat (length s)) mn); [|lia].
    unfold fill in *.
    destruct la; intros [= <-];
      rewrite length_app, repeat_length; lia.
  - destruct (Z.gtb_spec (Z.of_nat (length s)) mx); [lia|].
    destruct (Z.ltb_spec (Z.of_nat (length s)) mn); [lia|]. reflexivity.
  - destruct (Z.gtb_spec (Z.of_nat (length s)) mx); [lia|].
    destruct (Z.ltb_spec (Z.of_nat (length s)) mn); [lia|]. reflexivity.
Qed.

Lemma formatAndAppend_width_law_witness :
  PatternConverter_formatAndAppend reference_platform
    (Basic {| minLen := -1; maxLen := 3; leftAlign := false |} 1000
       MESSAGE_CONVERTER) sample_event = Ok (text "ted")
  /\ PatternConverter_formatAndAppend reference_platform
    (Basic {| minLen := 5; maxLen := 2147483647; leftAlign := false |} 1000
       LOGLEVEL_CONVERTER) sample_event = Ok (text " INFO")
  /\ PatternConverter_formatAndAppend reference_platform
    (Basic {| minLen := 5; maxLen := 2147483647; leftAlign := true |} 1000
       LOGLEVEL_CONVERTER) sample_event = Ok (text "INFO ")
  /\ PatternConverter_formatAndAppend reference_platform
    (Basic {| minLen := 2; maxLen := 9; leftAlign := true |} 1000
       MESSAGE_CONVERTER) sample_event = Ok (text "started")
  /\ PatternConverter_formatAndAppend reference_platform
    (Basic {| minLen := -1; maxLen := 9; leftAlign := true |} 1000
       MESSAGE_CONVERTER) sample_event = Ok (text "started").
Proof.
  split; [|split; [|split; [|split]]].
  - destruct (formatAndAppend_width_law reference_platform
                (Basic {| minLen := -1; maxLen := 3; leftAlign := false |}
                   1000 MESSAGE_CONVERTER) sample_event (text "started")
                eq_refl ltac:(vm_compute; congruence)) as (A & _).
    destruct A as [E _]; [reflexivity | exact E].
  - destruct (formatAndAppend_width_law reference_platform
                (Basic {| minLen := 5; maxLen := 2147483647;
                          leftAlign := false |} 1000 LOGLEVEL_CONVERTER)
                sample_event (text "INFO")
                eq_refl ltac:(vm_compute; congruence)) as (_ & A & _).
    destruct A as [E _]; [vm_compute; congruence | reflexivity | exact E].
  - destruct (formatAndAppend_width_law reference_platform
                (Basic {| minLen := 5; maxLen := 2147483647;
                          leftAlign := true |} 1000 LOGLEVEL_CONVERTER)
                sample_event (text "INFO")
                eq_refl ltac:(vm_compute; congruence)) as (_ & A & _).
    destruct A as [E _]; [vm_compute; congruence | reflexivity | exact E].
  - destruct (formatAndAppend_width_law reference_platform
                (Basic {| minLen := 2; maxLen := 9; leftAlign := true |}
                   1000 MESSAGE_CONVERTER) sample_event (text "started")
                eq_refl ltac:(vm_compute; congruence)) as (_ & _ & A & _).
    apply A; vm_compute; congruence.
  - destruct (formatAndAppend_width_law reference_platform
                (Basic {| minLen := -1; maxLen := 9; leftAlign := true |}
                   1000 MESSAGE_CONVERTER) sample_event (text "started")
                eq_refl ltac:(vm_compute; congruence)) as (_ & _ & _ & A).
    apply A; vm_compute; congruence.
Defined.

(** C1, at the pattern "%.4294967295m".  The maximum width is read digit by
    digit into an [int] and wraps around to -1.  The message converter built
    with it extracts the message as it should, but then every string is
    longer than [maxLen], [substr] is called one position past the end, and
    the render of every event throws [std::out_of_range]. *)
Theorem overflowed_width_throws (P : Platform) (event : InternalLoggingEvent) :
  let built :=
    Basic {| minLen := -1; maxLen := -1; leftAlign := false |}
      (Z.quot (CLOCKS_PER_SEC P) MILLIS_PER_SEC) MESSAGE_CONVERTER in
  exists layout,
    PatternLayout_new P (text "%.4294967295m") = Ok (layout, [])
    /\ parsedPattern layout = [Some built]
    /\ convert P built event = Ok (message event)
    /\ PatternConverter_formatAndAppend P built event = Stop out_of_range
    /\ PatternLayout_formatAndAppend P layout event = Stop out_of_range.
Proof.
  cbv zeta.
  assert (Hthrow : PatternConverter_formatAndAppend P
            (Basic {| minLen := -1; maxLen := -1; leftAlign := false |}
               (Z.quot (CLOCKS_PER_SEC P) MILLIS_PER_SEC) MESSAGE_CONVERTER)
            event = Stop out_of_range).
  { unfold PatternConverter_formatAndAppend. cbn [convert
      BasicPatternConverter_convert bind info_of]. unfold format_field.
    cbn [maxLen minLen]. pose proof (len_nonneg (message event)).
    destruct (Z.gtb_spec (len (message event)) (-1)); [|lia].
    rewrite to_size_t_nonneg by lia. unfold substr.
    destruct (Z.ltb_spec (len (message event)) (len (message event) - -1));
      [reflexivity | lia]. }
  exists {| layout_pattern := text "%.4294967295m";
            parsedPattern :=
              [Some (Basic {| minLen := -1; maxLen := -1;
                              leftAlign := false |}
                       (Z.quot (CLOCKS_PER_SEC P) MILLIS_PER_SEC)
                       MESSAGE_CONVERTER)] |}.
  split; [vm_compute; reflexivity|].
  split; [reflexivity|]. split; [reflexivity|]. split; [exact Hthrow|].
  unfold PatternLayout_formatAndAppend. cbn [parsedPattern format_all].
  rewrite Hthrow. reflexivity.
Qed.

(** ** Basic converters *)

(** C10.  For an event whose file name is present and whose line is the
    sentinel -1, the full-location converter extracts the file name, a colon
    and the text "-1", while the line converter extracts the empty string. *)
Theorem full_location_prints_absent_line (P : Platform) (cpm : Z)
    (event : InternalLoggingEvent) (f : cstring) :
  file event = Some f ->
  line event = -1 ->
  BasicPatternConverter_convert P cpm FULL_LOCATION_CONVERTER event
    = Ok (f ++ text ":-1")
  /\ BasicPatternConverter_convert P cpm LINE_CONVERTER event = Ok [].
Proof.
  intros Hf Hl. unfold BasicPatternConverter_convert.
  rewrite Hf, Hl. split; reflexivity.
Qed.

Lemma full_location_prints_absent_line_witness :
  BasicPatternConverter_convert reference_platform 1000
    FULL_LOCATION_CONVERTER sample_event = Ok (text "main.cxx:-1")
  /\ BasicPatternConverter_convert reference_platform 1000
    LINE_CONVERTER sample_event = Ok [].
Proof.
  exact (full_location_prints_absent_line reference_platform 1000
           sample_event (text "main.cxx") eq_refl eq_refl).
Defined.

(** The relative time on a clock of at least 1000 ticks a second: the tick
    count divided by the ticks in a millisecond. *)
Lemma relative_time_fine_clock (P : Platform) (info : FormattingInfo)
    (event : InternalLoggingEvent) :
  MILLIS_PER_SEC <= CLOCKS_PER_SEC P ->
  let pc := fst (BasicPatternConverter P info RELATIVE_TIME_CONVERTER) in
  snd (BasicPatternConverter P info RELATIVE_TIME_CONVERTER) = []
  /\ convert P pc event
     = Ok (show_int (Z.quot (clock_ticks event)
                        (Z.quot (CLOCKS_PER_SEC P) MILLIS_PER_SEC))).
Proof.
  intros H. cbn. unfold MILLIS_PER_SEC in *.
  destruct (Z.ltb_spec (CLOCKS_PER_SEC P) 1000); [lia|].
  split; [reflexivity|].
  assert (0 < Z.quot (CLOCKS_PER_SEC P) 1000).
  { apply Z.quot_str_pos. lia. }
  destruct (Z.eqb_spec (Z.quot (CLOCKS_PER_SEC P) 1000) 0); [lia|].
  reflexivity.
Qed.

Lemma relative_time_fine_clock_witness :
  snd (BasicPatternConverter reference_platform FormattingInfo_reset
         RELATIVE_TIME_CONVERTER) = []
  /\ convert reference_platform
       (fst (BasicPatternConverter reference_platform FormattingInfo_reset
               RELATIVE_TIME_CONVERTER)) sample_event
     = Ok (text "5000").
Proof.
  apply (relative_time_fine_clock reference_platform FormattingInfo_reset
           sample_event).
  vm_compute. discriminate.
Defined.

(** C5, at a clock of 100 ticks a second.  Building the relative-time
    converter writes the error, [CLOCKS_PER_MILLIS] is 100 / 1000 = 0, and
    rendering any event divides by it. *)
Theorem relative_time_coarse_clock (P : Platform) (info : FormattingInfo)
    (event : InternalLoggingEvent) :
  let P' := with_clock P 100 in
  BasicPatternConverter P' info RELATIVE_TIME_CONVERTER
    = (Basic info 0 RELATIVE_TIME_CONVERTER,
       [(LL_ERROR,
         text "RELATIVE_TIME will not display correctly on this platform")])
  /\ PatternConverter_formatAndAppend P'
       (fst (BasicPatternConverter P' info RELATIVE_TIME_CONVERTER)) event
     = Stop division_by_zero.
Proof. split; reflexivity. Qed.

(** ** The date converter *)

Lemma date_null_time (P : Platform) (format : cstring) (use_gmtime : bool)
    (event : InternalLoggingEvent) :
  broken_down_time P use_gmtime event = None ->
  DatePatternConverter_convert P format use_gmtime event = Stop null_tm.
Proof.
  unfold broken_down_time, DatePatternConverter_convert.
  intros ->. reflexivity.
Qed.

Lemma date_formatting_failure (P : Platform) (format : cstring)
    (use_gmtime : bool) (event : InternalLoggingEvent) (t : tm P) :
  broken_down_time P use_gmtime event = Some t ->
  calendar_formatting_fails P format t ->
  DatePatternConverter_convert P format use_gmtime event
  = Ok (text "INVALID DATE PATTERN").
Proof.
  unfold broken_down_time, DatePatternConverter_convert, strftime,
    calendar_formatting_fails.
  intros -> Hfail.
  destruct (calendar_text P format t) as [r|]; [|reflexivity].
  destruct (Z.leb_spec (len r + 1) BUFFER_SIZE); [lia|]. reflexivity.
Qed.

Lemma format_all_around (P : Platform) (pc : PatternConverter)
    (before after : list (option PatternConverter))
    (event : InternalLoggingEvent) (a : cstring) :
  format_all P before event = Ok a ->
  format_all P (before ++ [Some pc] ++ after) event
  = (let* b := PatternConverter_formatAndAppend P pc event in
     let* c := format_all P after event in
     Ok (a ++ b ++ c)).
Proof.
  change ([Some pc] ++ after) with (Some pc :: after).
  revert a. induction before as [|[x|] before IH]; intros a;
    cbn [app format_all bind].
  - intros [= <-]. reflexivity.
  - destruct (PatternConverter_formatAndAppend P x event) as [s|];
      cbn [bind]; [|discriminate].
    destruct (format_all P before event) as [r|] eqn:Hr; cbn [bind];
      [|discriminate].
    intros [= <-]. rewrite (IH r eq_refl).
    destruct (PatternConverter_formatAndAppend P pc event); cbn [bind];
      [|reflexivity].
    destruct (format_all P after event); cbn [bind]; [|reflexivity].
    rewrite <- app_assoc. reflexivity.
  - discriminate.
Qed.

(** C6, at a time stamp that [gmtime] cannot break down.  The template
    below stands for a text of 30 characters at every time, which never fits
    the buffer: at the time stamp 12 the layout renders the event with the
    text "INVALID DATE PATTERN" in the place of the date.  At the time stamp
    2^63 - 1 [gmtime] returns the null pointer, [strftime] reads through it,
    and the extraction and the whole render end there. *)
Theorem date_unconvertible_time_crashes :
  let template := text "%Y-%m-%d %H:%M:%S %Y-%m-%d" in
  let pat := text "%p [%d{%Y-%m-%d %H:%M:%S %Y-%m-%d}] %m" in
  let far := event_at 9223372036854775807 in
  calendar_text reference_platform template (civil_from_seconds 12)
    = Some (text "1970-01-01 00:00:12 1970-01-01")
  /\ broken_down_time reference_platform true far = None
  /\ DatePatternConverter_convert reference_platform template true
       sample_event = Ok (text "INVALID DATE PATTERN")
  /\ DatePatternConverter_convert reference_platform template true far
     = Stop null_tm
  /\ exists layout g,
       PatternLayout_new reference_platform pat = Ok (layout, g)
       /\ PatternLayout_formatAndAppend reference_platform layout sample_event
          = Ok (text "INFO [INVALID DATE PATTERN] started")
       /\ PatternLayout_formatAndAppend reference_platform layout far
          = Stop null_tm.
Proof.
  cbv zeta.
  split; [vm_compute; reflexivity|].
  split; [vm_compute; reflexivity|].
  split; [vm_compute; reflexivity|].
  split; [apply date_null_time; vm_compute; reflexivity|].
  eexists _, _. split; [vm_compute; reflexivity|].
  split; vm_compute; reflexivity.
Qed.

(** When the time stamp can be broken down and the calendar formatting
    fails, the date converter extracts the text "INVALID DATE PATTERN", and
    a render in which the converters before and after it give [a] and [c]
    gives [a], the padded text and [c]. *)
Theorem date_failure_is_local (P : Platform) (info : FormattingInfo)
    (format : cstring) (use_gmtime : bool) (event : InternalLoggingEvent)
    (t : tm P) (before after : list (option PatternConverter))
    (a b c : cstring) :
  broken_down_time P use_gmtime event = Some t ->
  calendar_formatting_fails P format t ->
  format_all P before event = Ok a ->
  format_field info (text "INVALID DATE PATTERN") = Ok b ->
  format_all P after event = Ok c ->
  let date := DatePatternConverter info format use_gmtime in
  convert P date event = Ok (text "INVALID DATE PATTERN")
  /\ format_all P (before ++ [Some date] ++ after) event = Ok (a ++ b ++ c).
Proof.
  intros Ht Hfail Ha Hb Hc date.
  pose proof (date_formatting_failure P format use_gmtime event t Ht Hfail)
    as Hd.
  split; [exact Hd|].
  rewrite (format_all_around P date before after event a Ha).
  unfold PatternConverter_formatAndAppend. cbn [convert date
    DatePatternConverter info_of]. rewrite Hd. cbn [bind].
  rewrite Hb, Hc. reflexivity.
Qed.

Lemma date_failure_is_local_witness :
  convert reference_platform
    (DatePatternConverter (set_minLen FormattingInfo_reset 22)
       (text "%Y-%m-%d %H:%M:%S %Y-%m-%d") false) sample_event
  = Ok (text "INVALID DATE PATTERN")
  /\ format_all reference_platform
       ([Some (Basic FormattingInfo_reset 1000 LOGLEVEL_CONVERTER);
         Some (LiteralPatternConverter (text " ["))]
        ++ [Some (DatePatternConverter (set_minLen FormattingInfo_reset 22)
                    (text "%Y-%m-%d %H:%M:%S %Y-%m-%d") false)]
        ++ [Some (LiteralPatternConverter (text "] "));
            Some (Basic FormattingInfo_reset 1000 MESSAGE_CONVERTER)])
       sample_event
     = Ok (text "INFO [" ++ text "  INVALID DATE PATTERN" ++ text "] started").
Proof.
  apply (date_failure_is_local reference_platform
           (set_minLen FormattingInfo_reset 22)
           (text "%Y-%m-%d %H:%M:%S %Y-%m-%d") false sample_event
           (civil_from_seconds 12)).
  - vm_compute. reflexivity.
  - vm_compute. reflexivity.
  - vm_compute. reflexivity.
  - vm_compute. reflexivity.
  - vm_compute. reflexivity.
Defined.

(** ** The parser never throws and consumes its pattern *)

Lemma at_ok (s : cstring) (i : Z) :
  0 <= i < len s -> exists c, at_ s i = Ok c.
Proof.
  intros H. unfold at_, len in *.
  destruct (Z.ltb_spec i 0); [lia|].
  destruct (Z.leb_spec (Z.of_nat (length s)) i); [lia|]. cbn [orb].
  destruct (nth_error s (Z.to_nat i)) eqn:E; [eauto|].
  apply nth_error_None in E. lia.
Qed.

Lemma at_inv (s : cstring) (i : Z) (c : ascii) :
  at_ s i = Ok c -> 0 <= i < len s /\ nth_error s (Z.to_nat i) = Some c.
Proof.
  unfold at_, len. destruct (Z.ltb_spec i 0); [discriminate|].
  destruct (Z.leb_spec (Z.of_nat (length s)) i); [discriminate|]. cbn [orb].
  destruct (nth_error s (Z.to_nat i)); [|discriminate].
  intros [= ->]. split; [lia | reflexivity].
Qed.

Lemma find_from_bounds (c : ascii) (s : cstring) (i j : nat) :
  find_from c s i = Some j -> (i <= j < i + length s)%nat.
Proof.
  revert i. induction s as [|x s IH]; intros i; cbn [find_from length].
  - discriminate.
  - destruct (Ascii.eqb x c).
    + intros [= <-]. lia.
    + intros Hf. apply IH in Hf. lia.
Qed.

Lemma find_first_of_bounds (s : cstring) (c : ascii) (pos : Z) (j : nat) :
  0 <= pos ->
  find_first_of s c pos = Some j -> pos <= Z.of_nat j < len s.
Proof.
  unfold find_first_of, len. intros Hp.
  destruct (Z.leb_spec (Z.of_nat (length s)) pos); [discriminate|].
  intros Hf. apply find_from_bounds in Hf. rewrite length_skipn in Hf. lia.
Qed.

Lemma extractOption_ok (p : PatternParser) :
  0 <= pos p <= len (pattern p) ->
  exists r pos', PatternParser_extractOption p = Ok (r, set_pos p pos')
                 /\ pos p <= pos' <= len (pattern p).
Proof.
  intros Hp. unfold PatternParser_extractOption.
  assert (Hsame : set_pos p (pos p) = p) by (destruct p; reflexivity).
  rewrite (to_size_t_nonneg (pos p)) by lia.
  destruct (Z.ltb_spec (pos p) (len (pattern p))) as [Hlt|Hge].
  2:{ exists [], (pos p). rewrite Hsame. split; [reflexivity | lia]. }
  destruct (at_ok (pattern p) (pos p)) as [c Hc]; [lia|].
  rewrite Hc. cbn [bind].
  destruct (Ascii.eqb c "{").
  2:{ exists [], (pos p). rewrite Hsame. split; [reflexivity | lia]. }
  destruct (find_first_of (pattern p) "}" (pos p)) as [j|] eqn:Hj;
    cbn [index_to_int].
  - apply find_first_of_bounds in Hj; [|lia].
    destruct (Z.gtb_spec (Z.of_nat j) (pos p)).
    + rewrite !to_size_t_nonneg by lia. unfold substr_n.
      destruct (Z.ltb_spec (len (pattern p)) (pos p + 1)); [lia|].
      cbn [bind]. eexists _, _. split; [reflexivity | lia].
    + exists [], (pos p). rewrite Hsame. split; [reflexivity | lia].
  - destruct (Z.gtb_spec (-1) (pos p)); [lia|].
    exists [], (pos p). rewrite Hsame. split; [reflexivity | lia].
Qed.

Lemma finalizeConverter_ok (P : Platform) (c : ascii) (p : PatternParser) :
  0 <= pos p <= len (pattern p) ->
  exists p', PatternParser_finalizeConverter P c p = Ok p'
    /\ pattern p' = pattern p
    /\ pos p <= pos p' <= len (pattern p)
    /\ state p' = LITERAL_STATE
    /\ currentLiteral p' = []
    /\ formattingInfo p' = FormattingInfo_reset
    /\ exists pc, list_ p' = list_ p ++ [Some pc].
Proof.
  intros Hp. unfold PatternParser_finalizeConverter,
    PatternParser_extractPrecisionOption.
  destruct (extractOption_ok p Hp) as (r & pos' & Hr & Hpos').
  destruct (Ascii.eqb c "c").
  { rewrite Hr. cbn [bind]. eexists. split; [reflexivity|].
    cbn. repeat split; try lia. eauto. }
  destruct (Ascii.eqb c "d" || Ascii.eqb c "D").
  { rewrite Hr. cbn [bind]. eexists. split; [reflexivity|].
    cbn. repeat split; try lia. eauto. }
  repeat match goal with
  | |- context [if Ascii.eqb c ?x then _ else _] =>
      destruct (Ascii.eqb c x);
      [ cbn [bind BasicPatternConverter]; eexists; split; [reflexivity|];
        cbn; repeat split; try lia; eauto | ]
  end.
  cbn [bind]. eexists. split; [reflexivity|].
  cbn. repeat split; try lia. eauto.
Qed.

Lemma len_app1 (s : cstring) (c : ascii) : len (s ++ [c]) = len s + 1.
Proof. unfold len. rewrite length_app. cbn [length]. lia. Qed.

Ltac fields :=
  unfold append_literal, set_currentLiteral, set_pos, set_state,
    set_formattingInfo, push_back, write_log in *;
  cbn [pattern pos state currentLiteral formattingInfo list_ loglog] in *.

Ltac step_done :=
  eexists; split; [reflexivity|]; fields;
  split_and!; try done;
  try (intros ?; apply Forall_app; split; [assumption | repeat constructor]);
  rewrite ?len_app1; unfold len in *; cbn [length]; lia.

Lemma parse_body_ok (P : Platform) (p : PatternParser) :
  0 <= pos p < len (pattern p) ->
  len (currentLiteral p) <= pos p ->
  exists p', parse_body P p = Ok p'
    /\ pattern p' = pattern p
    /\ pos p < pos p' <= len (pattern p)
    /\ len (currentLiteral p') <= pos p'
    /\ (no_null (list_ p) -> no_null (list_ p')).
Proof.
  intros Hp Hcur. unfold parse_body, no_null.
  destruct (at_ok (pattern p) (pos p) Hp) as [c Hc]. rewrite Hc. cbn [bind].
  destruct p as [pat fi l st ps cur lg]. fields.
  pose proof (len_app1 cur c) as Hlen.
  assert (Hfin : forall q, pattern q = pat -> pos q = ps + 1 ->
            currentLiteral q = cur ++ [c] -> list_ q = l ->
            exists p', PatternParser_finalizeConverter P c q = Ok p'
              /\ pattern p' = pat /\ ps < pos p' <= len pat
              /\ len (currentLiteral p') <= pos p'
              /\ (no_null l -> no_null (list_ p'))).
  { intros q Hq1 Hq2 Hq3 Hq4.
    destruct (finalizeConverter_ok P c q)
      as (p' & E & H1 & H2 & _ & H4 & _ & pc & H5).
    { rewrite Hq1, Hq2. lia. }
    exists p'. rewrite E, H1, H4, H5. rewrite Hq1, Hq2 in H2.
    unfold no_null.
    split_and!; try done;
      try (intros ?; apply Forall_app; split; [congruence | repeat constructor]);
      unfold len in *; cbn [length]; lia. }
  unfold no_null in Hfin.
  destruct st; cbv zeta; fields.
  - (* LITERAL_STATE *)
    rewrite to_size_t_nonneg by lia.
    destruct (Z.eqb_spec (ps + 1) (len pat)); [step_done|].
    destruct (Ascii.eqb c ESCAPE_CHAR); [|step_done].
    destruct (at_ok pat (ps + 1)) as [d Hd]; [lia|]. rewrite Hd. cbn [bind].
    destruct (Ascii.eqb d ESCAPE_CHAR); [step_done|].
    destruct (Ascii.eqb d "n"); [step_done|].
    destruct (negb (len cur =? 0)); step_done.
  - (* CONVERTER_STATE *)
    destruct (Ascii.eqb c "-"); [step_done|].
    destruct (Ascii.eqb c "."); [step_done|].
    destruct (is_digit c); [step_done|].
    apply Hfin; reflexivity.
  - (* MINUS_STATE *)
    step_done.
  - (* DOT_STATE *)
    destruct (is_digit c); step_done.
  - (* MIN_STATE *)
    destruct (is_digit c); [step_done|].
    destruct (Ascii.eqb c "."); [step_done|].
    apply Hfin; reflexivity.
  - (* MAX_STATE *)
    destruct (is_digit c); [step_done|].
    destruct (Hfin {| pattern := pat; formattingInfo := fi; list_ := l;
                      state := MAX_STATE; pos := ps + 1;
                      currentLiteral := cur ++ [c]; loglog := lg |})
      as (p' & E & H1 & H2 & H3 & H4); try reflexivity.
    rewrite E. cbn [bind]. step_done.
Qed.

(** The loop ends within [fuel] turns once [fuel] covers what is left of the
    pattern; it then stands at the end of the pattern. *)
Lemma parse_loop_ok (P : Platform) (fuel : nat) (p : PatternParser) :
  0 <= pos p <= len (pattern p) ->
  len (currentLiteral p) <= pos p ->
  len (pattern p) - pos p <= Z.of_nat fuel ->
  exists p', parse_loop P fuel p = Ok p'
    /\ pattern p' = pattern p
    /\ pos p' = len (pattern p)
    /\ len (currentLiteral p') <= pos p'
    /\ (no_null (list_ p) -> no_null (list_ p')).
Proof.
  revert p. induction fuel as [|fuel IH]; intros p Hp Hcur Hfuel.
  - cbn [parse_loop]. rewrite to_size_t_nonneg by lia.
    destruct (Z.ltb_spec (pos p) (len (pattern p))); [lia|].
    exists p. split_and!; try done; lia.
  - cbn [parse_loop]. rewrite to_size_t_nonneg by lia.
    destruct (Z.ltb_spec (pos p) (len (pattern p))) as [Hlt|Hge].
    2:{ exists p. split_and!; try done; lia. }
    destruct (parse_body_ok P p) as (q & E & H1 & H2 & H3 & H4); [lia|lia|].
    rewrite E. cbn [bind].
    destruct (IH q) as (p' & E' & H1' & H2' & H3' & H4'); rewrite ?H1; try lia.
    exists p'. rewrite E'. rewrite H1 in *. split_and!; try done; try lia.
    intros Hn. apply H4', H4, Hn.
Qed.

(** [parse] returns for every pattern. *)
Lemma parse_total (P : Platform) (pat : cstring) :
  exists l g, PatternParser_parse P (PatternParser_new pat) = Ok (l, g).
Proof.
  unfold PatternParser_parse.
  destruct (parse_loop_ok P (length pat)
              (set_pos (PatternParser_new pat) 0)) as (p' & E & _).
  - cbn. unfold len. lia.
  - cbn. unfold len. cbn. lia.
  - cbn. unfold len. lia.
  - cbn [pattern set_pos PatternParser_new] in *. rewrite E. cbn [bind]. eauto.
Qed.

(** ** The layout after construction *)

Lemma replace_nulls_spec (l : list (option PatternConverter)) :
  replace_nulls l
  = (map fill_null l,
     repeat null_error (length (List.filter is_null l))).
Proof.
  induction l as [|[pc|] l IH]; cbn [replace_nulls map List.filter is_null];
    [reflexivity | rewrite IH; reflexivity | rewrite IH; reflexivity].
Qed.

Lemma formatAndAppend_not_null (P : Platform) (pc : PatternConverter)
    (event : InternalLoggingEvent) :
  PatternConverter_formatAndAppend P pc event <> Stop null_dereference.
Proof.
  assert (Hsub : forall s n, substr s n <> Stop null_dereference).
  { intros s n. unfold substr. destruct (len s <? n); discriminate. }
  assert (Hf : forall i s, format_field i s <> Stop null_dereference).
  { intros i s. unfold format_field.
    destruct (len s >? maxLen i); [apply Hsub|].
    destruct (len s <? minLen i); [|discriminate].
    destruct (leftAlign i); discriminate. }
  unfold PatternConverter_formatAndAppend.
  destruct (convert P pc event) as [s|e] eqn:E; cbn [bind]; [apply Hf|].
  intros [= ->]. destruct pc as [i s|i cpm t|i n|i f u]; cbn in E.
  - discriminate.
  - unfold BasicPatternConverter_convert in E.
    destruct t; try discriminate.
    + destruct (cpm =? 0); discriminate.
    + destruct (negb (line event =? -1)); discriminate.
    + destruct (file event); discriminate.
  - unfold LoggerPatternConverter_convert in E.
    destruct (n <=? 0); [discriminate|].
    destruct (logger_walk _ _ _); [|discriminate].
    exact (Hsub _ _ E).
  - unfold DatePatternConverter_convert in E.
    destruct (if u then _ else _) as [time|]; [|discriminate].
    destruct (strftime _ _ _ _) as [r b]. destruct (r >? 0); discriminate.
Qed.

Lemma format_all_not_null (P : Platform) (l : list (option PatternConverter))
    (event : InternalLoggingEvent) :
  Forall (fun c => is_null c = false) l ->
  format_all P l event <> Stop null_dereference.
Proof.
  induction 1 as [|[pc|] l Hpc Hl IH]; cbn [format_all].
  - discriminate.
  - pose proof (formatAndAppend_not_null P pc event) as Hn.
    destruct (PatternConverter_formatAndAppend P pc event); cbn [bind];
      [|exact Hn].
    destruct (format_all P l event); cbn [bind]; [discriminate | exact IH].
  - discriminate.
Qed.

Lemma no_null_clean (l : list (option PatternConverter)) :
  no_null l -> map fill_null l = l /\ List.filter is_null l = [].
Proof.
  induction 1 as [|[pc|] l Hc Hl [IH1 IH2]]; cbn; [auto | | discriminate].
  rewrite IH1, IH2. auto.
Qed.

(** [init] on any pattern: the parser returns a list without a null, and the
    layout keeps the pattern and that list, or the message converter when
    the list is empty. *)
Lemma init_keeps_parsed_list (P : Platform) (pat : cstring) :
  exists parsed g0 layout,
    PatternParser_parse P (PatternParser_new pat) = Ok (parsed, g0)
    /\ no_null parsed
    /\ PatternLayout_init P pat
       = Ok (layout,
             g0 ++ (if len_nat_zero parsed then [empty_warning] else []))
    /\ layout_pattern layout = pat
    /\ parsedPattern layout
       = (if len_nat_zero parsed then [Some (default_message_converter P)]
          else parsed).
Proof.
  destruct (parse_loop_ok P (length pat) (set_pos (PatternParser_new pat) 0))
    as (q & E & _ & _ & _ & Hnn).
  { cbn. unfold len. lia. }
  { cbn. unfold len. cbn. lia. }
  { cbn. unfold len. lia. }
  specialize (Hnn ltac:(constructor)).
  assert (Hflush : no_null (list_ (parse_flush q))).
  { unfold parse_flush. destruct (negb _); [|exact Hnn].
    cbn [list_ push_back]. apply Forall_app. split; [exact Hnn|].
    repeat constructor. }
  unfold PatternLayout_init, PatternParser_parse.
  cbn [pattern set_pos PatternParser_new] in *. rewrite E. cbn [bind].
  rewrite replace_nulls_spec.
  destruct (no_null_clean _ Hflush) as [-> ->]. cbn [length repeat app].
  unfold use_default.
  destruct (len_nat_zero (list_ (parse_flush q))) eqn:Hz.
  - unfold len_nat_zero in Hz. apply Nat.eqb_eq in Hz.
    destruct (list_ (parse_flush q)); [|discriminate].
    cbn [BasicPatternConverter app].
    eexists _, _, _. split; [reflexivity|]. split; [constructor|].
    split; [reflexivity|]. split; reflexivity.
  - eexists _, _, _. split; [reflexivity|]. split; [exact Hflush|].
    rewrite Hz. split; [reflexivity|]. split; reflexivity.
Qed.

(** ** Construction from properties *)

(** C8.  A configuration map without the key "Pattern" makes the constructor
    throw, so no layout is built.  With the key bound the constructor does
    what [init] does on the value of the key: the value is parsed, and the
    layout returned keeps the value as its pattern and the parsed converters
    as its list (the message converter, with the warning, when nothing was
    parsed). *)
Theorem properties_need_pattern (P : Platform)
    (properties : gmap string cstring) :
  (properties !! "Pattern"%string = None ->
     PatternLayout_of_properties P properties
     = Stop (runtime_error (text "Pattern not specified in properties")))
  /\ (forall v, properties !! "Pattern"%string = Some v ->
        PatternLayout_of_properties P properties = PatternLayout_init P v
        /\ exists parsed g0 layout,
             PatternParser_parse P (PatternParser_new v) = Ok (parsed, g0)
             /\ PatternLayout_of_properties P properties
                = Ok (layout,
                      g0 ++ (if len_nat_zero parsed then [empty_warning]
                             else []))
             /\ layout_pattern layout = v
             /\ parsedPattern layout
                = (if len_nat_zero parsed
                   then [Some (default_message_converter P)]
                   else parsed)).
Proof.
  unfold PatternLayout_of_properties, Properties_exists,
    Properties_getProperty.
  split.
  - intros H. rewrite H, bool_decide_eq_false_2; [reflexivity|].
    intros [v Hv]. discriminate.
  - intros v H. rewrite H, bool_decide_eq_true_2 by (eexists; reflexivity).
    cbn [negb default from_option id]. split; [reflexivity|].
    destruct (init_keeps_parsed_list P v)
      as (parsed & g0 & layout & H1 & _ & H3 & H4 & H5).
    exists parsed, g0, layout. auto.
Qed.

Lemma properties_need_pattern_witness :
  PatternLayout_of_properties reference_platform
    (<["Threshold"%string := text "INFO"]> ∅)
  = Stop (runtime_error (text "Pattern not specified in properties"))
  /\ PatternLayout_of_properties reference_platform
       (<["Threshold"%string := text "INFO"]>
          (<["Pattern"%string := text "%m%n"]> ∅))
     = Ok ({| layout_pattern := text "%m%n";
              parsedPattern :=
                [Some (Basic FormattingInfo_reset 1000 MESSAGE_CONVERTER);
                 Some (LiteralPatternConverter [newline])] |}, []).
Proof.
  split.
  - apply (properties_need_pattern reference_platform).
    rewrite lookup_insert_ne by discriminate. apply lookup_empty.
  - destruct (proj2 (properties_need_pattern reference_platform
                       (<["Threshold"%string := text "INFO"]>
                          (<["Pattern"%string := text "%m%n"]> ∅)))
                (text "%m%n"))
      as (_ & parsed & g0 & layout & Hparse & Hctor & Hpat & Hlist).
    { rewrite lookup_insert_ne by discriminate. apply lookup_insert_eq. }
    assert (Hrun : PatternParser_parse reference_platform
                     (PatternParser_new (text "%m%n"))
                   = Ok ([Some (Basic FormattingInfo_reset 1000
                                  MESSAGE_CONVERTER);
                          Some (LiteralPatternConverter [newline])], []))
      by (vm_compute; reflexivity).
    rewrite Hrun in Hparse. injection Hparse as <- <-.
    rewrite Hctor. destruct layout as [lp pp]. cbn in Hpat, Hlist.
    subst lp pp. reflexivity.
Defined.

Lemma repair_spec (P : Platform) (l : list (option PatternConverter)) :
  let repaired := fst (use_default P (fst (replace_nulls l))) in
  let written := snd (replace_nulls l)
                 ++ snd (use_default P (fst (replace_nulls l))) in
  repaired = (if len_nat_zero l then [Some (default_message_converter P)]
              else map fill_null l)
  /\ written = repeat null_error (length (List.filter is_null l))
               ++ (if len_nat_zero l then [empty_warning] else [])
  /\ repaired <> []
  /\ no_null repaired
  /\ forall event, format_all P repaired event <> Stop null_dereference.
Proof.
  cbv zeta. rewrite replace_nulls_spec. cbn [fst snd].
  assert (Hfill : no_null (map fill_null l)).
  { apply Forall_map. apply Forall_forall. intros [pc|] _; reflexivity. }
  unfold use_default, len_nat_zero. rewrite length_map.
  destruct l as [|c l].
  - cbn [length Nat.eqb BasicPatternConverter map app fst snd List.filter
         repeat].
    split; [reflexivity|]. split; [reflexivity|]. split; [discriminate|].
    split; [repeat constructor|].
    intros event. apply format_all_not_null. repeat constructor.
  - cbn [length Nat.eqb fst snd]. rewrite app_nil_r.
    split; [reflexivity|]. split; [reflexivity|]. split; [discriminate|].
    split; [exact Hfill|].
    intros event. apply format_all_not_null. exact Hfill.
Qed.

(** C7.  Whatever list the parser hands to [init], the list [init] leaves
    is that list with an empty literal in every null slot, or the message
    converter alone when the list is empty; an error is written for every
    slot filled and a warning for the default; the list left is never empty
    and holds no null, so no render call meets a missing converter.  And for
    every pattern the constructor returns a layout whose list is the one
    left by these repairs of the parsed list. *)
Theorem init_yields_valid_sequence (P : Platform) (pat : cstring) :
  (forall l,
     let repaired := fst (use_default P (fst (replace_nulls l))) in
     let written := snd (replace_nulls l)
                    ++ snd (use_default P (fst (replace_nulls l))) in
     repaired = (if len_nat_zero l then [Some (default_message_converter P)]
                 else map fill_null l)
     /\ written = repeat null_error (length (List.filter is_null l))
                  ++ (if len_nat_zero l then [empty_warning] else [])
     /\ repaired <> []
     /\ Forall (fun c => is_null c = false) repaired
     /\ forall event, format_all P repaired event <> Stop null_dereference)
  /\ exists parsed g0 layout g,
    PatternParser_parse P (PatternParser_new pat) = Ok (parsed, g0)
    /\ PatternLayout_new P pat = Ok (layout, g)
    /\ parsedPattern layout
       = (if len_nat_zero parsed then [Some (default_message_converter P)]
          else map fill_null parsed)
    /\ g = g0 ++ repeat null_error (length (List.filter is_null parsed))
              ++ (if len_nat_zero parsed then [empty_warning] else [])
    /\ parsedPattern layout <> []
    /\ Forall (fun c => is_null c = false) (parsedPattern layout)
    /\ forall event,
         PatternLayout_formatAndAppend P layout event <> Stop null_dereference.
Proof.
  split; [intros l; apply repair_spec|].
  destruct (parse_total P pat) as (parsed & g0 & Hparse).
  destruct (repair_spec P parsed) as (H1 & H2 & H3 & H4 & H5).
  unfold PatternLayout_new, PatternLayout_init. rewrite Hparse. cbn [bind].
  destruct (replace_nulls parsed) as [r g1] eqn:Er. cbn [fst snd] in *.
  destruct (use_default P r) as [r' g2] eqn:Eu. cbn [fst snd] in *.
  eexists _, _, _, _. split; [reflexivity|]. split; [reflexivity|].
  cbn [parsedPattern]. unfold PatternLayout_formatAndAppend.
  cbn [parsedPattern]. rewrite <- H2. auto.
Qed.

Lemma init_yields_valid_sequence_witness :
  fst (use_default reference_platform
         (fst (replace_nulls
                 [None; Some (LoggerPatternConverter FormattingInfo_reset 2)])))
    = [Some (LiteralPatternConverter []);
       Some (LoggerPatternConverter FormattingInfo_reset 2)]
  /\ snd (replace_nulls
            [None; Some (LoggerPatternConverter FormattingInfo_reset 2)])
     ++ snd (use_default reference_platform
               (fst (replace_nulls
                       [None;
                        Some (LoggerPatternConverter FormattingInfo_reset 2)])))
     = [null_error]
  /\ PatternLayout_new reference_platform []
     = Ok ({| layout_pattern := [];
              parsedPattern :=
                [Some (Basic FormattingInfo_reset 1000 MESSAGE_CONVERTER)] |},
           [empty_warning]).
Proof.
  destruct (init_yields_valid_sequence reference_platform []) as [Hrep Hnew].
  destruct (Hrep [None; Some (LoggerPatternConverter FormattingInfo_reset 2)])
    as (H1 & H2 & _).
  split; [exact H1|]. split; [exact H2|].
  destruct Hnew as (parsed & g0 & layout & g & Hp & Hl & Hlist & Hg & _).
  assert (Hrun : PatternParser_parse reference_platform (PatternParser_new [])
                 = Ok ([], [])) by (vm_compute; reflexivity).
  rewrite Hrun in Hp. injection Hp as <- <-.
  cbn in Hlist, Hg. subst g.
  rewrite Hl. f_equal. f_equal.
  assert (Hpat : layout_pattern layout = []).
  { unfold PatternLayout_new, PatternLayout_init in Hl. rewrite Hrun in Hl.
    cbn in Hl. injection Hl as <-. reflexivity. }
  destruct layout as [lp pp]. cbn in Hlist, Hpat. subst lp pp. reflexivity.
Defined.

(** ** Literal text *)

(** A literal converter is built on the default formatting information, so a
    text that fits an [int] is rendered as it is. *)
Lemma literal_renders_itself (P : Platform) (s : cstring)
    (event : InternalLoggingEvent) :
  len s <= INT_MAX ->
  PatternConverter_formatAndAppend P (LiteralPatternConverter s) event = Ok s.
Proof.
  intros H. unfold PatternConverter_formatAndAppend, LiteralPatternConverter.
  cbn [convert bind info_of]. unfold format_field.
  cbn [maxLen minLen FormattingInfo_reset]. unfold INT_MAX in H.
  pose proof (len_nonneg s).
  destruct (Z.gtb_spec (len s) 2147483647); [lia|].
  destruct (Z.ltb_spec (len s) (-1)); [lia|]. reflexivity.
Qed.

Lemma skipn_cons_nth (s : cstring) (n : nat) (c : ascii) :
  nth_error s n = Some c -> skipn n s = c :: skipn (S n) s.
Proof.
  revert n. induction s as [|x s IH]; intros [|n]; cbn; try discriminate.
  - intros [= ->]. reflexivity.
  - apply IH.
Qed.

(** In literal state a character other than the escape character joins the
    pending literal. *)
Lemma parse_body_plain (P : Platform) (p : PatternParser) (c : ascii) :
  state p = LITERAL_STATE ->
  at_ (pattern p) (pos p) = Ok c ->
  Ascii.eqb c ESCAPE_CHAR = false ->
  parse_body P p = Ok (append_literal (set_pos p (pos p + 1)) c).
Proof.
  intros Hst Hc Hne. unfold parse_body. rewrite Hc. cbn [bind].
  cbn [state set_pos]. rewrite Hst, Hne.
  destruct (_ =? _); reflexivity.
Qed.

Lemma parse_loop_plain_end (p : PatternParser) :
  pos p = len (pattern p) ->
  p = set_currentLiteral (set_pos p (len (pattern p)))
        (currentLiteral p ++ skipn (Z.to_nat (pos p)) (pattern p)).
Proof.
  intros H. rewrite skipn_all2 by (unfold len in H; lia).
  rewrite app_nil_r. destruct p; cbn in *. subst. reflexivity.
Qed.

Lemma parse_loop_plain (P : Platform) (fuel : nat) (p : PatternParser) :
  state p = LITERAL_STATE ->
  0 <= pos p <= len (pattern p) ->
  (forall c, In c (pattern p) -> Ascii.eqb c ESCAPE_CHAR = false) ->
  len (pattern p) - pos p <= Z.of_nat fuel ->
  parse_loop P fuel p
  = Ok (set_currentLiteral (set_pos p (len (pattern p)))
          (currentLiteral p ++ skipn (Z.to_nat (pos p)) (pattern p))).
Proof.
  revert p. induction fuel as [|fuel IH]; intros p Hst Hp Hplain Hfuel;
    cbn [parse_loop]; rewrite to_size_t_nonneg by lia;
    destruct (Z.ltb_spec (pos p) (len (pattern p))) as [Hlt|Hge].
  - lia.
  - f_equal. apply parse_loop_plain_end. lia.
  - destruct (at_ok (pattern p) (pos p)) as [c Hc]; [lia|].
    destruct (at_inv _ _ _ Hc) as [_ Hn].
    rewrite (parse_body_plain P p c Hst Hc).
    2:{ apply Hplain. eapply nth_error_In. exact Hn. }
    cbn [bind]. rewrite IH; fields; try assumption; try lia.
    rewrite (skipn_cons_nth _ _ _ Hn).
    replace (Z.to_nat (pos p + 1)) with (S (Z.to_nat (pos p))) by lia.
    rewrite <- app_assoc. reflexivity.
  - f_equal. apply parse_loop_plain_end. lia.
Qed.

(** C9, amended.  A pattern that is not empty, fits an [int] and holds no
    escape character compiles, without a diagnostic, to a layout that renders
    every event as the pattern text itself. *)
Theorem plain_pattern_renders_itself (P : Platform) (pat : cstring)
    (event : InternalLoggingEvent) :
  pat <> [] ->
  len pat <= INT_MAX ->
  (forall c, In c pat -> c <> ESCAPE_CHAR) ->
  exists layout,
    PatternLayout_new P pat = Ok (layout, [])
    /\ parsedPattern layout = [Some (LiteralPatternConverter pat)]
    /\ PatternLayout_formatAndAppend P layout event = Ok pat.
Proof.
  intros Hne Hlen Hplain.
  pose (p0 := set_pos (PatternParser_new pat) 0).
  assert (Hloop : parse_loop P (length pat) p0
            = Ok (set_currentLiteral (set_pos p0 (len pat)) pat)).
  { rewrite parse_loop_plain; subst p0; cbn [state pattern pos set_pos
      PatternParser_new currentLiteral]; unfold len; try lia.
    - reflexivity.
    - reflexivity.
    - intros c Hc. apply Ascii.eqb_neq. apply Hplain. exact Hc. }
  unfold PatternLayout_new, PatternLayout_init, PatternParser_parse.
  cbn [pattern set_pos PatternParser_new]. fold p0. rewrite Hloop.
  cbn [bind]. unfold parse_flush. subst p0. fields.
  destruct pat as [|c pat]; [congruence|].
  cbn [length len Z.eqb Z.of_nat negb]. fields.
  cbn [app replace_nulls use_default len_nat_zero length Nat.eqb].
  eexists. split; [reflexivity|]. split; [reflexivity|].
  unfold PatternLayout_formatAndAppend. cbn [parsedPattern format_all].
  rewrite literal_renders_itself by exact Hlen.
  cbn [bind]. rewrite app_nil_r. reflexivity.
Qed.

Lemma plain_pattern_renders_itself_witness :
  exists layout,
    PatternLayout_new reference_platform ("a"%char :: newline :: text "b c")
      = Ok (layout, [])
    /\ parsedPattern layout
       = [Some (LiteralPatternConverter ("a"%char :: newline :: text "b c"))]
    /\ PatternLayout_formatAndAppend reference_platform layout sample_event
       = Ok ("a"%char :: newline :: text "b c").
Proof.
  apply plain_pattern_renders_itself.
  - discriminate.
  - vm_compute. congruence.
  - intros c Hc. cbn in Hc.
    repeat (destruct Hc as [<-|Hc]; [discriminate|]). destruct Hc.
Defined.

(** C9 as stated fails on the empty pattern, which holds no escape
    character: the layout falls back on the message converter and renders
    the message of the event. *)
Lemma empty_pattern_renders_message :
  (forall c, In c (@nil ascii) -> c <> ESCAPE_CHAR)
  /\ exists layout,
       PatternLayout_new reference_platform [] = Ok (layout, [empty_warning])
       /\ PatternLayout_formatAndAppend reference_platform layout sample_event
          = Ok (text "started")
       /\ Ok (text "started") <> Ok (@nil ascii).
Proof.
  split; [intros c []|].
  eexists. split; [reflexivity|]. split; [reflexivity | discriminate].
Qed.

(** ** The malformed pattern "%.x" *)

(** C3, amended.  On "%.x" the loop ends in literal state after one error
    about the character that is not a digit; nothing is thrown and no
    converter is built inside the loop, but the text read so far stays in
    the pending literal, and [parse] returns it as one literal converter. *)
Theorem dot_without_digit (P : Platform) :
  parse_loop P 3 (set_pos (PatternParser_new (text "%.x")) 0)
  = Ok {| pattern := text "%.x";
          formattingInfo := FormattingInfo_reset;
          list_ := [];
          state := LITERAL_STATE;
          pos := 3;
          currentLiteral := text "%.x";
          loglog := [(LL_ERROR, expecting_digit_message "x" 3)] |}
  /\ PatternParser_parse P (PatternParser_new (text "%.x"))
     = Ok ([Some (LiteralPatternConverter (text "%.x"))],
           [(LL_ERROR, expecting_digit_message "x" 3)])
  /\ expecting_digit_message "x" 3
     = text "Error occured in position 3." ++ [newline]
       ++ text " Was expecting digit, instead got char "
       ++ [dquote; "x"%char; dquote; "."%char].
Proof.
  split; [vm_compute; reflexivity|].
  split; vm_compute; reflexivity.
Qed.

(** C3 as stated fails: the fragment does get a converter, and the layout
    renders it. *)
Lemma dot_without_digit_leaves_converter :
  exists g layout g',
    PatternParser_parse reference_platform (PatternParser_new (text "%.x"))
      = Ok ([Some (LiteralPatternConverter (text "%.x"))], g)
    /\ [Some (LiteralPatternConverter (text "%.x"))] <> []
    /\ PatternLayout_new reference_platform (text "%.x") = Ok (layout, g')
    /\ PatternLayout_formatAndAppend reference_platform layout sample_event
       = Ok (text "%.x").
Proof.
  exists [(LL_ERROR, expecting_digit_message "x" 3)].
  exists {| layout_pattern := text "%.x";
            parsedPattern := [Some (LiteralPatternConverter (text "%.x"))] |}.
  exists [(LL_ERROR, expecting_digit_message "x" 3)].
  split; [vm_compute; reflexivity|]. split; [discriminate|].
  split; vm_compute; reflexivity.
Qed.

(** ** The logger name *)

Lemma count_dots_app (a b : cstring) :
  count_dots (a ++ b) = (count_dots a + count_dots b)%nat.
Proof. unfold count_dots. rewrite List.filter_app, length_app. reflexivity. Qed.

Lemma firstn_snoc_nth (s : cstring) (k : nat) (x : ascii) :
  nth_error s k = Some x -> firstn (S k) s = firstn k s ++ [x].
Proof.
  revert k. induction s as [|y s IH]; intros [|k]; cbn; try discriminate.
  - intros [= ->]. reflexivity.
  - intros H. rewrite (IH _ H). reflexivity.
Qed.

Lemma count_dots_step (s : cstring) (k : nat) (x : ascii) :
  nth_error s k = Some x ->
  count_dots (firstn (S k) s)
  = (count_dots (firstn k s) + (if Ascii.eqb x "." then 1 else 0))%nat.
Proof.
  intros H. rewrite (firstn_snoc_nth _ _ _ H), count_dots_app.
  unfold count_dots at 2. cbn. destruct (Ascii.eqb x "."); reflexivity.
Qed.

Lemma count_dots_mono (s : cstring) (n m : nat) :
  (n <= m)%nat -> (count_dots (firstn n s) <= count_dots (firstn m s))%nat.
Proof.
  intros H. rewrite <- (firstn_skipn n (firstn m s)), count_dots_app.
  rewrite firstn_firstn, Nat.min_l by exact H. lia.
Qed.

(** What the backward search finds among the first [n] characters. *)
Lemma rfind_upto_dots (s : cstring) (n : nat) :
  (n <= length s)%nat ->
  match rfind_upto "." s n with
  | Some k => (k < n)%nat /\ nth_error s k = Some "."%char
              /\ count_dots (firstn n s) = S (count_dots (firstn k s))
  | None => count_dots (firstn n s) = 0%nat
  end.
Proof.
  induction n as [|n IH]; intros Hn; cbn [rfind_upto].
  - reflexivity.
  - destruct (nth_error s n) as [x|] eqn:Hx.
    2:{ apply nth_error_None in Hx. lia. }
    rewrite (count_dots_step _ _ _ Hx).
    destruct (Ascii.eqb_spec x ".") as [->|Hne].
    + split; [lia|]. split; [exact Hx | lia].
    + specialize (IH ltac:(lia)).
      destruct (rfind_upto "." s n) as [k|].
      * destruct IH as (H1 & H2 & H3). split; [lia|]. split; [exact H2 | lia].
      * lia.
Qed.

Lemma rfind_below (s : cstring) (e : nat) :
  (1 <= e <= length s)%nat ->
  rfind s "." (to_size_t (Z.of_nat e - 1)) = rfind_upto "." s e.
Proof.
  intros H. rewrite to_size_t_nonneg by lia. unfold rfind.
  destruct (length s) as [|last] eqn:E; [lia|].
  rewrite Z.min_l by lia. f_equal. lia.
Qed.

(** The walk finds the [i]-th dot to the left of [e] when there are that
    many. *)
Lemma logger_walk_finds (name : cstring) (i e : nat) :
  (1 <= i)%nat -> (1 <= e <= length name)%nat ->
  (i <= count_dots (firstn e name))%nat ->
  exists k, logger_walk name i (Z.of_nat e) = Some (Z.of_nat k)
    /\ (k < e)%nat /\ nth_error name k = Some "."%char
    /\ count_dots (firstn e name) = (i + count_dots (firstn k name))%nat.
Proof.
  revert e. induction i as [|i IH]; intros e Hi He Hd; [lia|].
  cbn [logger_walk]. rewrite rfind_below by exact He.
  pose proof (rfind_upto_dots name e ltac:(lia)) as Hr.
  destruct (rfind_upto "." name e) as [k|]; [|lia].
  destruct Hr as (Hk & Hdot & Hcount). cbn [index_to_int].
  unfold is_npos. destruct (Z.eqb_spec (Z.of_nat k) (-1)); [lia|].
  destruct i as [|i].
  - cbn [logger_walk]. exists k. split_and!; try done; lia.
  - assert (1 <= k)%nat.
    { destruct k; [|lia].
      change (count_dots (firstn 0 name)) with 0%nat in Hcount. lia. }
    destruct (IH k) as (k' & E & H1 & H2 & H3); try lia.
    exists k'. split_and!; try done; lia.
Qed.

(** The walk gives up when fewer dots are left and the name does not begin
    with one. *)
Lemma logger_walk_gives_up (name : cstring) (i e : nat) :
  nth_error name 0 <> Some "."%char ->
  (1 <= e <= length name)%nat ->
  (count_dots (firstn e name) < i)%nat ->
  logger_walk name i (Z.of_nat e) = None.
Proof.
  intros Hhead. revert e. induction i as [|i IH]; intros e He Hd; [lia|].
  cbn [logger_walk]. rewrite rfind_below by exact He.
  pose proof (rfind_upto_dots name e ltac:(lia)) as Hr.
  destruct (rfind_upto "." name e) as [k|]; [|reflexivity].
  destruct Hr as (Hk & Hdot & Hcount). cbn [index_to_int].
  unfold is_npos. destruct (Z.eqb_spec (Z.of_nat k) (-1)); [lia|].
  destruct k as [|k]; [congruence|].
  apply IH; lia.
Qed.

Lemma removelast_is_firstn (s : cstring) :
  removelast s = firstn (length s - 1) s.
Proof.
  rewrite removelast_firstn_len. f_equal. lia.
Qed.

(** C2, amended.  A precision that is not positive extracts the whole logger
    name.  For a positive precision [p] only the dots before the last
    character count: when the name reads [pre ++ "." ++ suf] with [suf] not
    empty and [p - 1] counted dots in [suf], the extraction is [suf]; when
    fewer than [p] dots count and the name does not begin with a dot, the
    extraction is the whole name. *)
Theorem logger_precision_rule (precision : Z) (event : InternalLoggingEvent) :
  let name := loggerName event in
  let out := LoggerPatternConverter_convert precision event in
  (precision <= 0 -> out = Ok name)
  /\ (0 < precision ->
      forall pre suf,
        name = pre ++ "."%char :: suf -> suf <> [] ->
        Z.of_nat (count_dots (removelast suf)) = precision - 1 ->
        out = Ok suf)
  /\ (0 < precision ->
      Z.of_nat (count_dots (removelast name)) < precision ->
      nth_error name 0 <> Some "."%char ->
      out = Ok name).
Proof.
  cbv zeta. unfold LoggerPatternConverter_convert.
  generalize (loggerName event). intros name.
  split; [|split].
  - intros Hp. destruct (Z.leb_spec precision 0); [reflexivity | lia].
  - intros Hp pre suf Hname Hsuf Hcount.
    destruct (Z.leb_spec precision 0); [lia|].
    assert (Hlen : length name = (length pre + 1 + length suf)%nat).
    { rewrite Hname, length_app. cbn [length]. lia. }
    assert (Hsuflen : (1 <= length suf)%nat).
    { destruct suf; [congruence | cbn; lia]. }
    assert (Hrl : removelast name = pre ++ "."%char :: removelast suf).
    { rewrite Hname, removelast_app by discriminate.
      cbn [removelast]. destruct suf; [congruence | reflexivity]. }
    pose proof (removelast_is_firstn name) as Hfirst.
    assert (Hd : count_dots (firstn (length name - 1) name)
                 = (count_dots pre + 1 + count_dots (removelast suf))%nat).
    { rewrite <- Hfirst, Hrl, count_dots_app.
      change ("."%char :: removelast suf) with (["."%char] ++ removelast suf).
      rewrite count_dots_app. unfold count_dots at 2. cbn. lia. }
    replace (len name - 1) with (Z.of_nat (length name - 1))
      by (unfold len; lia).
    destruct (logger_walk_finds name (Z.to_nat precision) (length name - 1))
      as (k & E & Hk & Hdot & Hk2); try lia.
    rewrite E.
    assert (Hpre : firstn (length pre) name = pre).
    { rewrite Hname, firstn_app, firstn_all, Nat.sub_diag. cbn [firstn].
      apply app_nil_r. }
    assert (Hpre1 : count_dots (firstn (S (length pre)) name)
                    = S (count_dots pre)).
    { rewrite (count_dots_step _ _ "."), Hpre; [cbn; lia|].
      rewrite Hname, nth_error_app2, Nat.sub_diag by lia. reflexivity. }
    assert (k = length pre) as ->.
    { destruct (Nat.lt_trichotomy k (length pre)) as [Hlt|[Heq|Hgt]];
        [|exact Heq|].
      - pose proof (count_dots_mono name (S k) (length pre) ltac:(lia)) as Hm.
        rewrite (count_dots_step _ _ _ Hdot), Hpre in Hm. cbn in Hm. lia.
      - pose proof (count_dots_mono name (S (length pre)) k ltac:(lia)) as Hm.
        rewrite Hpre1 in Hm. lia. }
    rewrite to_size_t_nonneg by lia. unfold substr, len.
    destruct (Z.ltb_spec (Z.of_nat (length name)) (Z.of_nat (length pre) + 1));
      [lia|].
    f_equal. replace (Z.to_nat (Z.of_nat (length pre) + 1))
      with (length pre + 1)%nat by lia.
    rewrite Hname, skipn_app, skipn_all2 by lia.
    replace (length pre + 1 - length pre)%nat with 1%nat by lia.
    reflexivity.
  - intros Hp Hcount Hhead.
    destruct (Z.leb_spec precision 0); [lia|].
    rewrite removelast_is_firstn in Hcount.
    destruct (Nat.le_gt_cases 2 (length name)) as [Hlong|Hshort].
    + replace (len name - 1) with (Z.of_nat (length name - 1))
        by (unfold len; lia).
      rewrite logger_walk_gives_up; try lia; [reflexivity | exact Hhead].
    + destruct (Z.to_nat precision) as [|i] eqn:Ei; [lia|].
      cbn [logger_walk]. unfold rfind, len.
      destruct name as [|c [|c' name]]; cbn [length] in *; [| |lia].
      * reflexivity.
      * change (Z.to_nat (Z.min (to_size_t (Z.of_nat 1 - 1 - 1)) (Z.of_nat 0)))
          with 0%nat.
        cbn [rfind_upto nth_error].
        destruct (Ascii.eqb_spec c "."); [subst; cbn in Hhead; congruence|].
        reflexivity.
Qed.

Lemma logger_precision_rule_witness :
  LoggerPatternConverter_convert 0 (event_named (text "a.b.c.d"))
    = Ok (text "a.b.c.d")
  /\ LoggerPatternConverter_convert 2 (event_named (text "a.b.c.d"))
    = Ok (text "c.d")
  /\ LoggerPatternConverter_convert 4 (event_named (text "a.b.c.d"))
    = Ok (text "a.b.c.d")
  /\ LoggerPatternConverter_convert 1 (event_named (text "a.b."))
    = Ok (text "b.").
Proof.
  split; [|split; [|split]].
  - pose proof (logger_precision_rule 0 (event_named (text "a.b.c.d"))) as H.
    cbv zeta in H. destruct H as (A & _). apply A. lia.
  - pose proof (logger_precision_rule 2 (event_named (text "a.b.c.d"))) as H.
    cbv zeta in H. destruct H as (_ & B & _).
    apply (B ltac:(lia) (text "a.b") (text "c.d"));
      [reflexivity | discriminate | reflexivity].
  - pose proof (logger_precision_rule 4 (event_named (text "a.b.c.d"))) as H.
    cbv zeta in H. destruct H as (_ & _ & C).
    apply C; [lia | vm_compute; reflexivity | discriminate].
  - pose proof (logger_precision_rule 1 (event_named (text "a.b."))) as H.
    cbv zeta in H. destruct H as (_ & B & _).
    apply (B ltac:(lia) (text "a") (text "b."));
      [reflexivity | discriminate | reflexivity].
Defined.

(** C2 as stated fails on a name that ends with a dot.  In "a.b." the first
    dot from the right is the last character and nothing follows it, and two
    dots are not fewer than two; the converter extracts "b." at precision 1
    and the whole name at precision 2. *)
Lemma trailing_dot_is_not_counted :
  count_dots (text "a.b.") = 2%nat
  /\ logger_name_rule 1 (text "a.b.") = []
  /\ LoggerPatternConverter_convert 1 (event_named (text "a.b."))
     = Ok (text "b.")
  /\ LoggerPatternConverter_convert 1 (event_named (text "a.b."))
     <> Ok (logger_name_rule 1 (text "a.b."))
  /\ logger_name_rule 2 (text "a.b.") = text "b."
  /\ LoggerPatternConverter_convert 2 (event_named (text "a.b."))
     = Ok (text "a.b.")
  /\ LoggerPatternConverter_convert 2 (event_named (text "a.b."))
     <> Ok (logger_name_rule 2 (text "a.b.")).
Proof. repeat (split; [first [reflexivity | discriminate]|]). discriminate. Qed.

(** A name that begins with a dot, at a precision above the number of its
    dots: the search position -1 wraps around as a [size_t], the search
    starts over from the end of the name, and a suffix is extracted where
    the whole name is expected. *)
Lemma leading_dot_wraps_around :
  count_dots (text ".a.b") = 2%nat
  /\ LoggerPatternConverter_convert 3 (event_named (text ".a.b"))
     = Ok (text "b").
Proof. split; reflexivity. Qed.

(** * Further properties of the code *)

(** ** Padding and truncation *)

(** The padding stage of [PatternConverter::formatAndAppend] throws for
    every string when [maxLen] is negative, through [substr] at a position
    past the end; with a [maxLen] that is not negative it never fails, and
    the text it inserts has [maxLen] characters when the string is longer,
    and otherwise the larger of the string's length and [minLen]. *)
Theorem format_field_fails_on_negative_max (i : FormattingInfo) (s : cstring) :
  (maxLen i < 0 -> format_field i s = Stop out_of_range)
  /\ (0 <= maxLen i ->
      exists out, format_field i s = Ok out
        /\ len out = (if len s >? maxLen i then maxLen i
                      else Z.max (len s) (minLen i))).
Proof.
  unfold format_field. pose proof (len_nonneg s) as Hs.
  destruct i as [mn mx la]. cbn [minLen maxLen leftAlign]. split.
  - intros Hneg. destruct (Z.gtb_spec (len s) mx); [|lia].
    rewrite to_size_t_nonneg by lia. unfold substr.
    destruct (Z.ltb_spec (len s) (len s - mx)); [reflexivity | lia].
  - intros Hmax. destruct (Z.gtb_spec (len s) mx).
    + rewrite to_size_t_nonneg by lia. unfold substr.
      destruct (Z.ltb_spec (len s) (len s - mx)); [lia|].
      eexists. split; [reflexivity|]. unfold len in *.
      rewrite length_skipn. lia.
    + destruct (Z.ltb_spec (len s) mn).
      * destruct la; eexists; (split; [reflexivity|]); unfold len, fill in *;
          rewrite length_app, repeat_length; lia.
      * eexists. split; [reflexivity | lia].
Qed.

Lemma format_field_fails_on_negative_max_witness :
  format_field {| minLen := 4; maxLen := -1; leftAlign := false |} (text "ab")
    = Stop out_of_range
  /\ exists out,
       format_field {| minLen := 4; maxLen := 3; leftAlign := false |}
         (text "hello") = Ok out
       /\ len out = 3.
Proof.
  split.
  - apply (format_field_fails_on_negative_max
             {| minLen := 4; maxLen := -1; leftAlign := false |} (text "ab")).
    reflexivity.
  - apply (format_field_fails_on_negative_max
             {| minLen := 4; maxLen := 3; leftAlign := false |} (text "hello")).
    discriminate.
Defined.

(** With [minLen <= maxLen] the rendered field is at least [minLen] and at
    most [maxLen] characters wide, and formatting the rendered field once
    more leaves it as it is. *)
Theorem format_field_width_bounds (i : FormattingInfo) (s out : cstring) :
  0 <= maxLen i ->
  minLen i <= maxLen i ->
  format_field i s = Ok out ->
  minLen i <= len out <= maxLen i /\ format_field i out = Ok out.
Proof.
  intros Hmax Hmin. unfold format_field. pose proof (len_nonneg s) as Hs.
  destruct i as [mn mx la]. cbn [minLen maxLen leftAlign] in *.
  assert (Hsame : forall t, mn <= len t <= mx ->
            (if len t >? mx then substr t (to_size_t (len t - mx))
             else if len t <? mn
                  then if la then Ok (t ++ fill (mn - len t) space)
                       else Ok (fill (mn - len t) space ++ t)
                  else Ok t) = Ok t).
  { intros t Ht. destruct (Z.gtb_spec (len t) mx); [lia|].
    destruct (Z.ltb_spec (len t) mn); [lia | reflexivity]. }
  assert (Hgoal : mn <= len out <= mx ->
            mn <= len out <= mx /\ _ = Ok out) by (intros Ho; split;
            [exact Ho | apply Hsame; exact Ho]).
  destruct (Z.gtb_spec (len s) mx).
  - rewrite to_size_t_nonneg by lia. unfold substr.
    destruct (Z.ltb_spec (len s) (len s - mx)); [lia|].
    intros [= <-]. apply Hgoal. unfold len in *. rewrite length_skipn. lia.
  - destruct (Z.ltb_spec (len s) mn).
    + destruct la; intros [= <-]; apply Hgoal; unfold len, fill in *;
        rewrite length_app, repeat_length; lia.
    + intros [= <-]. apply Hgoal. lia.
Qed.

Lemma format_field_width_bounds_witness :
  (2 <= len (text " a") <= 3)
  /\ format_field {| minLen := 2; maxLen := 3; leftAlign := false |} (text " a")
     = Ok (text " a").
Proof.
  apply (format_field_width_bounds
           {| minLen := 2; maxLen := 3; leftAlign := false |}
           (text "a") (text " a")).
  - discriminate.
  - discriminate.
  - reflexivity.
Defined.

(** ** The date converter, when the formatter produces a text *)

(** [DatePatternConverter::convert], for a time stamp that can be broken
    down, returns the formatter's text exactly when that text has between 1
    and [BUFFER_SIZE - 1] characters.  A longer text does not fit the buffer,
    and an empty one makes [strftime] return 0 just as a failure does: both
    give "INVALID DATE PATTERN". *)
Theorem date_convert_returns_fitting_text (P : Platform) (format : cstring)
    (use_gmtime : bool) (event : InternalLoggingEvent) (t : tm P)
    (r : cstring) :
  broken_down_time P use_gmtime event = Some t ->
  calendar_text P format t = Some r ->
  DatePatternConverter_convert P format use_gmtime event
  = Ok (if (0 <? len r) && (len r <? BUFFER_SIZE) then r
        else text "INVALID DATE PATTERN").
Proof.
  unfold broken_down_time. intros Ht Hr.
  unfold DatePatternConverter_convert, strftime. rewrite Ht, Hr.
  unfold BUFFER_SIZE. pose proof (len_nonneg r) as Hn.
  destruct (Z.leb_spec (len r + 1) 30).
  - destruct (Z.gtb_spec (len r) 0).
    + destruct (Z.ltb_spec 0 (len r)); [|lia].
      destruct (Z.ltb_spec (len r) 30); [|lia]. cbn [andb].
      f_equal. apply firstn_all2. unfold len. lia.
    + destruct (Z.ltb_spec 0 (len r)); [lia|]. reflexivity.
  - cbn. destruct (Z.ltb_spec (len r) 30); [lia|].
    rewrite andb_false_r. reflexivity.
Qed.

Lemma date_convert_returns_fitting_text_witness :
  DatePatternConverter_convert reference_platform
    (text "%Y-%m-%d %H:%M:%S") true (event_at 1000000000)
    = Ok (text "2001-09-09 01:46:40")
  /\ DatePatternConverter_convert reference_platform
       (text "%Y-%m-%d %H:%M:%S %Y-%m-%d") false (event_at 1000000000)
     = Ok (text "INVALID DATE PATTERN")
  /\ DatePatternConverter_convert reference_platform [] true
       (event_at 1000000000)
     = Ok (text "INVALID DATE PATTERN").
Proof.
  split; [|split].
  - apply (date_convert_returns_fitting_text reference_platform
             (text "%Y-%m-%d %H:%M:%S") true (event_at 1000000000)
             (civil_from_seconds 1000000000) (text "2001-09-09 01:46:40"));
      vm_compute; reflexivity.
  - apply (date_convert_returns_fitting_text reference_platform
             (text "%Y-%m-%d %H:%M:%S %Y-%m-%d") false (event_at 1000000000)
             (civil_from_seconds 1000000000)
             (text "2001-09-09 01:46:40 2001-09-09"));
      vm_compute; reflexivity.
  - apply (date_convert_returns_fitting_text reference_platform
             [] true (event_at 1000000000)
             (civil_from_seconds 1000000000) []);
      vm_compute; reflexivity.
Defined.

(** ** The logger name, whatever the precision *)

Lemma rfind_upto_found (c : ascii) (s : cstring) (n k : nat) :
  rfind_upto c s n = Some k -> (k < n)%nat /\ nth_error s k = Some c.
Proof.
  induction n as [|n IH]; cbn [rfind_upto]; [discriminate|].
  destruct (nth_error s n) as [x|] eqn:Hx.
  - destruct (Ascii.eqb_spec x c) as [->|Hne].
    + intros [= <-]. split; [lia | exact Hx].
    + intros Hk. destruct (IH Hk). split; [lia | assumption].
  - intros Hk. destruct (IH Hk). split; [lia | assumption].
Qed.

Lemma rfind_found (s : cstring) (c : ascii) (pos : Z) (k : nat) :
  rfind s c pos = Some k -> nth_error s k = Some c.
Proof.
  unfold rfind. destruct (length s); [discriminate|].
  intros Hk. apply rfind_upto_found in Hk. apply Hk.
Qed.

Lemma logger_walk_lands_on_dot (name : cstring) (i : nat) (e k : Z) :
  (1 <= i)%nat ->
  logger_walk name i e = Some k ->
  0 <= k /\ nth_error name (Z.to_nat k) = Some "."%char.
Proof.
  revert e. induction i as [|i IH]; intros e Hi; [lia|].
  cbn [logger_walk].
  destruct (rfind name "." (to_size_t (e - 1))) as [j|] eqn:Hj;
    cbn [index_to_int]; unfold is_npos.
  - destruct (Z.eqb_spec (Z.of_nat j) (-1)); [lia|].
    destruct i as [|i].
    + cbn [logger_walk]. intros [= <-]. split; [lia|].
      rewrite Nat2Z.id. exact (rfind_found _ _ _ _ Hj).
    + apply IH. lia.
  - cbn. discriminate.
Qed.

(** [LoggerPatternConverter::convert] never throws, and what it extracts is
    the whole logger name or the text that follows one of its dots. *)
Theorem logger_convert_extracts_suffix (precision : Z)
    (event : InternalLoggingEvent) :
  exists suf,
    LoggerPatternConverter_convert precision event = Ok suf
    /\ (suf = loggerName event
        \/ exists pre, loggerName event = pre ++ "."%char :: suf).
Proof.
  unfold LoggerPatternConverter_convert.
  generalize (loggerName event). intros name.
  destruct (precision <=? 0) eqn:Hp; [eauto|].
  apply Z.leb_gt in Hp.
  destruct (logger_walk name (Z.to_nat precision) (len name - 1))
    as [k|] eqn:Hk; [|eauto].
  apply logger_walk_lands_on_dot in Hk; [|lia]. destruct Hk as [Hk0 Hdot].
  assert (Hlt : (Z.to_nat k < length name)%nat).
  { apply nth_error_Some. congruence. }
  rewrite to_size_t_nonneg by lia. unfold substr, len.
  destruct (Z.ltb_spec (Z.of_nat (length name)) (k + 1)); [lia|].
  eexists. split; [reflexivity|]. right.
  exists (firstn (Z.to_nat k) name).
  replace (Z.to_nat (k + 1)) with (S (Z.to_nat k)) by lia.
  rewrite <- (skipn_cons_nth _ _ _ Hdot). symmetry. apply firstn_skipn.
Qed.

(** ** Rendering a list of converters *)

Lemma format_all_app_bind (P : Platform)
    (l1 l2 : list (option PatternConverter)) (event : InternalLoggingEvent) :
  format_all P (l1 ++ l2) event
  = (let* a := format_all P l1 event in
     let* b := format_all P l2 event in
     Ok (a ++ b)).
Proof.
  induction l1 as [|[pc|] l1 IH]; cbn [app format_all bind].
  - destruct (format_all P l2 event); reflexivity.
  - destruct (PatternConverter_formatAndAppend P pc event); cbn [bind];
      [|reflexivity].
    rewrite IH. destruct (format_all P l1 event); cbn [bind]; [|reflexivity].
    destruct (format_all P l2 event); cbn [bind]; [|reflexivity].
    rewrite app_assoc. reflexivity.
  - reflexivity.
Qed.

(** [PatternLayout::formatAndAppend] returns a text exactly when every
    converter of the list is there and renders, and the text is then the
    outputs of the converters one after the other, in the order of the
    list. *)
Theorem render_concatenates (P : Platform)
    (l : list (option PatternConverter)) (event : InternalLoggingEvent)
    (out : cstring) :
  format_all P l event = Ok out
  <-> exists outs,
        Forall2 (fun c o => exists pc, c = Some pc
                   /\ PatternConverter_formatAndAppend P pc event = Ok o)
                l outs
        /\ out = concat outs.
Proof.
  revert out. induction l as [|[pc|] l IH]; intros out; cbn [format_all].
  - split.
    + intros [= <-]. exists []. split; [constructor | reflexivity].
    + intros (outs & Hall & ->). inversion Hall. reflexivity.
  - split.
    + destruct (PatternConverter_formatAndAppend P pc event) as [o|] eqn:Ho;
        cbn [bind]; [|discriminate].
      destruct (format_all P l event) as [r|] eqn:Hr; cbn [bind];
        [|discriminate].
      intros [= <-]. destruct (proj1 (IH r) eq_refl) as (outs & Hall & ->).
      exists (o :: outs). split; [|reflexivity].
      constructor; [eauto | exact Hall].
    + intros (outs & Hall & ->). inversion Hall as [|c o l' outs' Hc Hl];
        subst. destruct Hc as (pc' & [= <-] & Ho). rewrite Ho. cbn [bind].
      rewrite (proj2 (IH (concat outs')));
        [reflexivity | exists outs'; split; [exact Hl | reflexivity]].
  - split; [discriminate|].
    intros (outs & Hall & _). inversion Hall as [|c o l' outs' Hc Hl]; subst.
    destruct Hc as (pc' & Hpc & _). discriminate.
Qed.

(** ** Options in braces *)

Lemma find_from_first (c : ascii) (r rest : cstring) (i : nat) :
  ~ In c r ->
  find_from c (r ++ c :: rest) i = Some (i + length r)%nat.
Proof.
  revert i. induction r as [|x r IH]; intros i Hr; cbn [app find_from length].
  - rewrite Ascii.eqb_refl. f_equal. lia.
  - destruct (Ascii.eqb_spec x c) as [->|Hne].
    + exfalso. apply Hr. left. reflexivity.
    + rewrite IH; [f_equal; lia|]. intros Hin. apply Hr. right. exact Hin.
Qed.

Lemma find_from_none (c : ascii) (s : cstring) (i : nat) :
  ~ In c s -> find_from c s i = None.
Proof.
  revert i. induction s as [|x s IH]; intros i Hs; cbn [find_from];
    [reflexivity|].
  destruct (Ascii.eqb_spec x c) as [->|Hne].
  - exfalso. apply Hs. left. reflexivity.
  - apply IH. intros Hin. apply Hs. right. exact Hin.
Qed.

Lemma at_app_cons (a b : cstring) (c : ascii) :
  at_ (a ++ c :: b) (len a) = Ok c.
Proof.
  unfold at_, len. rewrite length_app. cbn [length].
  destruct (Z.ltb_spec (Z.of_nat (length a)) 0); [lia|].
  destruct (Z.leb_spec (Z.of_nat (length a + S (length b)))
              (Z.of_nat (length a))); [lia|].
  cbn [orb]. rewrite Nat2Z.id, nth_error_app2, Nat.sub_diag by lia.
  reflexivity.
Qed.

(** [PatternParser::extractOption], with the pattern read up to [before].
    A brace block [{opt}] at the position is consumed whole and [opt] is
    returned, up to the first closing brace; nothing else of the parser
    changes.  Without an opening brace at the position, or without any
    closing brace after it, the option is empty and the parser stays where
    it is. *)
Theorem extractOption_reads_brace_block (p : PatternParser)
    (before opt rest : cstring) :
  pos p = len before ->
  (pattern p = before ++ "{"%char :: opt ++ "}"%char :: rest ->
   ~ In "}"%char opt ->
   PatternParser_extractOption p
   = Ok (opt, set_pos p (len before + len opt + 2)))
  /\ (pattern p = before ++ rest ->
      (forall rest', rest = "{"%char :: rest' -> ~ In "}"%char rest') ->
      PatternParser_extractOption p = Ok ([], p)).
Proof.
  intros Hpos. unfold PatternParser_extractOption. rewrite Hpos.
  pose proof (len_nonneg before) as Hb.
  rewrite (to_size_t_nonneg (len before)) by lia. split.
  - intros Hpat Hopt. rewrite Hpat, at_app_cons.
    unfold len at 2. rewrite !length_app. cbn [length]. rewrite length_app.
    cbn [length].
    destruct (Z.ltb_spec (len before)
                (Z.of_nat (length before + S (length opt + S (length rest)))));
      [|unfold len in *; lia].
    cbn [bind]. rewrite Ascii.eqb_refl.
    unfold find_first_of, len. rewrite !length_app. cbn [length].
    rewrite length_app. cbn [length].
    destruct (Z.leb_spec
                (Z.of_nat (length before + S (length opt + S (length rest))))
                (Z.of_nat (length before))); [lia|].
    rewrite Nat2Z.id, skipn_app, skipn_all, Nat.sub_diag. cbn [app skipn].
    assert (Hnb : "{"%char <> "}"%char) by discriminate.
    apply Ascii.eqb_neq in Hnb. cbn [find_from]. rewrite Hnb.
    rewrite find_from_first by exact Hopt. cbn [index_to_int].
    destruct (Z.gtb_spec (Z.of_nat (S (length before) + length opt))
                (Z.of_nat (length before))); [|lia].
    rewrite !to_size_t_nonneg by lia. unfold substr_n, len.
    rewrite !length_app. cbn [length]. rewrite length_app. cbn [length].
    destruct (Z.ltb_spec
                (Z.of_nat (length before + S (length opt + S (length rest))))
                (Z.of_nat (length before) + 1)); [lia|].
    cbn [bind].
    replace (Z.to_nat (Z.of_nat (length before) + 1))
      with (length before + 1)%nat by lia.
    replace (Z.to_nat (Z.of_nat (S (length before) + length opt)
                       - Z.of_nat (length before) - 1))
      with (length opt) by lia.
    rewrite skipn_app, skipn_all2 by lia.
    replace (length before + 1 - length before)%nat with 1%nat by lia.
    cbn [app skipn]. rewrite skipn_O, firstn_app, firstn_all, Nat.sub_diag.
    cbn [firstn]. rewrite app_nil_r.
    f_equal. f_equal. f_equal. lia.
  - intros Hpat Hrest. rewrite Hpat.
    unfold len at 2. rewrite length_app.
    destruct (Z.ltb_spec (len before)
                (Z.of_nat (length before + length rest))); [|reflexivity].
    destruct rest as [|c rest']; [cbn in *; unfold len in *; lia|].
    rewrite at_app_cons. cbn [bind].
    destruct (Ascii.eqb_spec c "{") as [->|Hne]; [|reflexivity].
    unfold find_first_of.
    destruct (_ <=? _); cbn [index_to_int].
    + destruct (Z.gtb_spec (-1) (len before)); [lia | reflexivity].
    + unfold len. rewrite Nat2Z.id, skipn_app, skipn_all, Nat.sub_diag.
      cbn [app skipn]. rewrite find_from_none.
      * cbn [index_to_int].
        destruct (Z.gtb_spec (-1) (Z.of_nat (length before)));
          [lia | reflexivity].
      * intros [Hin|Hin]; [discriminate|].
        exact (Hrest rest' eq_refl Hin).
Qed.

Lemma extractOption_reads_brace_block_witness :
  PatternParser_extractOption (set_pos (PatternParser_new (text "%d{%H}x")) 2)
    = Ok (text "%H", set_pos (PatternParser_new (text "%d{%H}x")) 6)
  /\ PatternParser_extractOption (set_pos (PatternParser_new (text "%c{2")) 2)
    = Ok ([], set_pos (PatternParser_new (text "%c{2")) 2).
Proof.
  split.
  - apply (proj1 (extractOption_reads_brace_block
                    (set_pos (PatternParser_new (text "%d{%H}x")) 2)
                    (text "%d") (text "%H") (text "x") eq_refl)).
    + reflexivity.
    + intros H. cbn in H. repeat (destruct H as [H|H]; [discriminate|]).
      exact H.
  - apply (proj2 (extractOption_reads_brace_block
                    (set_pos (PatternParser_new (text "%c{2")) 2)
                    (text "%c") [] (text "{2") eq_refl)).
    + reflexivity.
    + intros rest' [= <-] H. cbn in H.
      repeat (destruct H as [H|H]; [discriminate|]). exact H.
Defined.

(** ** What the parser builds *)

(** [PatternParser::parse] throws on no pattern: every [at] and [substr] it
    calls stays inside the pattern.  No slot of the list it returns is null,
    so the repair loop of [PatternLayout::init] changes nothing and writes
    nothing: the layout holds the parser's list as it is, or the message
    converter alone, with the warning, when that list is empty. *)
Theorem parse_never_throws (P : Platform) (pat : cstring) :
  exists parsed g0 layout,
    PatternParser_parse P (PatternParser_new pat) = Ok (parsed, g0)
    /\ no_null parsed
    /\ PatternLayout_new P pat
       = Ok (layout,
             g0 ++ (if len_nat_zero parsed then [empty_warning] else []))
    /\ parsedPattern layout
       = (if len_nat_zero parsed then [Some (default_message_converter P)]
          else parsed).
Proof.
  destruct (init_keeps_parsed_list P pat)
    as (parsed & g0 & layout & H1 & H2 & H3 & _ & H4).
  exists parsed, g0, layout. auto.
Qed.

Lemma extractOption_moves_only (p : PatternParser) (r : cstring)
    (q : PatternParser) :
  PatternParser_extractOption p = Ok (r, q) -> exists n, q = set_pos p n.
Proof.
  unfold PatternParser_extractOption.
  assert (Hsame : p = set_pos p (pos p)) by (destruct p; reflexivity).
  destruct (_ <? _); [|intros [= <- <-]; eauto].
  destruct (at_ _ _) as [c|]; cbn [bind]; [|discriminate].
  destruct (Ascii.eqb c "{"); [|intros [= <- <-]; eauto].
  destruct (_ >? _); [|intros [= <- <-]; eauto].
  destruct (substr_n _ _ _); cbn [bind]; [|discriminate].
  intros [= <- <-]. eauto.
Qed.

(** The converter [finalizeConverter] appends carries the parser's
    formatting information, or the default one when it is a literal. *)
Lemma finalizeConverter_builds (P : Platform) (c : ascii)
    (p p' : PatternParser) :
  PatternParser_finalizeConverter P c p = Ok p' ->
  exists pc,
    list_ p' = list_ p ++ [Some pc]
    /\ (info_of pc = formattingInfo p \/ info_of pc = FormattingInfo_reset)
    /\ match pc with
       | Basic _ cpm _ => cpm = Z.quot (CLOCKS_PER_SEC P) MILLIS_PER_SEC
       | _ => True
       end
    /\ formattingInfo p' = FormattingInfo_reset
    /\ state p' = LITERAL_STATE.
Proof.
  unfold PatternParser_finalizeConverter,
    PatternParser_extractPrecisionOption.
  destruct (Ascii.eqb c "c").
  { destruct (PatternParser_extractOption p) as [[r q]|] eqn:E; cbn [bind];
      [|discriminate].
    destruct (extractOption_moves_only _ _ _ E) as [n ->].
    intros [= <-]. eexists. fields. split_and!; try done. left. reflexivity. }
  destruct (Ascii.eqb c "d" || Ascii.eqb c "D").
  { destruct (PatternParser_extractOption p) as [[r q]|] eqn:E; cbn [bind];
      [|discriminate].
    destruct (extractOption_moves_only _ _ _ E) as [n ->].
    intros [= <-]. eexists. fields. split_and!; try done. left. reflexivity. }
  repeat match goal with
  | |- context [if Ascii.eqb c ?x then _ else _] =>
      destruct (Ascii.eqb c x);
      [ cbn [bind BasicPatternConverter]; intros [= <-]; eexists; fields;
        split_and!; try done; left; reflexivity | ]
  end.
  cbn [bind]. intros [= <-]. eexists. fields. split_and!; try done.
  right. reflexivity.
Qed.

(** ** Frames *)

Lemma rebase_strip (p : PatternParser) :
  rebase (list_ p) (loglog p) (strip p) = p.
Proof. destruct p. unfold rebase, strip. cbn. rewrite !app_nil_r. reflexivity. Qed.

Lemma rebase_set_pos (p : PatternParser) (n : Z) :
  rebase (list_ p) (loglog p) (set_pos (strip p) n) = set_pos p n.
Proof. destruct p. unfold rebase, strip. cbn. rewrite !app_nil_r. reflexivity. Qed.

(** What a run adds to the converter list and to the diagnostics does not
    depend on what they held before. *)
Lemma extractOption_frame (p : PatternParser) :
  PatternParser_extractOption p
  = (let* (r, q) := PatternParser_extractOption (strip p) in
     Ok (r, rebase (list_ p) (loglog p) q)).
Proof.
  unfold PatternParser_extractOption.
  change (pos (strip p)) with (pos p).
  change (pattern (strip p)) with (pattern p).
  destruct (_ <? _); cbn [bind]; [|rewrite rebase_strip; reflexivity].
  destruct (at_ _ _) as [c|e]; cbn [bind]; [|reflexivity].
  destruct (Ascii.eqb c "{"); cbn [bind]; [|rewrite rebase_strip; reflexivity].
  destruct (_ >? _); cbn [bind]; [|rewrite rebase_strip; reflexivity].
  destruct (substr_n _ _ _); cbn [bind]; [|reflexivity].
  rewrite rebase_set_pos. reflexivity.
Qed.

Ltac frame_done :=
  unfold rebase, strip; cbn [bind]; fields; cbn [app];
  rewrite <- ?app_assoc, ?app_nil_r; cbn [app]; reflexivity.

Lemma finalizeConverter_frame (P : Platform) (c : ascii) (p : PatternParser) :
  PatternParser_finalizeConverter P c p
  = (let* q := PatternParser_finalizeConverter P c (strip p) in
     Ok (rebase (list_ p) (loglog p) q)).
Proof.
  unfold PatternParser_finalizeConverter, PatternParser_extractPrecisionOption.
  rewrite (extractOption_frame p).
  change (formattingInfo (strip p)) with (formattingInfo p).
  change (currentLiteral (strip p)) with (currentLiteral p).
  change (pos (strip p)) with (pos p).
  destruct (Ascii.eqb c "c").
  { destruct (PatternParser_extractOption (strip p)) as [[r q]|e];
      cbn [bind]; [|reflexivity].
    destruct q. frame_done. }
  destruct (Ascii.eqb c "d" || Ascii.eqb c "D").
  { destruct (PatternParser_extractOption (strip p)) as [[r q]|e];
      cbn [bind]; [|reflexivity].
    destruct q. frame_done. }
  repeat match goal with
  | |- context [if Ascii.eqb c ?x then _ else _] =>
      destruct (Ascii.eqb c x);
      [ destruct p; cbn [bind BasicPatternConverter]; frame_done | ]
  end.
  destruct p; cbn [bind]; frame_done.
Qed.

Lemma parse_body_frame (P : Platform) (p : PatternParser) :
  parse_body P p
  = (let* q := parse_body P (strip p) in Ok (rebase (list_ p) (loglog p) q)).
Proof.
  unfold parse_body.
  change (pos (strip p)) with (pos p).
  change (pattern (strip p)) with (pattern p).
  destruct (at_ (pattern p) (pos p)) as [c|e]; cbn [bind]; [|reflexivity].
  assert (Hfin : forall q,
            PatternParser_finalizeConverter P c q
            = (let* q' := PatternParser_finalizeConverter P c (strip q) in
               Ok (rebase (list_ q) (loglog q) q')))
    by (intros; apply finalizeConverter_frame).
  destruct p as [pat fi l st ps cur lg]. unfold strip. fields.
  destruct st; cbv zeta; fields.
  - destruct (_ =? _); [frame_done|].
    destruct (Ascii.eqb c ESCAPE_CHAR); [|frame_done].
    destruct (at_ pat (ps + 1)) as [d|e]; cbn [bind]; [|reflexivity].
    destruct (Ascii.eqb d ESCAPE_CHAR); [frame_done|].
    destruct (Ascii.eqb d "n"); [frame_done|].
    destruct (negb (len cur =? 0)); frame_done.
  - destruct (Ascii.eqb c "-"); [frame_done|].
    destruct (Ascii.eqb c "."); [frame_done|].
    destruct (is_digit c); [frame_done|].
    rewrite Hfin. reflexivity.
  - frame_done.
  - destruct (is_digit c); frame_done.
  - destruct (is_digit c); [frame_done|].
    destruct (Ascii.eqb c "."); [frame_done|].
    rewrite Hfin. reflexivity.
  - destruct (is_digit c); [frame_done|].
    rewrite Hfin. unfold strip. fields.
    destruct (PatternParser_finalizeConverter P c _) as [q|e]; cbn [bind];
      [|reflexivity].
    destruct q. frame_done.
Qed.


(** ** Runs of the loop *)

Lemma parse_loop_at_end (P : Platform) (n : nat) (p : PatternParser) :
  (to_size_t (pos p) <? len (pattern p)) = false -> parse_loop P n p = Ok p.
Proof. intros H. destruct n; cbn [parse_loop]; rewrite H; reflexivity. Qed.

Lemma parse_loop_add (P : Platform) (a b : nat) (p : PatternParser) :
  parse_loop P (a + b) p
  = (let* q := parse_loop P a p in parse_loop P b q).
Proof.
  revert p. induction a as [|a IH]; intros p.
  - cbn [Nat.add parse_loop].
    destruct (_ <? _); reflexivity.
  - cbn [Nat.add parse_loop].
    destruct (_ <? _) eqn:E.
    + destruct (parse_body P p) as [q|]; cbn [bind]; [apply IH | reflexivity].
    + cbn [bind]. symmetry. apply parse_loop_at_end. exact E.
Qed.

Lemma runs_refl (P : Platform) (p : PatternParser) : runs P p p.
Proof. exists 0%nat. cbn. destruct (_ <? _); reflexivity. Qed.

Lemma runs_trans (P : Platform) (p q r : PatternParser) :
  runs P p q -> runs P q r -> runs P p r.
Proof.
  intros [a Ha] [b Hb]. exists (a + b)%nat.
  rewrite parse_loop_add, Ha. exact Hb.
Qed.

Lemma runs_step (P : Platform) (p q : PatternParser) :
  0 <= pos p < len (pattern p) ->
  parse_body P p = Ok q -> runs P p q.
Proof.
  intros Hp Hb. exists 1%nat. cbn [parse_loop].
  rewrite to_size_t_nonneg by lia.
  destruct (Z.ltb_spec (pos p) (len (pattern p))); [|lia].
  rewrite Hb. cbn [bind]. destruct (_ <? _); reflexivity.
Qed.

(** A run that has reached the end of the pattern is the run of [parse]. *)
Lemma runs_complete (P : Platform) (p q : PatternParser) :
  runs P p q ->
  pos q = len (pattern q) ->
  0 <= pos p <= len (pattern p) ->
  len (currentLiteral p) <= pos p ->
  parse_loop P (length (pattern p)) p = Ok q.
Proof.
  intros [n Hn] Hq Hp Hcur.
  destruct (parse_loop_ok P (length (pattern p)) p Hp Hcur)
    as (r & Hr & Hpat & Hend & _); [unfold len; lia|].
  rewrite Hr. f_equal.
  assert (Hq' : (to_size_t (pos q) <? len (pattern q)) = false).
  { rewrite Hq. pose proof (len_nonneg (pattern q)).
    rewrite to_size_t_nonneg by lia. apply Z.ltb_irrefl. }
  assert (Hr' : (to_size_t (pos r) <? len (pattern r)) = false).
  { rewrite Hend, Hpat. pose proof (len_nonneg (pattern p)).
    rewrite to_size_t_nonneg by lia. apply Z.ltb_irrefl. }
  pose proof (parse_loop_add P n (length (pattern p)) p) as H1.
  rewrite Hn in H1. cbn [bind] in H1.
  rewrite (parse_loop_at_end P _ q Hq') in H1.
  pose proof (parse_loop_add P (length (pattern p)) n p) as H2.
  rewrite Hr in H2. cbn [bind] in H2.
  rewrite (parse_loop_at_end P _ r Hr') in H2.
  rewrite Nat.add_comm in H2. congruence.
Qed.

(** What is read next. *)
Lemma skipn_cons_inv (s : cstring) (n : nat) (c : ascii) (t : cstring) :
  skipn n s = c :: t ->
  nth_error s n = Some c /\ skipn (S n) s = t
  /\ length s = (n + S (length t))%nat.
Proof.
  revert n. induction s as [|x s IH]; intros [|n]; cbn; try discriminate.
  - intros [= -> ->]. auto.
  - intros H. destruct (IH _ H) as (H1 & H2 & H3). auto.
Qed.

Lemma unread_cons (p : PatternParser) (c : ascii) (t : cstring) :
  0 <= pos p ->
  unread p = c :: t ->
  at_ (pattern p) (pos p) = Ok c
  /\ skipn (Z.to_nat (pos p + 1)) (pattern p) = t
  /\ len (pattern p) = pos p + 1 + len t.
Proof.
  unfold unread. intros Hp H.
  destruct (skipn_cons_inv _ _ _ _ H) as (H1 & H2 & H3).
  replace (Z.to_nat (pos p + 1)) with (S (Z.to_nat (pos p))) by lia.
  split_and!; [|exact H2|unfold len; lia].
  unfold at_, len. destruct (Z.ltb_spec (pos p) 0); [lia|].
  destruct (Z.leb_spec (Z.of_nat (length (pattern p))) (pos p)); [lia|].
  cbn [orb]. rewrite H1. reflexivity.
Qed.


(** ** Escapes in literal state *)

Lemma runs_bounds (P : Platform) (p0 p : PatternParser) :
  runs P p0 p ->
  0 <= pos p0 <= len (pattern p0) ->
  len (currentLiteral p0) <= pos p0 ->
  pattern p = pattern p0
  /\ 0 <= pos p <= len (pattern p)
  /\ len (currentLiteral p) <= pos p.
Proof.
  intros [n Hn]. revert p0 Hn.
  induction n as [|n IH]; intros p0 Hn Hp Hcur; cbn [parse_loop] in Hn.
  - destruct (_ <? _); injection Hn as <-; auto.
  - rewrite to_size_t_nonneg in Hn by lia.
    destruct (Z.ltb_spec (pos p0) (len (pattern p0))) as [Hlt|Hge].
    2:{ injection Hn as <-. auto. }
    destruct (parse_body_ok P p0) as (q & E & H1 & H2 & H3 & _);
      [lia | exact Hcur |].
    rewrite E in Hn. cbn [bind] in Hn.
    destruct (IH q Hn) as (A & B & C); [rewrite H1; lia | exact H3 |].
    rewrite A, H1 in *. auto.
Qed.

Lemma list_parse_flush (p : PatternParser) :
  list_ (parse_flush p) = list_ p ++ literal_if_any (currentLiteral p).
Proof.
  unfold parse_flush, literal_if_any.
  destruct (negb _); fields; [reflexivity | rewrite app_nil_r; reflexivity].
Qed.

Lemma format_all_literal_if_any (P : Platform) (s : cstring)
    (event : InternalLoggingEvent) :
  len s <= INT_MAX ->
  format_all P (literal_if_any s) event = Ok s.
Proof.
  intros H. unfold literal_if_any.
  destruct s as [|c s]; [reflexivity|].
  destruct (Z.eqb_spec (len (c :: s)) 0) as [E|_];
    [unfold len in E; cbn [length] in E; lia|].
  cbn [negb format_all]. rewrite literal_renders_itself by exact H.
  cbn [bind]. rewrite app_nil_r. reflexivity.
Qed.

Lemma same_rest_step (P : Platform) (L : list (option PatternConverter))
    (c : cstring) (p r p' r' : PatternParser) :
  c <> [] ->
  same_rest L c p r ->
  0 <= pos p < len (pattern p) ->
  len (currentLiteral p) <= pos p ->
  parse_body P p = Ok p' -> parse_body P r = Ok r' ->
  same_rest L c p' r'.
Proof.
  intros Hne (E1 & E2 & E3 & E4 & HR) Hp Hcur Hb Hb'.
  destruct HR as [(Hst & Hl & Hl' & Hc) | (Hc & x & T & Hx & Hl & Hl')].
  - destruct p as [pat fi l st ps cur lg].
    destruct r as [pat' fi' l' st' ps' cur' lg'].
    cbn [pattern formattingInfo state pos list_ currentLiteral] in *.
    subst pat' fi' st' ps' st l l' cur.
    unfold parse_body in Hb, Hb'. fields.
    destruct (at_ pat ps) as [ch|]; cbn [bind] in Hb, Hb'; [|discriminate].
    cbv zeta in Hb, Hb'. fields.
    assert (Hlit : forall a,
              same_rest L c
                {| pattern := pat; formattingInfo := fi; list_ := L;
                   state := LITERAL_STATE; pos := a;
                   currentLiteral := (c ++ cur') ++ [ch]; loglog := lg |}
                {| pattern := pat; formattingInfo := fi; list_ := [];
                   state := LITERAL_STATE; pos := a;
                   currentLiteral := cur' ++ [ch]; loglog := lg' |}).
    { intros a. unfold same_rest. fields. split_and!; try reflexivity.
      left. split_and!; try reflexivity. rewrite app_assoc. reflexivity. }
    destruct (_ =? _).
    { injection Hb as <-. injection Hb' as <-. apply Hlit. }
    destruct (Ascii.eqb ch ESCAPE_CHAR) eqn:Ech.
    2:{ injection Hb as <-. injection Hb' as <-. apply Hlit. }
    destruct (at_ pat (ps + 1)) as [d|]; cbn [bind] in Hb, Hb'; [|discriminate].
    destruct (Ascii.eqb d ESCAPE_CHAR).
    { injection Hb as <-. injection Hb' as <-. apply Hlit. }
    destruct (Ascii.eqb d "n").
    { injection Hb as <-. injection Hb' as <-.
      unfold same_rest. fields. split_and!; try reflexivity.
      left. split_and!; try reflexivity. rewrite app_assoc. reflexivity. }
    destruct (Z.eqb_spec (len (c ++ cur')) 0) as [E|_].
    { destruct c; [congruence|]. unfold len in E. cbn [app length] in E. lia. }
    cbn [negb] in Hb. fields.
    injection Hb as <-. injection Hb' as <-.
    unfold same_rest.
    destruct (negb (len cur' =? 0)) eqn:Ecur; fields;
      (split_and!; try reflexivity; right; split; [reflexivity|];
       exists cur', []; unfold literal_if_any; rewrite Ecur;
       split_and!; try reflexivity; lia).
  - rewrite parse_body_frame in Hb, Hb'.
    assert (Hs : strip p = strip r).
    { unfold strip. rewrite E1, E2, E3, E4, Hc. reflexivity. }
    rewrite Hs in Hb.
    destruct (parse_body_ok P p Hp Hcur) as (q0 & Hq0 & Hpat & _).
    rewrite parse_body_frame, Hs in Hq0.
    destruct (parse_body P (strip r)) as [q|]; cbn [bind] in Hb, Hb', Hq0;
      [|discriminate].
    injection Hq0 as <-. cbn [rebase pattern] in Hpat.
    injection Hb as <-. injection Hb' as <-.
    unfold same_rest, rebase. fields. split_and!; try reflexivity.
    right. split; [reflexivity|].
    exists x, (T ++ list_ q). rewrite Hl, Hl', <- !app_assoc.
    split_and!; try reflexivity. rewrite Hpat. exact Hx.
Qed.

Lemma same_rest_loop (P : Platform) (L : list (option PatternConverter))
    (c : cstring) (n : nat) (p r p' r' : PatternParser) :
  c <> [] ->
  same_rest L c p r ->
  0 <= pos p <= len (pattern p) ->
  len (currentLiteral p) <= pos p ->
  parse_loop P n p = Ok p' -> parse_loop P n r = Ok r' ->
  same_rest L c p' r'.
Proof.
  intros Hne. revert p r.
  induction n as [|n IH]; intros p r HR Hp Hcur Hl Hl'; cbn [parse_loop] in *.
  - destruct HR as (E1 & E2 & E3 & E4 & HR).
    rewrite <- E1, <- E4 in Hl'.
    destruct (_ <? _); injection Hl as <-; injection Hl' as <-;
      repeat split; assumption.
  - pose proof HR as (E1 & _ & _ & E4 & _).
    rewrite <- E1, <- E4 in Hl'.
    rewrite to_size_t_nonneg in Hl, Hl' by lia.
    destruct (Z.ltb_spec (pos p) (len (pattern p))) as [Hlt|Hge].
    2:{ injection Hl as <-. injection Hl' as <-. exact HR. }
    destruct (parse_body_ok P p) as (q & Hq & H1 & H2 & H3 & _);
      [lia | exact Hcur |].
    rewrite Hq in Hl. cbn [bind] in Hl.
    destruct (parse_body P r) as [q'|] eqn:Hq'; cbn [bind] in Hl';
      [|discriminate].
    apply (IH q q'); try assumption.
    + apply (same_rest_step P L c p r); try assumption. lia.
    + rewrite H1. lia.
Qed.

(** The render of what both parsers end with. *)
Lemma same_rest_render (P : Platform) (L : list (option PatternConverter))
    (c : cstring) (p r : PatternParser) (event : InternalLoggingEvent) :
  c <> [] ->
  same_rest L c p r ->
  len (pattern p) <= INT_MAX ->
  len (currentLiteral p) <= len (pattern p) ->
  format_all P (list_ (parse_flush p)) event
  = (let* a := format_all P L event in
     let* b := format_all P (list_ (parse_flush r)) event in
     Ok (a ++ c ++ b)).
Proof.
  intros Hne (E1 & E2 & E3 & E4 & HR) Hpat Hcur.
  rewrite !list_parse_flush.
  destruct HR as [(Hst & Hl & Hl' & Hc) | (Hc & x & T & Hx & Hl & Hl')].
  - rewrite Hl, Hl', Hc. cbn [app].
    rewrite format_all_app_bind.
    assert (Hlen : len (currentLiteral r) <= INT_MAX).
    { rewrite Hc in Hcur. unfold len in *. rewrite length_app in Hcur. lia. }
    rewrite !format_all_literal_if_any by (rewrite <- ?Hc; lia).
    destruct (format_all P L event); reflexivity.
  - rewrite Hl, Hl', Hc.
    assert (Hlen : len x <= INT_MAX).
    { unfold len in *. rewrite length_app in Hx. lia. }
    rewrite <- !app_assoc. rewrite format_all_app_bind.
    rewrite (format_all_app_bind P (literal_if_any x)).
    rewrite format_all_literal_if_any by exact Hlen.
    cbn [app format_all bind].
    rewrite literal_renders_itself by lia.
    cbn [bind].
    destruct (format_all P L event); cbn [bind]; [|reflexivity].
    destruct (format_all P (T ++ _) event); cbn [bind]; [|reflexivity].
    rewrite <- !app_assoc. reflexivity.
Qed.

Lemma same_rest_not_empty (L : list (option PatternConverter)) (c : cstring)
    (p r : PatternParser) :
  c <> [] ->
  same_rest L c p r ->
  len_nat_zero (list_ (parse_flush p)) = false.
Proof.
  intros Hne (_ & _ & _ & _ & HR). rewrite list_parse_flush.
  unfold len_nat_zero. apply Nat.eqb_neq. rewrite length_app.
  destruct HR as [(_ & _ & _ & Hc) | (_ & x & T & _ & Hl & _)].
  - rewrite Hc. unfold literal_if_any.
    destruct (Z.eqb_spec (len (c ++ currentLiteral r)) 0) as [E|_].
    + destruct c; [congruence|]. unfold len in E. cbn [app length] in E. lia.
    + cbn [negb length]. lia.
  - rewrite Hl, length_app. cbn [length]. lia.
Qed.

(** C4, amended.  Where the parser meets "%%" or "%n" while it reads literal
    text, it adds exactly one '%' or one newline to the pending text, builds
    no converter and leaves the formatting information alone; and the layout
    renders what was compiled before, then the pending text, then that one
    character, then what the rest of the pattern renders on its own. *)
Theorem escape_in_literal_state (P : Platform) (pat : cstring)
    (event : InternalLoggingEvent) (p : PatternParser) (d : ascii)
    (rest : cstring) (tail : list (option PatternConverter)) (a b : cstring) :
  len pat <= INT_MAX ->
  runs P (set_pos (PatternParser_new pat) 0) p ->
  state p = LITERAL_STATE ->
  unread p = ESCAPE_CHAR :: d :: rest ->
  d = ESCAPE_CHAR \/ d = "n"%char ->
  compile_from P (resume_after p (pos p + 2)) = Ok tail ->
  format_all P (list_ p) event = Ok a ->
  format_all P tail event = Ok b ->
  parse_body P p = Ok (set_pos (append_literal p (escaped d)) (pos p + 2))
  /\ exists layout g,
       PatternLayout_new P pat = Ok (layout, g)
       /\ PatternLayout_formatAndAppend P layout event
          = Ok (a ++ currentLiteral p ++ [escaped d] ++ b).
Proof.
  intros Hlen Hruns Hst Hun Hd Htail Ha Hb.
  pose (p0 := set_pos (PatternParser_new pat) 0).
  assert (Hp0 : 0 <= pos p0 <= len (pattern p0)
                /\ len (currentLiteral p0) <= pos p0).
  { cbn. unfold len. cbn [length]. lia. }
  destruct Hp0 as [Hp0 Hc0].
  destruct (runs_bounds P p0 p Hruns Hp0 Hc0) as (Hpat & Hpos & Hcur).
  change (pattern p0) with pat in Hpat.
  destruct (unread_cons p _ _ (proj1 Hpos) Hun) as (Hat & Hrest & Hl1).
  assert (Hat2 : at_ (pattern p) (pos p + 1) = Ok d).
  { destruct (unread_cons (set_pos p (pos p + 1)) d rest) as (A & _).
    - cbn [pos set_pos]. lia.
    - unfold unread. cbn [pos set_pos pattern]. exact Hrest.
    - exact A. }
  assert (Hl2 : pos p + 2 <= len (pattern p)).
  { unfold len in *. cbn [length] in Hl1. lia. }
  pose (p1 := set_pos (append_literal p (escaped d)) (pos p + 2)).
  assert (Hbody : parse_body P p = Ok p1).
  { unfold parse_body. rewrite Hat. cbn [bind]. cbv zeta.
    subst p1. destruct p as [pt fi l st ps cur lg]. fields.
    cbn [pattern pos state] in *. subst st.
    rewrite to_size_t_nonneg by lia.
    destruct (Z.eqb_spec (ps + 1) (len pt)); [lia|].
    rewrite Ascii.eqb_refl, Hat2. cbn [bind]. unfold escaped.
    replace (ps + 1 + 1) with (ps + 2) by lia.
    destruct Hd as [-> | ->]; reflexivity. }
  split; [exact Hbody|].
  (* the run of [parse] passes through [p1] *)
  assert (Hb1 : 0 <= pos p1 <= len (pattern p1)
                /\ len (currentLiteral p1) <= pos p1
                /\ pattern p1 = pat).
  { subst p1. unfold append_literal. fields. rewrite len_app1. 
    rewrite Hpat in *. split_and!; try lia. reflexivity. }
  destruct Hb1 as (Hp1 & Hc1 & Hpat1).
  destruct (parse_loop_ok P (length pat) p1) as (F & HF & HFpat & HFend & HFcur & _);
    [exact Hp1 | exact Hc1 | rewrite Hpat1; unfold len; lia |].
  rewrite Hpat1 in HFpat, HFend.
  assert (Hfull : parse_loop P (length pat) p0 = Ok F).
  { apply (runs_complete P p0 F); try assumption.
    - apply (runs_trans P p0 p); [exact Hruns|].
      apply (runs_trans P p p1).
      + apply runs_step; [lia | exact Hbody].
      + exists (length pat). exact HF.
    - rewrite HFpat. exact HFend. }
  (* the rest of the pattern on its own *)
  unfold compile_from in Htail. cbn [pattern resume_after] in Htail.
  rewrite Hpat in Htail.
  destruct (parse_loop P (length pat) (resume_after p (pos p + 2)))
    as [R|] eqn:HR; cbn [bind] in Htail; [|discriminate].
  injection Htail as <-.
  assert (Hne : currentLiteral p ++ [escaped d] <> []).
  { destruct (currentLiteral p); discriminate. }
  assert (Hrel : same_rest (list_ p) (currentLiteral p ++ [escaped d]) F R).
  { apply (same_rest_loop P _ _ (length pat) p1 (resume_after p (pos p + 2)));
      try assumption.
    subst p1. unfold same_rest, resume_after, append_literal. fields.
    split_and!; try reflexivity. left. rewrite app_nil_r. auto. }
  destruct (init_keeps_parsed_list P pat)
    as (parsed & g0 & layout & Hparse & _ & Hinit & _ & Hlist).
  unfold PatternParser_parse in Hparse. fold p0 in Hparse.
  change (pattern p0) with pat in Hparse. rewrite Hfull in Hparse.
  cbn [bind] in Hparse. injection Hparse as <- <-.
  exists layout. eexists. split; [exact Hinit|].
  unfold PatternLayout_formatAndAppend. rewrite Hlist.
  rewrite (same_rest_not_empty _ _ F R Hne Hrel).
  assert (Hrender := same_rest_render P _ _ F R event Hne Hrel).
  rewrite HFpat in Hrender.
  rewrite Hrender by lia. rewrite Ha, Hb.
  cbn [bind]. rewrite <- !app_assoc. reflexivity.
Qed.

Lemma escape_in_literal_state_witness :
  (parse_body reference_platform
     {| pattern := text "50%% of %m%n"; formattingInfo := FormattingInfo_reset;
        list_ := []; state := LITERAL_STATE; pos := 2;
        currentLiteral := text "50"; loglog := [] |}
   = Ok {| pattern := text "50%% of %m%n";
           formattingInfo := FormattingInfo_reset;
           list_ := []; state := LITERAL_STATE; pos := 4;
           currentLiteral := text "50%"; loglog := [] |}
   /\ exists layout g,
        PatternLayout_new reference_platform (text "50%% of %m%n")
        = Ok (layout, g)
        /\ PatternLayout_formatAndAppend reference_platform layout
             sample_event = Ok (text "50% of started" ++ [newline]))
  /\ (parse_body reference_platform
        {| pattern := text "50%% of %m%n";
           formattingInfo := FormattingInfo_reset;
           list_ := [Some (LiteralPatternConverter (text "50% of "));
                     Some (Basic FormattingInfo_reset 1000
                             MESSAGE_CONVERTER)];
           state := LITERAL_STATE; pos := 10;
           currentLiteral := []; loglog := [] |}
      = Ok {| pattern := text "50%% of %m%n";
              formattingInfo := FormattingInfo_reset;
              list_ := [Some (LiteralPatternConverter (text "50% of "));
                        Some (Basic FormattingInfo_reset 1000
                                MESSAGE_CONVERTER)];
              state := LITERAL_STATE; pos := 12;
              currentLiteral := [newline]; loglog := [] |}
      /\ exists layout g,
           PatternLayout_new reference_platform (text "50%% of %m%n")
           = Ok (layout, g)
           /\ PatternLayout_formatAndAppend reference_platform layout
                sample_event = Ok (text "50% of started" ++ [newline])).
Proof.
  split.
  - apply (escape_in_literal_state reference_platform
             (text "50%% of %m%n") sample_event
             {| pattern := text "50%% of %m%n";
                formattingInfo := FormattingInfo_reset;
                list_ := []; state := LITERAL_STATE; pos := 2;
                currentLiteral := text "50"; loglog := [] |}
             "%"%char (text " of %m%n")
             [Some (LiteralPatternConverter (text " of "));
              Some (Basic FormattingInfo_reset 1000 MESSAGE_CONVERTER);
              Some (LiteralPatternConverter [newline])]
             [] (text " of started" ++ [newline])).
    + vm_compute. discriminate.
    + exists 2%nat. vm_compute. reflexivity.
    + reflexivity.
    + reflexivity.
    + left. reflexivity.
    + vm_compute. reflexivity.
    + reflexivity.
    + vm_compute. reflexivity.
  - apply (escape_in_literal_state reference_platform
             (text "50%% of %m%n") sample_event
             {| pattern := text "50%% of %m%n";
                formattingInfo := FormattingInfo_reset;
                list_ := [Some (LiteralPatternConverter (text "50% of "));
                          Some (Basic FormattingInfo_reset 1000
                                  MESSAGE_CONVERTER)];
                state := LITERAL_STATE; pos := 10;
                currentLiteral := []; loglog := [] |}
             "n"%char [] [] (text "50% of started") []).
    + vm_compute. discriminate.
    + exists 9%nat. vm_compute. reflexivity.
    + reflexivity.
    + reflexivity.
    + right. reflexivity.
    + vm_compute. reflexivity.
    + vm_compute. reflexivity.
    + reflexivity.
Defined.

(** C4, as the spec has it, at the patterns "%5n", "%.0n" and "%5%%".  A
    newline specifier takes the modifiers written in it like every other
    one: with a minimum width of 5 it renders four spaces and the newline,
    with a maximum width of 0 it renders nothing.  A '%' after a modifier is
    an unknown conversion character: the specifier is rendered as it is
    written, so that "%5%%" renders as itself, and an error is logged. *)
Lemma modifiers_reach_newline_and_percent :
  (exists layout,
     PatternLayout_new reference_platform (text "%5n") = Ok (layout, [])
     /\ parsedPattern layout
        = [Some (Basic {| minLen := 5; maxLen := 2147483647;
                          leftAlign := false |} 1000 NEWLINE_CONVERTER)]
     /\ PatternLayout_formatAndAppend reference_platform layout sample_event
        = Ok (text "    " ++ [newline]))
  /\ (exists layout,
        PatternLayout_new reference_platform (text "%.0n") = Ok (layout, [])
        /\ parsedPattern layout
           = [Some (Basic {| minLen := -1; maxLen := 0;
                             leftAlign := false |} 1000 NEWLINE_CONVERTER)]
        /\ PatternLayout_formatAndAppend reference_platform layout
             sample_event = Ok [])
  /\ (exists layout,
        PatternLayout_new reference_platform (text "%5%%")
        = Ok (layout, [(LL_ERROR, unexpected_char_message "%" 3)])
        /\ parsedPattern layout
           = [Some (LiteralPatternConverter (text "%5%"));
              Some (LiteralPatternConverter (text "%"))]
        /\ PatternLayout_formatAndAppend reference_platform layout
             sample_event = Ok (text "%5%%")).
Proof.
  split_and!.
  - exists {| layout_pattern := text "%5n";
              parsedPattern :=
                [Some (Basic {| minLen := 5; maxLen := 2147483647;
                                leftAlign := false |} 1000
                         NEWLINE_CONVERTER)] |}.
    split_and!; vm_compute; reflexivity.
  - exists {| layout_pattern := text "%.0n";
              parsedPattern :=
                [Some (Basic {| minLen := -1; maxLen := 0;
                                leftAlign := false |} 1000
                         NEWLINE_CONVERTER)] |}.
    split_and!; vm_compute; reflexivity.
  - exists {| layout_pattern := text "%5%%";
              parsedPattern :=
                [Some (LiteralPatternConverter (text "%5%"));
                 Some (LiteralPatternConverter (text "%"))] |}.
    split_and!; vm_compute; reflexivity.
Qed.

(** ** Specifiers *)

Lemma skipn_at (pat : cstring) (ps : Z) (c : ascii) (t : cstring) :
  0 <= ps ->
  skipn (Z.to_nat ps) pat = c :: t ->
  at_ pat ps = Ok c
  /\ skipn (Z.to_nat (ps + 1)) pat = t
  /\ len pat = ps + 1 + len t.
Proof.
  intros Hp H.
  apply (unread_cons
           {| pattern := pat; formattingInfo := FormattingInfo_reset;
              list_ := []; state := LITERAL_STATE; pos := ps;
              currentLiteral := []; loglog := [] |} c t Hp H).
Qed.

Lemma digit_is_no_flag (c : ascii) :
  is_digit c = true ->
  Ascii.eqb c "-" = false /\ Ascii.eqb c "." = false.
Proof.
  intros H. split.
  - destruct (Ascii.eqb_spec c "-") as [->|]; [discriminate | reflexivity].
  - destruct (Ascii.eqb_spec c ".") as [->|]; [discriminate | reflexivity].
Qed.

Ltac read_char Hps Hun :=
  unfold parse_body;
  cbn [pattern pos state formattingInfo list_ currentLiteral loglog];
  let A := fresh "Hat" in let B := fresh "Hrest" in let C := fresh "Hlen" in
  destruct (skipn_at _ _ _ _ Hps Hun) as (A & B & C);
  rewrite A; cbn [bind]; cbv zeta; fields.

Section Turns.
Variable P : Platform.
Variables (pat : cstring) (fi : FormattingInfo)
          (l : list (option PatternConverter)) (ps : Z) (cur : cstring)
          (lg : LogLog).
Variables (c : ascii) (t : cstring).
Hypothesis Hps : 0 <= ps.

Lemma turn_dash :
  skipn (Z.to_nat ps) pat = "-"%char :: t ->
  parse_body P (Build_PatternParser pat fi l CONVERTER_STATE ps cur lg)
  = Ok (Build_PatternParser pat (set_leftAlign fi true) l CONVERTER_STATE
          (ps + 1) (cur ++ ["-"%char]) lg).
Proof. intros Hun. read_char Hps Hun. reflexivity. Qed.

Lemma turn_dot (st : ParserState) :
  st = CONVERTER_STATE \/ st = MIN_STATE ->
  skipn (Z.to_nat ps) pat = "."%char :: t ->
  parse_body P (Build_PatternParser pat fi l st ps cur lg)
  = Ok (Build_PatternParser pat fi l DOT_STATE (ps + 1)
          (cur ++ ["."%char]) lg).
Proof.
  intros Hst Hun. read_char Hps Hun.
  destruct Hst as [-> | ->]; reflexivity.
Qed.

Lemma turn_first_digit :
  is_digit c = true ->
  skipn (Z.to_nat ps) pat = c :: t ->
  parse_body P (Build_PatternParser pat fi l CONVERTER_STATE ps cur lg)
  = Ok (Build_PatternParser pat (set_minLen fi (digit_value c)) l MIN_STATE
          (ps + 1) (cur ++ [c]) lg).
Proof.
  intros Hd Hun. read_char Hps Hun.
  destruct (digit_is_no_flag c Hd) as [-> ->]. rewrite Hd. reflexivity.
Qed.

Lemma turn_min_digit :
  is_digit c = true ->
  skipn (Z.to_nat ps) pat = c :: t ->
  parse_body P (Build_PatternParser pat fi l MIN_STATE ps cur lg)
  = Ok (Build_PatternParser pat
          (set_minLen fi (int_add (int_mul (minLen fi) 10) (digit_value c)))
          l MIN_STATE (ps + 1) (cur ++ [c]) lg).
Proof. intros Hd Hun. read_char Hps Hun. rewrite Hd. reflexivity. Qed.

Lemma turn_dot_digit :
  is_digit c = true ->
  skipn (Z.to_nat ps) pat = c :: t ->
  parse_body P (Build_PatternParser pat fi l DOT_STATE ps cur lg)
  = Ok (Build_PatternParser pat (set_maxLen fi (digit_value c)) l MAX_STATE
          (ps + 1) (cur ++ [c]) lg).
Proof. intros Hd Hun. read_char Hps Hun. rewrite Hd. reflexivity. Qed.

Lemma turn_max_digit :
  is_digit c = true ->
  skipn (Z.to_nat ps) pat = c :: t ->
  parse_body P (Build_PatternParser pat fi l MAX_STATE ps cur lg)
  = Ok (Build_PatternParser pat
          (set_maxLen fi (int_add (int_mul (maxLen fi) 10) (digit_value c)))
          l MAX_STATE (ps + 1) (cur ++ [c]) lg).
Proof. intros Hd Hun. read_char Hps Hun. rewrite Hd. reflexivity. Qed.

(** A character that is no modifier ends the specifier. *)
Lemma turn_finalize (st : ParserState) :
  st = CONVERTER_STATE \/ st = MIN_STATE \/ st = MAX_STATE ->
  is_digit c = false ->
  Ascii.eqb c "-" = false -> Ascii.eqb c "." = false ->
  skipn (Z.to_nat ps) pat = c :: t ->
  parse_body P (Build_PatternParser pat fi l st ps cur lg)
  = PatternParser_finalizeConverter P c
      (Build_PatternParser pat fi l st (ps + 1) (cur ++ [c]) lg).
Proof.
  intros Hst Hd Hdash Hdot Hun. read_char Hps Hun.
  destruct Hst as [-> | [-> | ->]]; rewrite ?Hdash, ?Hdot, ?Hd;
    try reflexivity.
  destruct (finalizeConverter_ok P c
              (Build_PatternParser pat fi l MAX_STATE (ps + 1) (cur ++ [c]) lg))
    as (q & E & _ & _ & Hq & _).
  { cbn [pos pattern]. pose proof (len_nonneg t). lia. }
  rewrite E. cbn [bind]. f_equal. destruct q. cbn in Hq. subst.
  reflexivity.
Qed.

(** The escape character met in literal state, before a character that
    is neither a second one nor the letter n, opens a specifier. *)
Lemma turn_escape (d : ascii) (t' : cstring) :
  skipn (Z.to_nat ps) pat = ESCAPE_CHAR :: d :: t' ->
  Ascii.eqb d ESCAPE_CHAR = false -> Ascii.eqb d "n" = false ->
  parse_body P (Build_PatternParser pat fi l LITERAL_STATE ps cur lg)
  = Ok (Build_PatternParser pat FormattingInfo_reset
          (l ++ literal_if_any cur) CONVERTER_STATE (ps + 1)
          [ESCAPE_CHAR] lg).
Proof.
  intros Hun H1 H2. read_char Hps Hun.
  destruct (skipn_at pat (ps + 1) d t') as (Hat2 & _ & Hlen2);
    [lia | exact Hrest |].
  rewrite to_size_t_nonneg by lia.
  pose proof (len_nonneg t').
  destruct (Z.eqb_spec (ps + 1) (len pat)); [lia|].
  rewrite Ascii.eqb_refl, Hat2. cbn [bind]. rewrite H1, H2.
  unfold literal_if_any.
  destruct (negb (len cur =? 0)); fields;
    rewrite ?app_nil_r; reflexivity.
Qed.
End Turns.

Lemma set_leftAlign_twice (fi : FormattingInfo) :
  set_leftAlign (set_leftAlign fi true) true = set_leftAlign fi true.
Proof. reflexivity. Qed.

Lemma run_dashes (P : Platform) (pat : cstring)
    (l : list (option PatternConverter)) (lg : LogLog) (k : nat) :
  forall (fi : FormattingInfo) (ps : Z) (cur t : cstring),
  0 <= ps ->
  skipn (Z.to_nat ps) pat = repeat "-"%char k ++ t ->
  runs P (Build_PatternParser pat fi l CONVERTER_STATE ps cur lg)
    (Build_PatternParser pat
       (if Nat.eqb k 0 then fi else set_leftAlign fi true) l CONVERTER_STATE
       (ps + Z.of_nat k) (cur ++ repeat "-"%char k) lg).
Proof.
  induction k as [|k IH]; intros fi ps cur t Hps Hun.
  - cbn [Nat.eqb repeat]. rewrite app_nil_r, Z.add_0_r. apply runs_refl.
  - cbn [repeat app] in Hun.
    destruct (skipn_at _ _ _ _ Hps Hun) as (_ & Hrest & Hlen).
    pose proof (len_nonneg (repeat "-"%char k ++ t)).
    eapply runs_trans.
    + apply runs_step; [cbn [pos pattern]; lia|].
      apply (turn_dash P pat fi l ps cur lg _ Hps Hun).
    + specialize (IH (set_leftAlign fi true) (ps + 1) (cur ++ ["-"%char]) t).
      replace (ps + Z.of_nat (S k)) with (ps + 1 + Z.of_nat k) by lia.
      replace (cur ++ repeat "-"%char (S k))
        with ((cur ++ ["-"%char]) ++ repeat "-"%char k)
        by (rewrite <- app_assoc; reflexivity).
      cbn [Nat.eqb].
      replace (set_leftAlign fi true)
        with (if Nat.eqb k 0 then set_leftAlign fi true
              else set_leftAlign (set_leftAlign fi true) true) at 2
        by (destruct (Nat.eqb k 0); reflexivity).
      apply IH; [lia | exact Hrest].
Qed.

Lemma run_min_digits (P : Platform) (pat : cstring)
    (l : list (option PatternConverter)) (lg : LogLog) (ds : cstring) :
  forall (fi : FormattingInfo) (ps : Z) (cur t : cstring),
  0 <= ps ->
  skipn (Z.to_nat ps) pat = ds ++ t ->
  Forall (fun c => is_digit c = true) ds ->
  runs P (Build_PatternParser pat fi l MIN_STATE ps cur lg)
    (Build_PatternParser pat (set_minLen fi (decimal_from (minLen fi) ds)) l
       MIN_STATE (ps + len ds) (cur ++ ds) lg).
Proof.
  induction ds as [|d ds IH]; intros fi ps cur t Hps Hun Hds.
  - cbn [decimal_from fold_left len length Z.of_nat].
    rewrite app_nil_r, Z.add_0_r. destruct fi. apply runs_refl.
  - inversion Hds as [|? ? Hd Hds']; subst. cbn [app] in Hun.
    destruct (skipn_at _ _ _ _ Hps Hun) as (_ & Hrest & Hlen).
    pose proof (len_nonneg (ds ++ t)).
    eapply runs_trans.
    + apply runs_step; [cbn [pos pattern]; lia|].
      apply (turn_min_digit P pat fi l ps cur lg d _ Hps Hd Hun).
    + specialize (IH (set_minLen fi
                        (int_add (int_mul (minLen fi) 10) (digit_value d)))
                     (ps + 1) (cur ++ [d]) t).
      replace (ps + len (d :: ds)) with (ps + 1 + len ds)
        by (unfold len; cbn [length]; lia).
      replace (cur ++ d :: ds) with ((cur ++ [d]) ++ ds)
        by (rewrite <- app_assoc; reflexivity).
      destruct fi as [mn mx la]. cbn [set_minLen minLen maxLen leftAlign] in *.
      apply IH; [lia | exact Hrest | exact Hds'].
Qed.

Lemma run_max_digits (P : Platform) (pat : cstring)
    (l : list (option PatternConverter)) (lg : LogLog) (ds : cstring) :
  forall (fi : FormattingInfo) (ps : Z) (cur t : cstring),
  0 <= ps ->
  skipn (Z.to_nat ps) pat = ds ++ t ->
  Forall (fun c => is_digit c = true) ds ->
  runs P (Build_PatternParser pat fi l MAX_STATE ps cur lg)
    (Build_PatternParser pat (set_maxLen fi (decimal_from (maxLen fi) ds)) l
       MAX_STATE (ps + len ds) (cur ++ ds) lg).
Proof.
  induction ds as [|d ds IH]; intros fi ps cur t Hps Hun Hds.
  - cbn [decimal_from fold_left len length Z.of_nat].
    rewrite app_nil_r, Z.add_0_r. destruct fi. apply runs_refl.
  - inversion Hds as [|? ? Hd Hds']; subst. cbn [app] in Hun.
    destruct (skipn_at _ _ _ _ Hps Hun) as (_ & Hrest & Hlen).
    pose proof (len_nonneg (ds ++ t)).
    eapply runs_trans.
    + apply runs_step; [cbn [pos pattern]; lia|].
      apply (turn_max_digit P pat fi l ps cur lg d _ Hps Hd Hun).
    + specialize (IH (set_maxLen fi
                        (int_add (int_mul (maxLen fi) 10) (digit_value d)))
                     (ps + 1) (cur ++ [d]) t).
      replace (ps + len (d :: ds)) with (ps + 1 + len ds)
        by (unfold len; cbn [length]; lia).
      replace (cur ++ d :: ds) with ((cur ++ [d]) ++ ds)
        by (rewrite <- app_assoc; reflexivity).
      destruct fi as [mn mx la]. cbn [set_maxLen minLen maxLen leftAlign] in *.
      apply IH; [lia | exact Hrest | exact Hds'].
Qed.

Lemma len_cons_not_zero (c : ascii) (s : cstring) : (len (c :: s) =? 0) = false.
Proof. apply Z.eqb_neq. unfold len. cbn [length]. lia. Qed.

Lemma len_app (s t : cstring) : len (s ++ t) = len s + len t.
Proof. unfold len. rewrite length_app. lia. Qed.

Lemma run_width (P : Platform) (pat : cstring) (fi : FormattingInfo)
    (l : list (option PatternConverter)) (lg : LogLog) (ps : Z)
    (cur width t : cstring) :
  0 <= ps ->
  skipn (Z.to_nat ps) pat = width ++ t ->
  Forall (fun c => is_digit c = true) width ->
  runs P (Build_PatternParser pat fi l CONVERTER_STATE ps cur lg)
    (Build_PatternParser pat
       (if len width =? 0 then fi else set_minLen fi (decimal_value width)) l
       (if len width =? 0 then CONVERTER_STATE else MIN_STATE)
       (ps + len width) (cur ++ width) lg).
Proof.
  intros Hps Hun Hw. destruct width as [|w ws].
  - cbn [len length Z.of_nat Z.eqb]. rewrite app_nil_r, Z.add_0_r.
    apply runs_refl.
  - rewrite len_cons_not_zero. inversion Hw as [|? ? Hd Hws]; subst.
    cbn [app] in Hun.
    destruct (skipn_at _ _ _ _ Hps Hun) as (_ & Hrest & Hlen).
    pose proof (len_nonneg (ws ++ t)).
    eapply runs_trans.
    + apply runs_step; [cbn [pos pattern]; lia|].
      apply (turn_first_digit P pat fi l ps cur lg w _ Hps Hd Hun).
    + pose proof (run_min_digits P pat l lg ws
                    (set_minLen fi (digit_value w)) (ps + 1) (cur ++ [w]) t)
        as H1.
      replace (ps + len (w :: ws)) with (ps + 1 + len ws)
        by (unfold len; cbn [length]; lia).
      replace (cur ++ w :: ws) with ((cur ++ [w]) ++ ws)
        by (rewrite <- app_assoc; reflexivity).
      destruct fi as [mn mx la].
      cbn [set_minLen minLen maxLen leftAlign decimal_value] in *.
      apply H1; [lia | exact Hrest | exact Hws].
Qed.

Lemma run_precision (P : Platform) (pat : cstring) (fi : FormattingInfo)
    (l : list (option PatternConverter)) (lg : LogLog) (st : ParserState)
    (ps : Z) (cur precision t : cstring) :
  0 <= ps ->
  st = CONVERTER_STATE \/ st = MIN_STATE ->
  skipn (Z.to_nat ps) pat
  = (if len precision =? 0 then [] else "."%char :: precision) ++ t ->
  Forall (fun c => is_digit c = true) precision ->
  runs P (Build_PatternParser pat fi l st ps cur lg)
    (Build_PatternParser pat
       (if len precision =? 0 then fi
        else set_maxLen fi (decimal_value precision)) l
       (if len precision =? 0 then st else MAX_STATE)
       (ps + len (if len precision =? 0 then []
                  else "."%char :: precision))
       (cur ++ (if len precision =? 0 then [] else "."%char :: precision))
       lg).
Proof.
  intros Hps Hst Hun Hp. destruct precision as [|d ds].
  - cbn [len length Z.of_nat Z.eqb]. rewrite app_nil_r, Z.add_0_r.
    apply runs_refl.
  - rewrite len_cons_not_zero in *. inversion Hp as [|? ? Hd Hds]; subst.
    cbn [app] in Hun.
    destruct (skipn_at _ _ _ _ Hps Hun) as (_ & Hrest & Hlen).
    destruct (skipn_at pat (ps + 1) d (ds ++ t)) as (_ & Hrest2 & Hlen2);
      [lia | exact Hrest |].
    pose proof (len_nonneg (ds ++ t)).
    eapply runs_trans.
    { apply runs_step; [cbn [pos pattern]; lia|].
      apply (turn_dot P pat fi l ps cur lg _ Hps st Hst Hun). }
    eapply runs_trans.
    { apply runs_step; [cbn [pos pattern]; lia|].
      apply (turn_dot_digit P pat fi l (ps + 1) (cur ++ ["."%char]) lg d
               (ds ++ t)); [lia | exact Hd | exact Hrest]. }
    pose proof (run_max_digits P pat l lg ds
                  (set_maxLen fi (digit_value d)) (ps + 1 + 1)
                  ((cur ++ ["."%char]) ++ [d]) t) as H1.
    replace (ps + len ("."%char :: d :: ds)) with (ps + 1 + 1 + len ds)
      by (unfold len; cbn [length]; lia).
    replace (cur ++ "."%char :: d :: ds)
      with (((cur ++ ["."%char]) ++ [d]) ++ ds)
      by (rewrite <- !app_assoc; reflexivity).
    destruct fi as [mn mx la].
    cbn [set_maxLen minLen maxLen leftAlign decimal_value] in *.
    apply H1; [lia | exact Hrest2 | exact Hds].
Qed.

(** The modifiers of a specifier are read into the formatting
    information. *)
Lemma run_modifiers (P : Platform) (pat : cstring)
    (l : list (option PatternConverter)) (lg : LogLog) (ps : Z)
    (cur : cstring) (dashes : nat) (width precision t : cstring) :
  0 <= ps ->
  skipn (Z.to_nat ps) pat = modifiers dashes width precision ++ t ->
  Forall (fun c => is_digit c = true) width ->
  Forall (fun c => is_digit c = true) precision ->
  runs P
    (Build_PatternParser pat FormattingInfo_reset l CONVERTER_STATE ps cur lg)
    (Build_PatternParser pat (modifiers_info dashes width precision) l
       (modifiers_state width precision)
       (ps + len (modifiers dashes width precision))
       (cur ++ modifiers dashes width precision) lg).
Proof.
  intros Hps Hun Hw Hp. unfold modifiers in *.
  rewrite <- !app_assoc in Hun.
  eapply runs_trans.
  { apply (run_dashes P pat l lg dashes FormattingInfo_reset ps cur _ Hps Hun). }
  assert (Hun2 : skipn (Z.to_nat (ps + Z.of_nat dashes)) pat
                 = width ++ (if len precision =? 0 then []
                             else "."%char :: precision) ++ t).
  { replace (Z.to_nat (ps + Z.of_nat dashes))
      with (dashes + Z.to_nat ps)%nat by lia.
    rewrite <- skipn_skipn, Hun, skipn_app, repeat_length, Nat.sub_diag.
    rewrite skipn_all2 by (rewrite repeat_length; lia). reflexivity. }
  eapply runs_trans.
  { apply (run_width P pat _ l lg (ps + Z.of_nat dashes) _ width
             ((if len precision =? 0 then [] else "."%char :: precision) ++ t));
      [lia | exact Hun2 | exact Hw]. }
  assert (Hun3 : skipn (Z.to_nat (ps + Z.of_nat dashes + len width)) pat
                 = (if len precision =? 0 then []
                    else "."%char :: precision) ++ t).
  { unfold len.
    replace (Z.to_nat (ps + Z.of_nat dashes + Z.of_nat (length width)))
      with (length width + Z.to_nat (ps + Z.of_nat dashes))%nat by lia.
    rewrite <- skipn_skipn, Hun2, skipn_app, Nat.sub_diag.
    rewrite skipn_all2 by lia. reflexivity. }
  pose proof (run_precision P pat
                (if len width =? 0
                 then if Nat.eqb dashes 0 then FormattingInfo_reset
                      else set_leftAlign FormattingInfo_reset true
                 else set_minLen
                        (if Nat.eqb dashes 0 then FormattingInfo_reset
                         else set_leftAlign FormattingInfo_reset true)
                        (decimal_value width))
                l lg (if len width =? 0 then CONVERTER_STATE else MIN_STATE)
                (ps + Z.of_nat dashes + len width)
                ((cur ++ repeat "-"%char dashes) ++ width) precision t) as H.
  pose proof (len_nonneg width).
  specialize (H ltac:(lia)
                ltac:(destruct (len width =? 0); auto) Hun3 Hp).
  match goal with
  | H : runs P ?a ?b |- runs P ?a' ?b' =>
      replace b' with b; [exact H|]
  end.
  unfold modifiers_info, modifiers_state.
  rewrite !len_app, <- !app_assoc.
  replace (len (repeat "-"%char dashes)) with (Z.of_nat dashes)
    by (unfold len; rewrite repeat_length; reflexivity).
  replace (ps + (Z.of_nat dashes
                 + (len width
                    + len (if len precision =? 0 then []
                           else "."%char :: precision))))
    with (ps + Z.of_nat dashes + len width
          + len (if len precision =? 0 then [] else "."%char :: precision))
    by lia.
  destruct (len precision =? 0), (len width =? 0), (Nat.eqb dashes 0);
    reflexivity.
Qed.

Lemma digit_is_no_escape (c : ascii) :
  is_digit c = true ->
  Ascii.eqb c ESCAPE_CHAR = false /\ Ascii.eqb c "n" = false.
Proof.
  intros H. split.
  - destruct (Ascii.eqb_spec c ESCAPE_CHAR) as [->|];
      [discriminate | reflexivity].
  - destruct (Ascii.eqb_spec c "n") as [->|]; [discriminate | reflexivity].
Qed.

Lemma modifiers_state_cases (width precision : cstring) :
  modifiers_state width precision = CONVERTER_STATE
  \/ modifiers_state width precision = MIN_STATE
  \/ modifiers_state width precision = MAX_STATE.
Proof.
  unfold modifiers_state.
  destruct (negb (len precision =? 0)), (negb (len width =? 0)); auto.
Qed.

(** The character that follows the escape character of a specifier is
    neither a second escape character nor the letter n. *)
Lemma modifiers_head (dashes : nat) (width precision : cstring) (c d : ascii)
    (t t' : cstring) :
  modifiers dashes width precision ++ c :: t = d :: t' ->
  Forall (fun c => is_digit c = true) width ->
  (modifiers dashes width precision = [] ->
   Ascii.eqb c ESCAPE_CHAR = false /\ Ascii.eqb c "n" = false) ->
  Ascii.eqb d ESCAPE_CHAR = false /\ Ascii.eqb d "n" = false.
Proof.
  unfold modifiers. intros H Hw Hc.
  destruct dashes as [|k].
  2:{ cbn in H. injection H as <- _. split; reflexivity. }
  destruct width as [|w ws].
  2:{ cbn in H. injection H as <- _. inversion Hw; subst.
      apply digit_is_no_escape. assumption. }
  destruct precision as [|x xs].
  - cbn in H. injection H as <- _. apply Hc. reflexivity.
  - rewrite len_cons_not_zero in H. cbn in H. injection H as <- _.
    split; reflexivity.
Qed.

(** A specifier, from its escape character to the conversion character,
    is read in one run that ends in [finalizeConverter]. *)
Lemma run_specifier (P : Platform) (pat : cstring) (fi : FormattingInfo)
    (l : list (option PatternConverter)) (lg : LogLog) (ps : Z)
    (cur : cstring) (dashes : nat) (width precision : cstring) (c : ascii)
    (t : cstring) (q : PatternParser) :
  0 <= ps ->
  skipn (Z.to_nat ps) pat
  = ESCAPE_CHAR :: modifiers dashes width precision ++ c :: t ->
  Forall (fun c => is_digit c = true) width ->
  Forall (fun c => is_digit c = true) precision ->
  is_digit c = false ->
  Ascii.eqb c "-" = false -> Ascii.eqb c "." = false ->
  (modifiers dashes width precision = [] ->
   Ascii.eqb c ESCAPE_CHAR = false /\ Ascii.eqb c "n" = false) ->
  PatternParser_finalizeConverter P c
    (Build_PatternParser pat (modifiers_info dashes width precision)
       (l ++ literal_if_any cur) (modifiers_state width precision)
       (ps + len (modifiers dashes width precision) + 2)
       (ESCAPE_CHAR :: modifiers dashes width precision ++ [c]) lg) = Ok q ->
  runs P (Build_PatternParser pat fi l LITERAL_STATE ps cur lg) q.
Proof.
  intros Hps Hun Hw Hp Hd Hdash Hdot Hesc Hfin.
  destruct (skipn_at _ _ _ _ Hps Hun) as (_ & Hrest & Hlen).
  destruct (modifiers dashes width precision ++ c :: t) as [|d t'] eqn:Hm.
  { destruct (modifiers dashes width precision); discriminate. }
  destruct (modifiers_head _ _ _ _ _ _ _ Hm Hw Hesc) as [Hd1 Hd2].
  pose proof (len_nonneg t') as Ht'.
  eapply runs_trans.
  { apply runs_step; [cbn [pos pattern]; unfold len in *; cbn [length] in *; lia|].
    apply (turn_escape P pat fi l ps cur lg Hps d t' Hun Hd1 Hd2). }
  rewrite <- Hm in Hrest.
  eapply runs_trans.
  { apply (run_modifiers P pat (l ++ literal_if_any cur) lg (ps + 1)
             [ESCAPE_CHAR] dashes width precision (c :: t));
      [lia | exact Hrest | exact Hw | exact Hp]. }
  assert (Hun2 : skipn (Z.to_nat (ps + 1
                                  + len (modifiers dashes width precision)))
                   pat = c :: t).
  { unfold len.
    replace (Z.to_nat (ps + 1
                       + Z.of_nat (length (modifiers dashes width precision))))
      with (length (modifiers dashes width precision) + Z.to_nat (ps + 1))%nat
      by lia.
    rewrite <- skipn_skipn, Hrest, skipn_app, Nat.sub_diag.
    rewrite skipn_all2 by lia. reflexivity. }
  pose proof (len_nonneg (modifiers dashes width precision)) as Hmn.
  assert (Hps2 : 0 <= ps + 1 + len (modifiers dashes width precision))
    by lia.
  destruct (skipn_at _ _ _ _ Hps2 Hun2) as (_ & _ & Hlen2).
  pose proof (len_nonneg t) as Ht.
  apply runs_step; [cbn [pos pattern]; lia|].
  rewrite (turn_finalize P pat _ _ _ _ lg c t Hps2 _
             (modifiers_state_cases width precision) Hd Hdash Hdot Hun2).
  rewrite <- Hfin. f_equal. f_equal. lia.
Qed.

Lemma finalize_basic (P : Platform) (c : ascii) (ty : BasicType)
    (p : PatternParser) :
  basic_letter c = Some ty ->
  PatternParser_finalizeConverter P c p
  = Ok {| pattern := pattern p; formattingInfo := FormattingInfo_reset;
          list_ := list_ p
                   ++ [Some (fst (BasicPatternConverter P (formattingInfo p)
                                    ty))];
          state := LITERAL_STATE; pos := pos p; currentLiteral := [];
          loglog := loglog p
                    ++ snd (BasicPatternConverter P (formattingInfo p) ty) |}.
Proof.
  unfold basic_letter. intros H.
  repeat match type of H with
  | (if Ascii.eqb c ?x then _ else _) = _ =>
      destruct (Ascii.eqb_spec c x) as [->|];
      [injection H as <-; destruct p; reflexivity|]
  end.
  discriminate.
Qed.

Lemma basic_letter_plain (c : ascii) (ty : BasicType) :
  basic_letter c = Some ty ->
  is_digit c = false /\ Ascii.eqb c "-" = false /\ Ascii.eqb c "." = false
  /\ Ascii.eqb c ESCAPE_CHAR = false
  /\ (ty <> NEWLINE_CONVERTER -> Ascii.eqb c "n" = false).
Proof.
  unfold basic_letter. intros H.
  repeat match type of H with
  | (if Ascii.eqb c ?x then _ else _) = _ =>
      destruct (Ascii.eqb_spec c x) as [->|];
      [injection H as <-; split_and!; try reflexivity; congruence|]
  end.
  discriminate.
Qed.

(** ** The render of a pattern, piece by piece *)

Lemma strip_rebase (l : list (option PatternConverter)) (g : LogLog)
    (q : PatternParser) :
  strip (rebase l g q) = strip q.
Proof. reflexivity. Qed.

Lemma rebase_rebase (l l' : list (option PatternConverter)) (g g' : LogLog)
    (q : PatternParser) :
  rebase l g (rebase l' g' q) = rebase (l ++ l') (g ++ g') q.
Proof. unfold rebase. cbn. rewrite !app_assoc. reflexivity. Qed.

Lemma parse_loop_frame (P : Platform) (n : nat) (p : PatternParser) :
  parse_loop P n p
  = (let* q := parse_loop P n (strip p) in
     Ok (rebase (list_ p) (loglog p) q)).
Proof.
  revert p. induction n as [|n IH]; intros p; cbn [parse_loop].
  - change (pos (strip p)) with (pos p).
    change (pattern (strip p)) with (pattern p).
    destruct (_ <? _); cbn [bind]; rewrite rebase_strip; reflexivity.
  - change (pos (strip p)) with (pos p).
    change (pattern (strip p)) with (pattern p).
    destruct (_ <? _); cbn [bind]; [|rewrite rebase_strip; reflexivity].
    rewrite parse_body_frame.
    destruct (parse_body P (strip p)) as [q|]; cbn [bind]; [|reflexivity].
    rewrite IH, strip_rebase. rewrite (IH q).
    destruct (parse_loop P n (strip q)) as [r|]; cbn [bind]; [|reflexivity].
    rewrite rebase_rebase. reflexivity.
Qed.

(** Where the parser stands at the head of a turn in literal state with
    nothing pending, the layout renders what is compiled so far and then
    what the rest of the pattern compiles to on its own. *)
Lemma render_after_clean_state (P : Platform) (pat : cstring)
    (event : InternalLoggingEvent) (q : PatternParser)
    (tail : list (option PatternConverter)) :
  runs P (set_pos (PatternParser_new pat) 0) q ->
  state q = LITERAL_STATE -> currentLiteral q = [] ->
  formattingInfo q = FormattingInfo_reset ->
  list_ q <> [] ->
  compile_from P (set_pos (PatternParser_new pat) (pos q)) = Ok tail ->
  exists layout g,
    PatternLayout_new P pat = Ok (layout, g)
    /\ parsedPattern layout = list_ q ++ tail.
Proof.
  intros Hruns Hst Hcur Hfi Hne Htail.
  pose (p0 := set_pos (PatternParser_new pat) 0).
  destruct (runs_bounds P p0 q Hruns) as (Hpat & Hpos & Hc);
    [cbn; unfold len; lia | cbn; unfold len; cbn [length]; lia |].
  change (pattern p0) with pat in Hpat.
  assert (Hstrip : strip q = set_pos (PatternParser_new pat) (pos q)).
  { unfold strip. rewrite Hpat, Hst, Hcur, Hfi. reflexivity. }
  destruct (parse_loop_ok P (length pat) q) as (F & HF & HFpat & HFend & _);
    [exact Hpos | exact Hc | rewrite Hpat; unfold len; lia |].
  assert (Hfull : parse_loop P (length pat) p0 = Ok F).
  { apply (runs_complete P p0 F).
    - apply (runs_trans P p0 q); [exact Hruns|]. exists (length pat). exact HF.
    - rewrite HFpat. exact HFend.
    - cbn. unfold len. lia.
    - cbn. unfold len. cbn [length]. lia. }
  rewrite parse_loop_frame, Hstrip in HF.
  unfold compile_from in Htail. cbn [pattern set_pos PatternParser_new] in Htail.
  destruct (parse_loop P (length pat) (set_pos (PatternParser_new pat) (pos q)))
    as [R|]; cbn [bind] in HF, Htail; [|discriminate].
  injection HF as <-. injection Htail as <-.
  destruct (init_keeps_parsed_list P pat)
    as (parsed & g0 & layout & Hparse & _ & Hinit & _ & Hlist).
  unfold PatternParser_parse in Hparse. fold p0 in Hparse.
  change (pattern p0) with pat in Hparse. rewrite Hfull in Hparse.
  cbn [bind] in Hparse. injection Hparse as <- <-.
  exists layout. eexists. split; [exact Hinit|].
  rewrite Hlist, !list_parse_flush. cbn [rebase list_ currentLiteral].
  rewrite <- app_assoc.
  destruct (list_ q) as [|x l]; [congruence|]. reflexivity.
Qed.

Lemma format_all_one (P : Platform) (pc : PatternConverter)
    (event : InternalLoggingEvent) :
  format_all P [Some pc] event = PatternConverter_formatAndAppend P pc event.
Proof.
  cbn [format_all].
  destruct (PatternConverter_formatAndAppend P pc event); cbn [bind];
    [rewrite app_nil_r|]; reflexivity.
Qed.

(** A specifier met in literal state: the run to its end and the render of
    the layout, in terms of the state [q] that [finalizeConverter] hands
    back. *)
Lemma specifier_render (P : Platform) (pat : cstring)
    (event : InternalLoggingEvent) (p q : PatternParser) (dashes : nat)
    (width precision : cstring) (c : ascii) (rest : cstring)
    (tail : list (option PatternConverter)) (pc : PatternConverter)
    (a f b : cstring) :
  len pat <= INT_MAX ->
  runs P (set_pos (PatternParser_new pat) 0) p ->
  state p = LITERAL_STATE ->
  unread p = ESCAPE_CHAR :: modifiers dashes width precision ++ c :: rest ->
  Forall (fun c => is_digit c = true) width ->
  Forall (fun c => is_digit c = true) precision ->
  is_digit c = false ->
  Ascii.eqb c "-" = false -> Ascii.eqb c "." = false ->
  (modifiers dashes width precision = [] ->
   Ascii.eqb c ESCAPE_CHAR = false /\ Ascii.eqb c "n" = false) ->
  PatternParser_finalizeConverter P c
    {| pattern := pat;
       formattingInfo := modifiers_info dashes width precision;
       list_ := list_ p ++ literal_if_any (currentLiteral p);
       state := modifiers_state width precision;
       pos := pos p + len (modifiers dashes width precision) + 2;
       currentLiteral := ESCAPE_CHAR :: modifiers dashes width precision ++ [c];
       loglog := loglog p |} = Ok q ->
  list_ q = (list_ p ++ literal_if_any (currentLiteral p)) ++ [Some pc] ->
  compile_from P (set_pos (PatternParser_new pat) (pos q)) = Ok tail ->
  format_all P (list_ p) event = Ok a ->
  PatternConverter_formatAndAppend P pc event = Ok f ->
  format_all P tail event = Ok b ->
  exists layout g,
    PatternLayout_new P pat = Ok (layout, g)
    /\ parsedPattern layout
       = list_ p ++ literal_if_any (currentLiteral p) ++ Some pc :: tail
    /\ PatternLayout_formatAndAppend P layout event
       = Ok (a ++ currentLiteral p ++ f ++ b).
Proof.
  intros Hlen Hruns Hst Hun Hw Hp Hd Hdash Hdot Hesc Hfin Hlist Htail Ha Hf Hb.
  pose (p0 := set_pos (PatternParser_new pat) 0).
  destruct (runs_bounds P p0 p Hruns) as (Hpat & Hpos & Hcur);
    [cbn; unfold len; lia | cbn; unfold len; cbn [length]; lia |].
  change (pattern p0) with pat in Hpat.
  assert (Hpq : runs P p q).
  { destruct p as [pt fi l st ps cur lg].
    cbn [pattern state pos currentLiteral list_ loglog] in *. subst pt st.
    apply (run_specifier P pat fi l lg ps cur dashes width precision c rest q);
      try assumption. lia. }
  destruct (finalizeConverter_ok P c
              {| pattern := pat;
                 formattingInfo := modifiers_info dashes width precision;
                 list_ := list_ p ++ literal_if_any (currentLiteral p);
                 state := modifiers_state width precision;
                 pos := pos p + len (modifiers dashes width precision) + 2;
                 currentLiteral :=
                   ESCAPE_CHAR :: modifiers dashes width precision ++ [c];
                 loglog := loglog p |})
    as (q' & E & _ & _ & Hqst & Hqcur & Hqfi & _).
  { cbn [pos pattern].
    destruct (unread_cons p _ _ (proj1 Hpos) Hun) as (_ & _ & Hl1).
    rewrite Hpat in Hl1. rewrite len_app in Hl1.
    pose proof (len_nonneg (modifiers dashes width precision)).
    pose proof (len_nonneg rest).
    unfold len in Hl1 at 3. cbn [length] in Hl1. unfold len in *. lia. }
  rewrite Hfin in E. injection E as <-.
  destruct (render_after_clean_state P pat event q tail)
    as (layout & g & Hnew & Hparsed); try assumption.
  { apply (runs_trans P p0 p q); assumption. }
  { rewrite Hlist. destruct (list_ p ++ literal_if_any (currentLiteral p));
      discriminate. }
  exists layout, g. split; [exact Hnew|].
  rewrite Hlist, <- !app_assoc in Hparsed. cbn [app] in Hparsed.
  split; [exact Hparsed|].
  unfold PatternLayout_formatAndAppend. rewrite Hparsed.
  rewrite format_all_app_bind, Ha. cbn [bind].
  rewrite Hpat in Hpos.
  rewrite format_all_app_bind, format_all_literal_if_any by lia.
  cbn [bind format_all]. rewrite Hf, Hb. cbn [bind]. reflexivity.
Qed.

(** A specifier with one of the letters F l L m n p r t x, met in literal
    state.  Any number of dashes, a decimal minimum width, and a dot with a
    decimal maximum width may stand between the escape character and the
    letter; the widths are read in [int] arithmetic.  The layout then holds
    a basic converter with exactly that formatting information, after a
    literal for the text that was pending, and renders the event as what
    comes before, the pending text, the converter's padded field, and what
    the rest of the pattern renders on its own.  The letter n needs at
    least one modifier to be a specifier. *)
Theorem basic_specifier_in_literal_state (P : Platform) (pat : cstring)
    (event : InternalLoggingEvent) (p : PatternParser) (dashes : nat)
    (width precision : cstring) (c : ascii) (ty : BasicType) (rest : cstring)
    (tail : list (option PatternConverter)) (a f b : cstring) :
  len pat <= INT_MAX ->
  runs P (set_pos (PatternParser_new pat) 0) p ->
  state p = LITERAL_STATE ->
  unread p = ESCAPE_CHAR :: modifiers dashes width precision ++ c :: rest ->
  Forall (fun c => is_digit c = true) width ->
  Forall (fun c => is_digit c = true) precision ->
  basic_letter c = Some ty ->
  (modifiers dashes width precision = [] -> ty <> NEWLINE_CONVERTER) ->
  compile_from P
    (set_pos (PatternParser_new pat)
       (pos p + len (modifiers dashes width precision) + 2)) = Ok tail ->
  format_all P (list_ p) event = Ok a ->
  PatternConverter_formatAndAppend P
    (Basic (modifiers_info dashes width precision)
       (Z.quot (CLOCKS_PER_SEC P) MILLIS_PER_SEC) ty) event = Ok f ->
  format_all P tail event = Ok b ->
  exists layout g,
    PatternLayout_new P pat = Ok (layout, g)
    /\ parsedPattern layout
       = list_ p ++ literal_if_any (currentLiteral p)
         ++ Some (Basic (modifiers_info dashes width precision)
                    (Z.quot (CLOCKS_PER_SEC P) MILLIS_PER_SEC) ty) :: tail
    /\ PatternLayout_formatAndAppend P layout event
       = Ok (a ++ currentLiteral p ++ f ++ b).
Proof.
  intros Hlen Hruns Hst Hun Hw Hp Hc Hn Htail Ha Hf Hb.
  destruct (basic_letter_plain c ty Hc) as (H1 & H2 & H3 & H4 & H5).
  eapply (specifier_render P pat event p _ dashes width precision c rest
            tail _ a f b); try eassumption.
  - intros Hm. split; [exact H4 | exact (H5 (Hn Hm))].
  - apply finalize_basic. exact Hc.
  - reflexivity.
  - exact Htail.
Qed.

(** A specifier whose conversion character is none that
    [finalizeConverter] knows, met in literal state, is rendered as it is
    written, modifiers included, and the parser carries on in literal state
    after it. *)
Theorem unknown_specifier_renders_itself (P : Platform) (pat : cstring)
    (event : InternalLoggingEvent) (p : PatternParser) (dashes : nat)
    (width precision : cstring) (c : ascii) (rest : cstring)
    (tail : list (option PatternConverter)) (a b : cstring) :
  len pat <= INT_MAX ->
  runs P (set_pos (PatternParser_new pat) 0) p ->
  state p = LITERAL_STATE ->
  unread p = ESCAPE_CHAR :: modifiers dashes width precision ++ c :: rest ->
  Forall (fun c => is_digit c = true) width ->
  Forall (fun c => is_digit c = true) precision ->
  ~ In c conversion_characters ->
  is_digit c = false -> c <> "-"%char -> c <> "."%char ->
  (modifiers dashes width precision = [] -> c <> ESCAPE_CHAR) ->
  compile_from P
    (set_pos (PatternParser_new pat)
       (pos p + len (modifiers dashes width precision) + 2)) = Ok tail ->
  format_all P (list_ p) event = Ok a ->
  format_all P tail event = Ok b ->
  exists layout g,
    PatternLayout_new P pat = Ok (layout, g)
    /\ parsedPattern layout
       = list_ p ++ literal_if_any (currentLiteral p)
         ++ Some (LiteralPatternConverter
                    (ESCAPE_CHAR :: modifiers dashes width precision ++ [c]))
            :: tail
    /\ PatternLayout_formatAndAppend P layout event
       = Ok (a ++ currentLiteral p
             ++ (ESCAPE_CHAR :: modifiers dashes width precision ++ [c])
             ++ b).
Proof.
  intros Hlen Hruns Hst Hun Hw Hp Hc Hd Hdash Hdot Hesc Htail Ha Hb.
  assert (Hk : forall x, In x conversion_characters -> Ascii.eqb c x = false).
  { intros x Hx. apply Ascii.eqb_neq. intros ->. exact (Hc Hx). }
  pose (p0 := set_pos (PatternParser_new pat) 0).
  destruct (runs_bounds P p0 p Hruns) as (Hpat & Hpos & Hcur);
    [cbn; unfold len; lia | cbn; unfold len; cbn [length]; lia |].
  change (pattern p0) with pat in Hpat.
  destruct (unread_cons p _ _ (proj1 Hpos) Hun) as (_ & _ & Hl1).
  rewrite Hpat, len_app in Hl1.
  pose proof (len_nonneg (modifiers dashes width precision)).
  pose proof (len_nonneg rest).
  assert (Hl2 : len (c :: rest) = 1 + len rest)
    by (unfold len; cbn [length]; lia).
  eapply (specifier_render P pat event p _ dashes width precision c rest
            tail _ a _ b); try eassumption.
  - apply Ascii.eqb_neq. exact Hdash.
  - apply Ascii.eqb_neq. exact Hdot.
  - intros Hm. split.
    + apply Ascii.eqb_neq. exact (Hesc Hm).
    + apply Hk. vm_compute. tauto.
  - unfold PatternParser_finalizeConverter.
    rewrite !Hk by (vm_compute; tauto). cbn [orb bind]. fields. reflexivity.
  - reflexivity.
  - exact Htail.
  - apply literal_renders_itself.
    change (ESCAPE_CHAR :: modifiers dashes width precision ++ [c])
      with ([ESCAPE_CHAR] ++ modifiers dashes width precision ++ [c]).
    rewrite !len_app. unfold len at 1 3. cbn [length]. lia.
Qed.

Lemma basic_specifier_in_literal_state_witness :
  (exists layout g,
     PatternLayout_new reference_platform (text "[%-5p] %m%n")
     = Ok (layout, g)
     /\ parsedPattern layout
        = [Some (LiteralPatternConverter (text "["));
           Some (Basic {| minLen := 5; maxLen := 2147483647;
                          leftAlign := true |} 1000 LOGLEVEL_CONVERTER);
           Some (LiteralPatternConverter (text "] "));
           Some (Basic FormattingInfo_reset 1000 MESSAGE_CONVERTER);
           Some (LiteralPatternConverter [newline])]
     /\ PatternLayout_formatAndAppend reference_platform layout sample_event
        = Ok (text "[INFO ] started" ++ [newline]))
  /\ (exists layout g,
        PatternLayout_new reference_platform (text "%8.3m|") = Ok (layout, g)
        /\ parsedPattern layout
           = [Some (Basic {| minLen := 8; maxLen := 3;
                             leftAlign := false |} 1000 MESSAGE_CONVERTER);
              Some (LiteralPatternConverter (text "|"))]
        /\ PatternLayout_formatAndAppend reference_platform layout
             sample_event = Ok (text "ted|")).
Proof.
  split.
  - apply (basic_specifier_in_literal_state reference_platform
             (text "[%-5p] %m%n") sample_event
             {| pattern := text "[%-5p] %m%n";
                formattingInfo := FormattingInfo_reset; list_ := [];
                state := LITERAL_STATE; pos := 1;
                currentLiteral := text "["; loglog := [] |}
             1 (text "5") [] "p"%char LOGLEVEL_CONVERTER (text "] %m%n")
             [Some (LiteralPatternConverter (text "] "));
              Some (Basic FormattingInfo_reset 1000 MESSAGE_CONVERTER);
              Some (LiteralPatternConverter [newline])]
             [] (text "INFO ") (text "] started" ++ [newline])).
    + vm_compute. discriminate.
    + exists 1%nat. vm_compute. reflexivity.
    + reflexivity.
    + reflexivity.
    + repeat constructor.
    + constructor.
    + reflexivity.
    + intros _. discriminate.
    + vm_compute. reflexivity.
    + reflexivity.
    + vm_compute. reflexivity.
    + vm_compute. reflexivity.
  - apply (basic_specifier_in_literal_state reference_platform
             (text "%8.3m|") sample_event
             (set_pos (PatternParser_new (text "%8.3m|")) 0)
             0 (text "8") (text "3") "m"%char MESSAGE_CONVERTER (text "|")
             [Some (LiteralPatternConverter (text "|"))]
             [] (text "ted") (text "|")).
    + vm_compute. discriminate.
    + exists 0%nat. vm_compute. reflexivity.
    + reflexivity.
    + reflexivity.
    + repeat constructor.
    + repeat constructor.
    + reflexivity.
    + intros _. discriminate.
    + vm_compute. reflexivity.
    + reflexivity.
    + vm_compute. reflexivity.
    + vm_compute. reflexivity.
Defined.

Lemma unknown_specifier_renders_itself_witness :
  exists layout g,
    PatternLayout_new reference_platform (text "load %-3q!") = Ok (layout, g)
    /\ parsedPattern layout
       = [Some (LiteralPatternConverter (text "load "));
          Some (LiteralPatternConverter (text "%-3q"));
          Some (LiteralPatternConverter (text "!"))]
    /\ PatternLayout_formatAndAppend reference_platform layout sample_event
       = Ok (text "load %-3q!").
Proof.
  apply (unknown_specifier_renders_itself reference_platform
           (text "load %-3q!") sample_event
           {| pattern := text "load %-3q!";
              formattingInfo := FormattingInfo_reset; list_ := [];
              state := LITERAL_STATE; pos := 5;
              currentLiteral := text "load "; loglog := [] |}
           1 (text "3") [] "q"%char (text "!")
           [Some (LiteralPatternConverter (text "!"))] [] (text "!")).
  - vm_compute. discriminate.
  - exists 5%nat. vm_compute. reflexivity.
  - reflexivity.
  - reflexivity.
  - repeat constructor.
  - constructor.
  - vm_compute. intros H.
    repeat (destruct H as [H|H]; [discriminate|]). exact H.
  - reflexivity.
  - discriminate.
  - discriminate.
  - intros H. discriminate.
  - vm_compute. reflexivity.
  - reflexivity.
  - vm_compute. reflexivity.
Defined.

(** ** Specifiers with an option in braces *)

Lemma extractOption_at_block (p : PatternParser) (opt rest : cstring) :
  0 <= pos p ->
  unread p = "{"%char :: opt ++ "}"%char :: rest ->
  ~ In "}"%char opt ->
  PatternParser_extractOption p
  = Ok (opt, set_pos p (pos p + len opt + 2)).
Proof.
  intros Hps Hun Hopt.
  destruct (unread_cons p _ _ Hps Hun) as (Hat & Hrest & Hlen).
  unfold unread in Hun.
  pose proof (len_nonneg (opt ++ "}"%char :: rest)) as Hn.
  unfold PatternParser_extractOption.
  rewrite to_size_t_nonneg by lia.
  destruct (Z.ltb_spec (pos p) (len (pattern p))); [|lia].
  rewrite Hat. cbn [bind]. rewrite Ascii.eqb_refl.
  unfold find_first_of.
  destruct (Z.leb_spec (len (pattern p)) (pos p)); [lia|].
  rewrite Hun. cbn [find_from].
  assert (Hnb : "{"%char <> "}"%char) by discriminate.
  apply Ascii.eqb_neq in Hnb. rewrite Hnb.
  rewrite find_from_first by exact Hopt. cbn [index_to_int].
  destruct (Z.gtb_spec (Z.of_nat (S (Z.to_nat (pos p)) + length opt)) (pos p));
    [|lia].
  rewrite !to_size_t_nonneg by lia. unfold substr_n.
  destruct (Z.ltb_spec (len (pattern p)) (pos p + 1)); [lia|].
  cbn [bind]. rewrite Hrest.
  replace (Z.to_nat (Z.of_nat (S (Z.to_nat (pos p)) + length opt)
                     - pos p - 1)) with (length opt) by lia.
  rewrite firstn_app, firstn_all, Nat.sub_diag. cbn [firstn].
  rewrite app_nil_r. f_equal. f_equal. f_equal. unfold len. lia.
Qed.

Lemma extractOption_at_no_block (p : PatternParser) :
  0 <= pos p ->
  (forall rest', unread p = "{"%char :: rest' -> ~ In "}"%char rest') ->
  PatternParser_extractOption p = Ok ([], p).
Proof.
  intros Hps Hno. unfold PatternParser_extractOption.
  rewrite to_size_t_nonneg by lia.
  destruct (Z.ltb_spec (pos p) (len (pattern p))); [|reflexivity].
  destruct (unread p) as [|x rest'] eqn:Hun.
  { unfold unread in Hun. apply (f_equal (@length ascii)) in Hun.
    rewrite length_skipn in Hun. cbn [length] in Hun. unfold len in *. lia. }
  destruct (unread_cons p _ _ Hps Hun) as (Hat & _ & Hlen).
  rewrite Hat. cbn [bind].
  destruct (Ascii.eqb_spec x "{") as [->|]; [|reflexivity].
  unfold find_first_of.
  destruct (Z.leb_spec (len (pattern p)) (pos p)); [lia|].
  unfold unread in Hun. rewrite Hun. cbn [find_from].
  assert (Hnb : "{"%char <> "}"%char) by discriminate.
  apply Ascii.eqb_neq in Hnb. rewrite Hnb.
  rewrite find_from_none by (apply Hno; reflexivity).
  cbn [index_to_int].
  destruct (Z.gtb_spec (-1) (pos p)); [lia | reflexivity].
Qed.

Lemma finalize_with_option (P : Platform) (c : ascii) (p : PatternParser)
    (opt : cstring) (n : Z) (pc : PatternConverter) :
  PatternParser_extractOption p = Ok (opt, set_pos p n) ->
  option_converter c (formattingInfo p) opt = Some pc ->
  exists g,
    PatternParser_finalizeConverter P c p
    = Ok {| pattern := pattern p; formattingInfo := FormattingInfo_reset;
            list_ := list_ p ++ [Some pc]; state := LITERAL_STATE;
            pos := n; currentLiteral := []; loglog := loglog p ++ g |}.
Proof.
  intros Hopt Hpc. unfold option_converter in Hpc.
  unfold PatternParser_finalizeConverter,
    PatternParser_extractPrecisionOption.
  rewrite Hopt. cbn [bind].
  destruct (Ascii.eqb c "c").
  { injection Hpc as <-. eexists. fields. reflexivity. }
  destruct (Ascii.eqb c "d" || Ascii.eqb c "D"); [|discriminate].
  injection Hpc as <-. exists []. fields. rewrite app_nil_r. reflexivity.
Qed.

Lemma option_converter_plain (c : ascii) (info : FormattingInfo)
    (opt : cstring) (pc : PatternConverter) :
  option_converter c info opt = Some pc ->
  is_digit c = false /\ Ascii.eqb c "-" = false /\ Ascii.eqb c "." = false
  /\ Ascii.eqb c ESCAPE_CHAR = false /\ Ascii.eqb c "n" = false.
Proof.
  unfold option_converter. intros H.
  destruct (Ascii.eqb_spec c "c") as [->|]; [split_and!; reflexivity|].
  destruct (Ascii.eqb_spec c "d") as [->|]; [split_and!; reflexivity|].
  destruct (Ascii.eqb_spec c "D") as [->|]; [split_and!; reflexivity|].
  discriminate.
Qed.

Lemma unread_at (p : PatternParser) (n : Z) (s t : cstring) :
  0 <= pos p ->
  unread p = s ++ t ->
  n = pos p + len s ->
  skipn (Z.to_nat n) (pattern p) = t.
Proof.
  unfold unread, len. intros Hp H ->.
  replace (Z.to_nat (pos p + Z.of_nat (length s)))
    with (length s + Z.to_nat (pos p))%nat by lia.
  rewrite <- skipn_skipn, H, skipn_app, Nat.sub_diag.
  rewrite skipn_all2 by lia. reflexivity.
Qed.

(** A specifier with the letter c, d or D and an option in braces, met in
    literal state.  The option runs to the first closing brace.  For c it is
    read with [atoi] as the precision of a logger converter, 0 when it is
    empty; for d and D it is the format of a date converter, the default
    format when it is empty; d stands for [gmtime] and D for [localtime].
    The layout holds that converter with the formatting information of the
    modifiers, and the parser carries on after the closing brace. *)
Theorem option_specifier_in_literal_state (P : Platform) (pat : cstring)
    (event : InternalLoggingEvent) (p : PatternParser) (dashes : nat)
    (width precision : cstring) (c : ascii) (opt rest : cstring)
    (pc : PatternConverter) (tail : list (option PatternConverter))
    (a f b : cstring) :
  len pat <= INT_MAX ->
  runs P (set_pos (PatternParser_new pat) 0) p ->
  state p = LITERAL_STATE ->
  unread p
  = ESCAPE_CHAR :: modifiers dashes width precision
    ++ c :: "{"%char :: opt ++ "}"%char :: rest ->
  Forall (fun c => is_digit c = true) width ->
  Forall (fun c => is_digit c = true) precision ->
  ~ In "}"%char opt ->
  option_converter c (modifiers_info dashes width precision) opt = Some pc ->
  compile_from P
    (set_pos (PatternParser_new pat)
       (pos p + len (modifiers dashes width precision) + len opt + 4))
  = Ok tail ->
  format_all P (list_ p) event = Ok a ->
  PatternConverter_formatAndAppend P pc event = Ok f ->
  format_all P tail event = Ok b ->
  exists layout g,
    PatternLayout_new P pat = Ok (layout, g)
    /\ parsedPattern layout
       = list_ p ++ literal_if_any (currentLiteral p) ++ Some pc :: tail
    /\ PatternLayout_formatAndAppend P layout event
       = Ok (a ++ currentLiteral p ++ f ++ b).
Proof.
  intros Hlen Hruns Hst Hun Hw Hp Hopt Hpc Htail Ha Hf Hb.
  destruct (option_converter_plain _ _ _ _ Hpc) as (H1 & H2 & H3 & H4 & H5).
  pose (p0 := set_pos (PatternParser_new pat) 0).
  destruct (runs_bounds P p0 p Hruns) as (Hpat & Hpos & Hcur);
    [cbn; unfold len; lia | cbn; unfold len; cbn [length]; lia |].
  change (pattern p0) with pat in Hpat.
  pose proof (len_nonneg (modifiers dashes width precision)) as Hmn.
  pose (pf := {| pattern := pat;
                 formattingInfo := modifiers_info dashes width precision;
                 list_ := list_ p ++ literal_if_any (currentLiteral p);
                 state := modifiers_state width precision;
                 pos := pos p + len (modifiers dashes width precision) + 2;
                 currentLiteral :=
                   ESCAPE_CHAR :: modifiers dashes width precision ++ [c];
                 loglog := loglog p |}).
  assert (Hex : PatternParser_extractOption pf
                = Ok (opt, set_pos pf (pos pf + len opt + 2))).
  { apply (extractOption_at_block pf opt rest); [cbn [pos pf]; lia | | exact Hopt].
    unfold unread. cbn [pos pattern pf]. rewrite <- Hpat.
    apply (unread_at p _ (ESCAPE_CHAR :: modifiers dashes width precision
                          ++ [c])); [lia | |].
    - rewrite Hun. cbn [app]. rewrite <- app_assoc. reflexivity.
    - change (ESCAPE_CHAR :: modifiers dashes width precision ++ [c])
        with ([ESCAPE_CHAR] ++ modifiers dashes width precision ++ [c]).
      rewrite !len_app. unfold len at 2 4. cbn [length]. lia. }
  destruct (finalize_with_option P c pf opt _ pc Hex Hpc) as [g Hfin].
  destruct (specifier_render P pat event p _ dashes width precision c
              ("{"%char :: opt ++ "}"%char :: rest) tail pc a f b
              Hlen Hruns Hst Hun Hw Hp H1 H2 H3 (fun _ => conj H4 H5) Hfin)
    as (layout & g' & R); try assumption; try reflexivity.
  { cbn [pos pf]. 
    replace (pos p + len (modifiers dashes width precision) + 2 + len opt + 2)
      with (pos p + len (modifiers dashes width precision) + len opt + 4)
      by lia.
    exact Htail. }
  exists layout, g'. exact R.
Qed.

(** The same letters without an option: when no opening brace follows the
    letter, or no closing brace follows the opening one, the option is
    empty, nothing after the letter is consumed, and a brace that was opened
    is literal text. *)
Theorem bare_option_specifier_in_literal_state (P : Platform) (pat : cstring)
    (event : InternalLoggingEvent) (p : PatternParser) (dashes : nat)
    (width precision : cstring) (c : ascii) (rest : cstring)
    (pc : PatternConverter) (tail : list (option PatternConverter))
    (a f b : cstring) :
  len pat <= INT_MAX ->
  runs P (set_pos (PatternParser_new pat) 0) p ->
  state p = LITERAL_STATE ->
  unread p = ESCAPE_CHAR :: modifiers dashes width precision ++ c :: rest ->
  Forall (fun c => is_digit c = true) width ->
  Forall (fun c => is_digit c = true) precision ->
  (forall rest', rest = "{"%char :: rest' -> ~ In "}"%char rest') ->
  option_converter c (modifiers_info dashes width precision) [] = Some pc ->
  compile_from P
    (set_pos (PatternParser_new pat)
       (pos p + len (modifiers dashes width precision) + 2)) = Ok tail ->
  format_all P (list_ p) event = Ok a ->
  PatternConverter_formatAndAppend P pc event = Ok f ->
  format_all P tail event = Ok b ->
  exists layout g,
    PatternLayout_new P pat = Ok (layout, g)
    /\ parsedPattern layout
       = list_ p ++ literal_if_any (currentLiteral p) ++ Some pc :: tail
    /\ PatternLayout_formatAndAppend P layout event
       = Ok (a ++ currentLiteral p ++ f ++ b).
Proof.
  intros Hlen Hruns Hst Hun Hw Hp Hno Hpc Htail Ha Hf Hb.
  destruct (option_converter_plain _ _ _ _ Hpc) as (H1 & H2 & H3 & H4 & H5).
  pose (p0 := set_pos (PatternParser_new pat) 0).
  destruct (runs_bounds P p0 p Hruns) as (Hpat & Hpos & Hcur);
    [cbn; unfold len; lia | cbn; unfold len; cbn [length]; lia |].
  change (pattern p0) with pat in Hpat.
  pose proof (len_nonneg (modifiers dashes width precision)) as Hmn.
  pose (pf := {| pattern := pat;
                 formattingInfo := modifiers_info dashes width precision;
                 list_ := list_ p ++ literal_if_any (currentLiteral p);
                 state := modifiers_state width precision;
                 pos := pos p + len (modifiers dashes width precision) + 2;
                 currentLiteral :=
                   ESCAPE_CHAR :: modifiers dashes width precision ++ [c];
                 loglog := loglog p |}).
  assert (Hex : PatternParser_extractOption pf = Ok ([], set_pos pf (pos pf))).
  { replace (set_pos pf (pos pf)) with pf by reflexivity.
    apply (extractOption_at_no_block pf); [cbn [pos pf]; lia|].
    intros rest' Hr. apply Hno. rewrite <- Hr.
    unfold unread. cbn [pos pattern pf]. rewrite <- Hpat. symmetry.
    apply (unread_at p _ (ESCAPE_CHAR :: modifiers dashes width precision
                          ++ [c])); [lia | |].
    - rewrite Hun. cbn [app]. rewrite <- app_assoc. reflexivity.
    - change (ESCAPE_CHAR :: modifiers dashes width precision ++ [c])
        with ([ESCAPE_CHAR] ++ modifiers dashes width precision ++ [c]).
      rewrite !len_app. unfold len at 2 4. cbn [length]. lia. }
  destruct (finalize_with_option P c pf [] _ pc Hex Hpc) as [g Hfin].
  destruct (specifier_render P pat event p _ dashes width precision c
              rest tail pc a f b
              Hlen Hruns Hst Hun Hw Hp H1 H2 H3 (fun _ => conj H4 H5) Hfin)
    as (layout & g' & R); try assumption; try reflexivity.
  exists layout, g'. exact R.
Qed.

Lemma option_specifier_in_literal_state_witness :
  (exists layout g,
     PatternLayout_new reference_platform (text "%-20c{2}|") = Ok (layout, g)
     /\ parsedPattern layout
        = [Some (Logger {| minLen := 20; maxLen := 2147483647;
                           leftAlign := true |} 2);
           Some (LiteralPatternConverter (text "|"))]
     /\ PatternLayout_formatAndAppend reference_platform layout sample_event
        = Ok (text "acme.Service        |"))
  /\ (exists layout g,
        PatternLayout_new reference_platform (text "at %d{%H:%M:%S}")
        = Ok (layout, g)
        /\ parsedPattern layout
           = [Some (LiteralPatternConverter (text "at "));
              Some (Date FormattingInfo_reset (text "%H:%M:%S") true)]
        /\ PatternLayout_formatAndAppend reference_platform layout
             sample_event = Ok (text "at 00:00:12")).
Proof.
  split.
  - apply (option_specifier_in_literal_state reference_platform
             (text "%-20c{2}|") sample_event
             (set_pos (PatternParser_new (text "%-20c{2}|")) 0)
             1 (text "20") [] "c"%char (text "2") (text "|")
             (Logger {| minLen := 20; maxLen := 2147483647;
                        leftAlign := true |} 2)
             [Some (LiteralPatternConverter (text "|"))]
             [] (text "acme.Service        ") (text "|")).
    + vm_compute. discriminate.
    + exists 0%nat. vm_compute. reflexivity.
    + reflexivity.
    + reflexivity.
    + repeat constructor.
    + constructor.
    + intros H. repeat (destruct H as [H|H]; [discriminate|]). exact H.
    + vm_compute. reflexivity.
    + vm_compute. reflexivity.
    + reflexivity.
    + vm_compute. reflexivity.
    + vm_compute. reflexivity.
  - apply (option_specifier_in_literal_state reference_platform
             (text "at %d{%H:%M:%S}") sample_event
             {| pattern := text "at %d{%H:%M:%S}";
                formattingInfo := FormattingInfo_reset; list_ := [];
                state := LITERAL_STATE; pos := 3;
                currentLiteral := text "at "; loglog := [] |}
             0 [] [] "d"%char (text "%H:%M:%S") []
             (Date FormattingInfo_reset (text "%H:%M:%S") true)
             [] [] (text "00:00:12") []).
    + vm_compute. discriminate.
    + exists 3%nat. vm_compute. reflexivity.
    + reflexivity.
    + reflexivity.
    + constructor.
    + constructor.
    + intros H. repeat (destruct H as [H|H]; [discriminate|]). exact H.
    + vm_compute. reflexivity.
    + vm_compute. reflexivity.
    + reflexivity.
    + vm_compute. reflexivity.
    + reflexivity.
Defined.

Lemma bare_option_specifier_in_literal_state_witness :
  (exists layout g,
     PatternLayout_new reference_platform (text "%c %d") = Ok (layout, g)
     /\ parsedPattern layout
        = [Some (Logger FormattingInfo_reset 0);
           Some (LiteralPatternConverter (text " "));
           Some (Date FormattingInfo_reset (text "%Y-%m-%d %H:%M:%S") true)]
     /\ PatternLayout_formatAndAppend reference_platform layout sample_event
        = Ok (text "com.acme.Service 1970-01-01 00:00:12"))
  /\ (exists layout g,
        PatternLayout_new reference_platform (text "%D{%H") = Ok (layout, g)
        /\ parsedPattern layout
           = [Some (Date FormattingInfo_reset (text "%Y-%m-%d %H:%M:%S")
                      false);
              Some (LiteralPatternConverter (text "{"));
              Some (LiteralPatternConverter (text "%H"))]
        /\ PatternLayout_formatAndAppend reference_platform layout
             sample_event = Ok (text "1970-01-01 00:00:12{%H")).
Proof.
  split.
  - apply (bare_option_specifier_in_literal_state reference_platform
             (text "%c %d") sample_event
             (set_pos (PatternParser_new (text "%c %d")) 0)
             0 [] [] "c"%char (text " %d")
             (Logger FormattingInfo_reset 0)
             [Some (LiteralPatternConverter (text " "));
              Some (Date FormattingInfo_reset (text "%Y-%m-%d %H:%M:%S")
                      true)]
             [] (text "com.acme.Service") (text " 1970-01-01 00:00:12")).
    + vm_compute. discriminate.
    + exists 0%nat. vm_compute. reflexivity.
    + reflexivity.
    + reflexivity.
    + constructor.
    + constructor.
    + intros rest' H. discriminate.
    + vm_compute. reflexivity.
    + vm_compute. reflexivity.
    + reflexivity.
    + vm_compute. reflexivity.
    + vm_compute. reflexivity.
  - apply (bare_option_specifier_in_literal_state reference_platform
             (text "%D{%H") sample_event
             (set_pos (PatternParser_new (text "%D{%H")) 0)
             0 [] [] "D"%char (text "{%H")
             (Date FormattingInfo_reset (text "%Y-%m-%d %H:%M:%S") false)
             [Some (LiteralPatternConverter (text "{"));
              Some (LiteralPatternConverter (text "%H"))]
             [] (text "1970-01-01 00:00:12") (text "{%H")).
    + vm_compute. discriminate.
    + exists 0%nat. vm_compute. reflexivity.
    + reflexivity.
    + reflexivity.
    + constructor.
    + constructor.
    + intros rest' [= <-] H.
      repeat (destruct H as [H|H]; [discriminate|]). exact H.
    + vm_compute. reflexivity.
    + vm_compute. reflexivity.
    + reflexivity.
    + vm_compute. reflexivity.
    + vm_compute. reflexivity.
Defined.

(** ** The end of the pattern *)

Lemma loglog_parse_flush (p : PatternParser) :
  loglog (parse_flush p) = loglog p.
Proof. unfold parse_flush. destruct (negb _); reflexivity. Qed.

(** The layout built from a pattern holds what the parser's last state
    holds, the pending text included. *)
Lemma layout_of_final_state (P : Platform) (pat : cstring)
    (F : PatternParser) :
  runs P (set_pos (PatternParser_new pat) 0) F ->
  pos F = len pat ->
  list_ F ++ literal_if_any (currentLiteral F) <> [] ->
  exists layout,
    PatternLayout_new P pat = Ok (layout, loglog F)
    /\ parsedPattern layout = list_ F ++ literal_if_any (currentLiteral F).
Proof.
  intros Hruns Hend Hne.
  pose (p0 := set_pos (PatternParser_new pat) 0).
  destruct (runs_bounds P p0 F Hruns) as (Hpat & _ & _);
    [cbn; unfold len; lia | cbn; unfold len; cbn [length]; lia |].
  change (pattern p0) with pat in Hpat.
  assert (Hfull : parse_loop P (length pat) p0 = Ok F).
  { apply (runs_complete P p0 F Hruns).
    - rewrite Hpat. exact Hend.
    - cbn. unfold len. lia.
    - cbn. unfold len. cbn [length]. lia. }
  destruct (init_keeps_parsed_list P pat)
    as (parsed & g0 & layout & Hparse & _ & Hinit & _ & Hlist).
  unfold PatternParser_parse in Hparse. fold p0 in Hparse.
  change (pattern p0) with pat in Hparse. rewrite Hfull in Hparse.
  cbn [bind] in Hparse. injection Hparse as <- <-.
  rewrite list_parse_flush, loglog_parse_flush in *.
  exists layout.
  destruct (list_ F ++ literal_if_any (currentLiteral F)) as [|x l];
    [congruence|].
  cbn [len_nat_zero length Nat.eqb] in *. rewrite app_nil_r in Hinit.
  split; assumption.
Qed.

(** In literal state the last character of the pattern is always a
    literal, the escape character too: it joins the pending text, which
    becomes the last converter. *)
Theorem last_character_is_literal (P : Platform) (pat : cstring)
    (event : InternalLoggingEvent) (p : PatternParser) (c : ascii)
    (a : cstring) :
  len pat <= INT_MAX ->
  runs P (set_pos (PatternParser_new pat) 0) p ->
  state p = LITERAL_STATE ->
  unread p = [c] ->
  format_all P (list_ p) event = Ok a ->
  exists layout,
    PatternLayout_new P pat = Ok (layout, loglog p)
    /\ parsedPattern layout
       = list_ p ++ [Some (LiteralPatternConverter (currentLiteral p ++ [c]))]
    /\ PatternLayout_formatAndAppend P layout event
       = Ok (a ++ currentLiteral p ++ [c]).
Proof.
  intros Hlen Hruns Hst Hun Ha.
  pose (p0 := set_pos (PatternParser_new pat) 0).
  destruct (runs_bounds P p0 p Hruns) as (Hpat & Hpos & Hcur);
    [cbn; unfold len; lia | cbn; unfold len; cbn [length]; lia |].
  change (pattern p0) with pat in Hpat.
  destruct (unread_cons p _ _ (proj1 Hpos) Hun) as (Hat & _ & Hl).
  rewrite Hpat in Hl, Hat. change (len []) with 0 in Hl.
  pose (F := append_literal (set_pos p (pos p + 1)) c).
  assert (Hbody : parse_body P p = Ok F).
  { unfold parse_body. rewrite Hpat, Hat. cbn [bind]. cbv zeta.
    subst F. destruct p as [pt fi l st ps cur lg]. fields.
    cbn [pattern pos state] in *. subst st pt.
    rewrite to_size_t_nonneg by lia.
    destruct (Z.eqb_spec (ps + 1) (len pat)); [reflexivity | lia]. }
  assert (Hne : literal_if_any (currentLiteral p ++ [c])
                = [Some (LiteralPatternConverter (currentLiteral p ++ [c]))]).
  { unfold literal_if_any. rewrite len_app1.
    pose proof (len_nonneg (currentLiteral p)).
    destruct (Z.eqb_spec (len (currentLiteral p) + 1) 0); [lia|]. reflexivity. }
  destruct (layout_of_final_state P pat F) as (layout & Hnew & Hparsed).
  - apply (runs_trans P p0 p F); [exact Hruns|].
    apply runs_step; [rewrite Hpat; lia | exact Hbody].
  - subst F. fields. lia.
  - subst F. fields. rewrite Hne. destruct (list_ p); discriminate.
  - subst F. fields. rewrite Hne in Hparsed.
    exists layout. split_and!; [exact Hnew | exact Hparsed |].
    unfold PatternLayout_formatAndAppend.
    rewrite Hparsed, format_all_app_bind, Ha. cbn [bind format_all].
    rewrite literal_renders_itself by (rewrite len_app1; lia).
    cbn [bind]. rewrite app_nil_r. reflexivity.
Qed.

(** A pattern that ends inside a specifier, after the escape character and
    at least one modifier: no converter is built and no diagnostic is
    written, and the unfinished specifier is rendered as it is written. *)
Theorem unfinished_specifier_renders_itself (P : Platform) (pat : cstring)
    (event : InternalLoggingEvent) (p : PatternParser) (dashes : nat)
    (width precision : cstring) (a : cstring) :
  len pat <= INT_MAX ->
  runs P (set_pos (PatternParser_new pat) 0) p ->
  state p = LITERAL_STATE ->
  unread p = ESCAPE_CHAR :: modifiers dashes width precision ->
  modifiers dashes width precision <> [] ->
  Forall (fun c => is_digit c = true) width ->
  Forall (fun c => is_digit c = true) precision ->
  format_all P (list_ p) event = Ok a ->
  exists layout,
    PatternLayout_new P pat = Ok (layout, loglog p)
    /\ parsedPattern layout
       = list_ p ++ literal_if_any (currentLiteral p)
         ++ [Some (LiteralPatternConverter
                     (ESCAPE_CHAR :: modifiers dashes width precision))]
    /\ PatternLayout_formatAndAppend P layout event
       = Ok (a ++ currentLiteral p
             ++ ESCAPE_CHAR :: modifiers dashes width precision).
Proof.
  intros Hlen Hruns Hst Hun Hm Hw Hp Ha.
  pose (p0 := set_pos (PatternParser_new pat) 0).
  destruct (runs_bounds P p0 p Hruns) as (Hpat & Hpos & Hcur);
    [cbn; unfold len; lia | cbn; unfold len; cbn [length]; lia |].
  change (pattern p0) with pat in Hpat.
  destruct (unread_cons p _ _ (proj1 Hpos) Hun) as (_ & Hrest & Hl).
  rewrite Hpat in Hl, Hrest.
  pose proof (len_nonneg (modifiers dashes width precision)) as Hmn.
  pose (F := {| pattern := pat;
                formattingInfo := modifiers_info dashes width precision;
                list_ := list_ p ++ literal_if_any (currentLiteral p);
                state := modifiers_state width precision;
                pos := pos p + 1 + len (modifiers dashes width precision);
                currentLiteral :=
                  [ESCAPE_CHAR] ++ modifiers dashes width precision;
                loglog := loglog p |}).
  assert (HpF : runs P p F).
  { destruct p as [pt fi l st ps cur lg].
    cbn [pattern state pos currentLiteral list_ loglog] in *. subst pt st.
    unfold unread in Hun. cbn [pos pattern] in Hun.
    destruct (modifiers dashes width precision) as [|d t'] eqn:Em;
      [congruence|].
    assert (Hd : Ascii.eqb d ESCAPE_CHAR = false /\ Ascii.eqb d "n" = false).
    { apply (modifiers_head dashes width precision "x" d [] (t' ++ ["x"%char])).
      - rewrite Em. reflexivity.
      - exact Hw.
      - rewrite Em. discriminate. }
    eapply runs_trans.
    { apply runs_step; [cbn [pos pattern]; lia|].
      apply (turn_escape P pat fi l ps cur lg (proj1 Hpos) d t' Hun
               (proj1 Hd) (proj2 Hd)). }
    subst F. rewrite <- Em.
    apply (run_modifiers P pat (l ++ literal_if_any cur) lg (ps + 1)
             [ESCAPE_CHAR] dashes width precision []); try assumption.
    - lia.
    - rewrite app_nil_r, Em. exact Hrest. }
  assert (Hne : literal_if_any
                  (ESCAPE_CHAR :: modifiers dashes width precision)
                = [Some (LiteralPatternConverter
                           (ESCAPE_CHAR :: modifiers dashes width precision))]).
  { unfold literal_if_any. rewrite len_cons_not_zero. reflexivity. }
  destruct (layout_of_final_state P pat F) as (layout & Hnew & Hparsed).
  - apply (runs_trans P p0 p F); assumption.
  - subst F. cbn [pos]. unfold len in Hl at 2. cbn [length] in Hl.
    unfold len in *. lia.
  - subst F. cbn [list_ currentLiteral app]. rewrite Hne.
    destruct (list_ p ++ literal_if_any (currentLiteral p)); discriminate.
  - subst F. cbn [list_ currentLiteral loglog app] in *.
    rewrite Hne, <- app_assoc in Hparsed.
    exists layout. split_and!; [exact Hnew | exact Hparsed |].
    unfold PatternLayout_formatAndAppend.
    rewrite Hparsed, format_all_app_bind, Ha. cbn [bind].
    rewrite format_all_app_bind, format_all_literal_if_any by lia.
    cbn [bind format_all].
    rewrite literal_renders_itself.
    + cbn [bind]. rewrite app_nil_r. reflexivity.
    + unfold len in *. cbn [length] in *. lia.
Qed.

Lemma last_character_is_literal_witness :
  exists layout,
    PatternLayout_new reference_platform (text "100%") = Ok (layout, [])
    /\ parsedPattern layout = [Some (LiteralPatternConverter (text "100%"))]
    /\ PatternLayout_formatAndAppend reference_platform layout sample_event
       = Ok (text "100%").
Proof.
  apply (last_character_is_literal reference_platform (text "100%")
           sample_event
           {| pattern := text "100%"; formattingInfo := FormattingInfo_reset;
              list_ := []; state := LITERAL_STATE; pos := 3;
              currentLiteral := text "100"; loglog := [] |}
           "%"%char []).
  - vm_compute. discriminate.
  - exists 3%nat. vm_compute. reflexivity.
  - reflexivity.
  - reflexivity.
  - reflexivity.
Defined.

Lemma unfinished_specifier_renders_itself_witness :
  exists layout,
    PatternLayout_new reference_platform (text "x%-5.2") = Ok (layout, [])
    /\ parsedPattern layout
       = [Some (LiteralPatternConverter (text "x"));
          Some (LiteralPatternConverter (text "%-5.2"))]
    /\ PatternLayout_formatAndAppend reference_platform layout sample_event
       = Ok (text "x%-5.2").
Proof.
  apply (unfinished_specifier_renders_itself reference_platform
           (text "x%-5.2") sample_event
           {| pattern := text "x%-5.2";
              formattingInfo := FormattingInfo_reset;
              list_ := []; state := LITERAL_STATE; pos := 1;
              currentLiteral := text "x"; loglog := [] |}
           1 (text "5") (text "2") []).
  - vm_compute. discriminate.
  - exists 1%nat. vm_compute. reflexivity.
  - reflexivity.
  - reflexivity.
  - discriminate.
  - repeat constructor.
  - repeat constructor.
  - reflexivity.
Defined.

(** ** How a render can end *)

(** [BasicPatternConverter::convert] fails in one case only: the relative
    time with a [CLOCKS_PER_MILLIS] of 0, the division by zero. *)
Theorem basic_convert_fails_only_on_zero_clock (P : Platform) (cpm : Z)
    (type : BasicType) (event : InternalLoggingEvent) (e : abend) :
  BasicPatternConverter_convert P cpm type event = Stop e
  <-> type = RELATIVE_TIME_CONVERTER /\ cpm = 0 /\ e = division_by_zero.
Proof.
  split.
  - destruct type; cbn [BasicPatternConverter_convert]; try discriminate.
    + destruct (Z.eqb_spec cpm 0); [|discriminate].
      intros [= <-]. auto.
    + destruct (negb _); discriminate.
    + destruct (file event); discriminate.
  - intros (-> & -> & ->). reflexivity.
Qed.

Lemma format_field_failure (i : FormattingInfo) (s : cstring) (e : abend) :
  format_field i s = Stop e -> e = out_of_range /\ maxLen i < 0.
Proof.
  unfold format_field. pose proof (len_nonneg s) as Hs.
  destruct (Z.gtb_spec (len s) (maxLen i)) as [Hgt|Hle].
  - unfold substr.
    destruct (Z.ltb_spec (len s) (to_size_t (len s - maxLen i))) as [Hlt|];
      [|discriminate].
    intros [= <-]. split; [reflexivity|].
    rewrite to_size_t_nonneg in Hlt by lia. lia.
  - destruct (_ <? _); [destruct (leftAlign i)|]; discriminate.
Qed.

Lemma formatAndAppend_failure (P : Platform) (pc : PatternConverter)
    (event : InternalLoggingEvent) (e : abend) :
  PatternConverter_formatAndAppend P pc event = Stop e ->
  (e = out_of_range /\ maxLen (info_of pc) < 0)
  \/ (e = division_by_zero
      /\ exists i, pc = Basic i 0 RELATIVE_TIME_CONVERTER)
  \/ (e = null_tm
      /\ exists i format use_gmtime,
           pc = Date i format use_gmtime
           /\ broken_down_time P use_gmtime event = None).
Proof.
  unfold PatternConverter_formatAndAppend.
  destruct (convert P pc event) as [s|e'] eqn:Hc; cbn [bind].
  - intros H. left. exact (format_field_failure _ _ _ H).
  - intros [= <-]. destruct pc as [i s|i cpm ty|i precision|i format u];
      cbn [convert] in Hc.
    + discriminate.
    + right. left.
      destruct ty; cbn [BasicPatternConverter_convert] in Hc;
        try discriminate.
      * destruct (Z.eqb_spec cpm 0) as [->|]; [|discriminate].
        injection Hc as <-. eauto.
      * destruct (negb _); discriminate.
      * destruct (file event); discriminate.
    + exfalso. unfold LoggerPatternConverter_convert in Hc.
      destruct (Z.leb_spec precision 0); [discriminate|].
      destruct (logger_walk _ _ _) as [k|] eqn:Hk; [|discriminate].
      apply logger_walk_lands_on_dot in Hk; [|lia].
      destruct Hk as [Hk0 Hdot].
      assert (Hlt : (Z.to_nat k < length (loggerName event))%nat).
      { apply nth_error_Some. congruence. }
      rewrite to_size_t_nonneg in Hc by lia. unfold substr, len in Hc.
      destruct (Z.ltb_spec (Z.of_nat (length (loggerName event))) (k + 1));
        [lia | discriminate].
    + right. right. unfold DatePatternConverter_convert in Hc.
      unfold broken_down_time.
      destruct (if u then gmtime P (timestamp event)
                else localtime P (timestamp event)) as [t|] eqn:Ht.
      * destruct (strftime P BUFFER_SIZE format t) as [r buf].
        destruct (r >? 0); discriminate.
      * injection Hc as <-. eauto 6.
Qed.

(** A render that does not return normally.  Over a list without a null
    slot it is an exception of one of three kinds, each with its cause in
    one converter of the list: [std::out_of_range] from a negative
    [maxLen], the division by zero of the relative time on a clock coarser
    than a millisecond, and [strftime] reading the null pointer that
    [gmtime] or [localtime] returned.  The layout a pattern compiles to has
    no null slot, so its render throws nothing else; running out of memory
    for the padding is not part of the model. *)
Theorem render_failure_causes (P : Platform) (pat : cstring)
    (layout : PatternLayout) (g : LogLog) (event : InternalLoggingEvent)
    (e : abend) :
  PatternLayout_new P pat = Ok (layout, g) ->
  PatternLayout_formatAndAppend P layout event = Stop e ->
  exists pc,
    In (Some pc) (parsedPattern layout)
    /\ ((e = out_of_range /\ maxLen (info_of pc) < 0)
        \/ (e = division_by_zero
            /\ exists i, pc = Basic i 0 RELATIVE_TIME_CONVERTER)
        \/ (e = null_tm
            /\ exists i format use_gmtime,
                 pc = Date i format use_gmtime
                 /\ broken_down_time P use_gmtime event = None)).
Proof.
  intros Hnew Hr.
  destruct (init_keeps_parsed_list P pat)
    as (parsed & g0 & layout' & _ & Hnn & Hinit & _ & Hlist).
  unfold PatternLayout_new in Hnew. rewrite Hinit in Hnew.
  injection Hnew as <- _.
  assert (Hl : no_null (parsedPattern layout')).
  { rewrite Hlist. destruct (len_nat_zero parsed); [|exact Hnn].
    repeat constructor. }
  unfold PatternLayout_formatAndAppend in Hr.
  clear Hlist Hinit. revert Hr.
  induction (parsedPattern layout') as [|[pc|] l IH]; cbn [format_all].
  - discriminate.
  - inversion Hl as [|? ? _ Hl']; subst.
    destruct (PatternConverter_formatAndAppend P pc event) as [s|e'] eqn:Hpc;
      cbn [bind].
    + destruct (format_all P l event) as [r|e'] eqn:Hrest; cbn [bind];
        [discriminate|].
      intros [= <-]. destruct (IH Hl' eq_refl) as (pc' & Hin & Hc).
      exists pc'. split; [right; exact Hin | exact Hc].
    + intros [= <-]. exists pc. split; [left; reflexivity|].
      exact (formatAndAppend_failure P pc event e' Hpc).
  - inversion Hl as [|? ? Hx _]. discriminate.
Qed.

Lemma render_failure_causes_witness :
  exists pc,
    In (Some pc)
      [Some (Basic {| minLen := -1; maxLen := -1; leftAlign := false |} 1000
               MESSAGE_CONVERTER)]
    /\ ((out_of_range = out_of_range /\ maxLen (info_of pc) < 0)
        \/ (out_of_range = division_by_zero
            /\ exists i, pc = Basic i 0 RELATIVE_TIME_CONVERTER)
        \/ (out_of_range = null_tm
            /\ exists i format use_gmtime,
                 pc = Date i format use_gmtime
                 /\ broken_down_time reference_platform use_gmtime
                      sample_event = None)).
Proof.
  apply (render_failure_causes reference_platform (text "%.4294967295m")
           {| layout_pattern := text "%.4294967295m";
              parsedPattern :=
                [Some (Basic {| minLen := -1; maxLen := -1;
                                leftAlign := false |} 1000
                         MESSAGE_CONVERTER)] |}
           [] sample_event out_of_range).
  - vm_compute. reflexivity.
  - vm_compute. reflexivity.
Defined.

(** ** Widths that fit an int *)

Lemma digit_value_range (c : ascii) :
  is_digit c = true -> 0 <= digit_value c <= 9.
Proof.
  unfold is_digit, digit_value. cbv zeta. intros H.
  apply andb_true_iff in H. destruct H as [H1 H2].
  apply Z.leb_le in H1, H2. lia.
Qed.

Lemma to_int_exact (z : Z) : INT_MIN <= z <= INT_MAX -> to_int z = z.
Proof.
  unfold to_int, INT_MIN, INT_MAX. intros H.
  rewrite Z.mod_small by lia. lia.
Qed.

Lemma numeral_from_grows (ds : cstring) (a : Z) :
  Forall (fun c => is_digit c = true) ds ->
  0 <= a ->
  a <= fold_left (fun a c => a * 10 + digit_value c) ds a.
Proof.
  revert a. induction ds as [|d ds IH]; intros a Hds Ha; cbn [fold_left];
    [lia|].
  inversion Hds as [|? ? Hd Hds']; subst.
  pose proof (digit_value_range d Hd).
  specialize (IH (a * 10 + digit_value d) Hds' ltac:(lia)). lia.
Qed.

Lemma decimal_from_exact (ds : cstring) (a : Z) :
  Forall (fun c => is_digit c = true) ds ->
  0 <= a ->
  fold_left (fun a c => a * 10 + digit_value c) ds a <= INT_MAX ->
  decimal_from a ds = fold_left (fun a c => a * 10 + digit_value c) ds a.
Proof.
  unfold decimal_from.
  revert a. induction ds as [|d ds IH]; intros a Hds Ha Hmax; cbn [fold_left];
    [reflexivity|].
  inversion Hds as [|? ? Hd Hds']; subst.
  pose proof (digit_value_range d Hd).
  cbn [fold_left] in Hmax.
  pose proof (numeral_from_grows ds (a * 10 + digit_value d) Hds' ltac:(lia)).
  unfold int_add, int_mul.
  rewrite (to_int_exact (a * 10)) by (unfold INT_MIN, INT_MAX in *; lia).
  rewrite to_int_exact by (unfold INT_MIN, INT_MAX in *; lia).
  apply IH; [exact Hds' | lia | exact Hmax].
Qed.

(** A decimal width of at most 2^31 - 1 is read as the number it denotes;
    only a larger one wraps around. *)
Lemma decimal_value_exact (ds : cstring) :
  Forall (fun c => is_digit c = true) ds ->
  numeral_value ds <= INT_MAX ->
  decimal_value ds = numeral_value ds.
Proof.
  unfold numeral_value, decimal_value. intros Hds Hmax.
  destruct ds as [|d ds]; [reflexivity|].
  inversion Hds as [|? ? Hd Hds']; subst.
  pose proof (digit_value_range d Hd).
  cbn [fold_left] in *. rewrite Z.mul_0_l, Z.add_0_l in *.
  apply decimal_from_exact; [exact Hds' | lia | exact Hmax].
Qed.
